(** * SavingsPlan: a shallow embedding of contracts/SavingsPlan.sol

    The contract is modelled as pure functions over an explicit world state:
    the contract's storage, the USDC token ledger it talks to, the external
    yield protocol behind [IYieldProtocol], the block timestamp and the log
    of the events emitted since deployment.  A call either returns the new world or reverts; a revert discards
    every effect of the call, as on the EVM.

    Integers are [uint256] values carried as [N]; Solidity 0.8 checked
    arithmetic is written out ([add], [sub], [mul], [div] revert on overflow,
    underflow and division by zero).  Storage mappings are finite maps read
    with the zero default.  External contracts are modelled as not calling
    back into SavingsPlan, so a transaction runs to completion on its own
    and the [nonReentrant] guard never fires. *)

From Stdlib Require Import NArith ZArith Lia Bool List.
From stdpp Require Import base option gmap strings list.
Import ListNotations.

Local Open Scope N_scope.

(** ** Values and reverts *)

Definition address := N.
Definition uint256 := N.
Definition bytes32 := N.

Definition MAX_UINT256 : N := 2 ^ 256 - 1.

Inductive Error :=
  (* SavingsPlan custom errors *)
  | InvalidPlanDuration | InvalidDailyAmount | InvalidPlanId | PlanNotActive
  | PlanAlreadyCompleted | InsufficientBalance | DeductionAlreadyExecuted
  | PlanNotMature | InvalidWithdrawalAmount | Unauthorized
  | InvalidYieldProtocol | YieldProtocolUnhealthy | InsufficientYieldBalance
  | InvalidEmergencyWithdrawal | EmergencyWithdrawalNotReady
  | EmergencyWithdrawalAlreadyExecuted | EmergencyWithdrawalIsCancelled
  | InvalidParameter | AccountingMismatch
  (* OpenZeppelin Pausable / AccessControl *)
  | EnforcedPause | ExpectedPause | AccessControlUnauthorizedAccount
  | AccessControlBadConfirmation
  (* OpenZeppelin Ownable *)
  | OwnableUnauthorizedAccount | OwnableInvalidOwner
  (* OpenZeppelin ERC20 *)
  | ERC20InsufficientBalance | ERC20InsufficientAllowance
  | ERC20InvalidSender | ERC20InvalidReceiver
  | ERC20InvalidApprover | ERC20InvalidSpender
  (* Solidity panics and failed external calls *)
  | PanicArithmetic | PanicDivisionByZero | ExternalCallFailed.

Inductive res (A : Type) : Type :=
  | Ok (a : A)
  | Revert (e : Error).
Arguments Ok {A} a.
Arguments Revert {A} e.

Definition bind {A B} (r : res A) (k : A -> res B) : res B :=
  match r with
  | Ok a => k a
  | Revert e => Revert e
  end.

#[global] Instance res_bind : MBind res := fun A B k r => bind r k.
#[global] Instance res_ret : MRet res := @Ok.

(** [require c e]: continue when [c] holds, revert with [e] otherwise. *)
Definition require (c : bool) (e : Error) : res unit :=
  if c then Ok tt else Revert e.

Definition succeeds {A} (r : res A) : Prop := exists a, r = Ok a.
Definition reverts_with {A} (r : res A) (e : Error) : Prop := r = Revert e.
Definition reverts {A} (r : res A) : Prop := exists e, r = Revert e.

(** ** Checked uint256 arithmetic (Solidity >= 0.8) *)

Definition add (a b : uint256) : res uint256 :=
  if a + b <=? MAX_UINT256 then Ok (a + b) else Revert PanicArithmetic.

Definition sub (a b : uint256) : res uint256 :=
  if b <=? a then Ok (a - b) else Revert PanicArithmetic.

Definition mul (a b : uint256) : res uint256 :=
  if a * b <=? MAX_UINT256 then Ok (a * b) else Revert PanicArithmetic.

Definition div (a b : uint256) : res uint256 :=
  if b =? 0 then Revert PanicDivisionByZero else Ok (a / b).

(** ** Constants *)

Definition hours1 : uint256 := 3600.
Definition days1 : uint256 := 86400.

Definition PLAN_DURATION_1_MONTH : uint256 := 30 * days1.
Definition PLAN_DURATION_3_MONTHS : uint256 := 90 * days1.
Definition PLAN_DURATION_6_MONTHS : uint256 := 180 * days1.
Definition PLAN_DURATION_1_YEAR : uint256 := 365 * days1.
Definition PRECISION : uint256 := 10 ^ 18.
Definition MAX_EARLY_WITHDRAWAL_PENALTY : uint256 := 5000.
Definition MIN_YIELD_DEPOSIT_THRESHOLD : uint256 := 1000 * 10 ^ 6.

Inductive Role := DEFAULT_ADMIN_ROLE | KEEPER_ROLE | EMERGENCY_ROLE.

#[global] Instance Role_eq_dec : EqDecision Role.
Proof. solve_decision. Defined.

Definition Role_code (r : Role) : nat :=
  match r with DEFAULT_ADMIN_ROLE => 0 | KEEPER_ROLE => 1 | EMERGENCY_ROLE => 2 end%nat.

#[global] Instance Role_countable : Countable Role.
Proof.
  refine (inj_countable' Role_code
            (fun n => match n with
                      | O => DEFAULT_ADMIN_ROLE
                      | S O => KEEPER_ROLE
                      | _ => EMERGENCY_ROLE
                      end) _).
  intros []; reflexivity.
Defined.

(** ** The USDC token: an OpenZeppelin ERC20 ledger (mocks/MockUSDC.sol) *)

Record Token := {
  totalSupply : uint256;
  balances : gmap N N;
  allowances : gmap (N * N) N
}.

Definition balanceOf (t : Token) (a : address) : uint256 :=
  default 0 (balances t !! a).

Definition allowance (t : Token) (owner spender : address) : uint256 :=
  default 0 (allowances t !! (owner, spender)).

(** ERC20._approve *)
Definition erc20_approve (owner spender : address) (value : uint256) (t : Token)
  : res Token :=
  if owner =? 0 then Revert ERC20InvalidApprover
  else if spender =? 0 then Revert ERC20InvalidSpender
  else Ok {| totalSupply := totalSupply t; balances := balances t;
             allowances := <[(owner, spender) := value]> (allowances t) |}.

(** ERC20._transfer / _update *)
Definition erc20_transfer (from to : address) (value : uint256) (t : Token)
  : res Token :=
  if from =? 0 then Revert ERC20InvalidSender
  else if to =? 0 then Revert ERC20InvalidReceiver
  else if balanceOf t from <? value then Revert ERC20InsufficientBalance
  else
    let b1 := <[from := balanceOf t from - value]> (balances t) in
    Ok {| totalSupply := totalSupply t;
          balances := <[to := default 0 (b1 !! to) + value]> b1;
          allowances := allowances t |}.

(** ERC20.transferFrom: spend the allowance (unless it is infinite), then move. *)
Definition erc20_transferFrom (spender from to : address) (value : uint256)
    (t : Token) : res Token :=
  let current := allowance t from spender in
  t1 ← (if current <? MAX_UINT256 then
          if current <? value then Revert ERC20InsufficientAllowance
          else erc20_approve from spender (current - value) t
        else Ok t);
  erc20_transfer from to value t1.

(** ** The yield protocol interface (interfaces/IYieldProtocol.sol)

    [Y] is the state of the external contracts that may sit behind the
    [yieldProtocol] address.  Every call names the callee; a mutating call
    also names its caller and may move USDC, so it transforms the pair of the
    protocol state and the token ledger.  [None] is a call that reverted in
    the callee. *)

Class IYieldProtocol (Y : Type) := {
  yp_hasCode : address -> Y -> bool;
  yp_deposit : address -> address -> uint256 -> Y * Token -> option (uint256 * (Y * Token));
  yp_withdraw : address -> address -> uint256 -> Y * Token -> option (uint256 * (Y * Token));
  yp_getBalance : address -> Y * Token -> option uint256;
  yp_isHealthy : address -> Y * Token -> option bool;
  yp_emergencyWithdraw : address -> address -> Y * Token -> option (uint256 * (Y * Token))
}.

(** keccak256(abi.encodePacked(admin, user, planId, amount, timestamp,
    reasonHash)): some fixed function of the six packed fields. *)
Class Keccak256 := {
  keccak256_packed :
    address -> address -> uint256 -> uint256 -> uint256 -> bytes32 -> bytes32;
  (** keccak256 of a string literal *)
  keccak256_string : string -> bytes32
}.

(** What a high-level external call can do: return, revert in the callee, or
    hit an address without code (which reverts in the caller and is not
    caught by try/catch). *)
Inductive Outcome (A : Type) : Type :=
  | Returned (a : A)
  | Failed
  | NoCode.
Arguments Returned {A} a.
Arguments Failed {A}.
Arguments NoCode {A}.

Definition extcall `{IYieldProtocol Y} {A} (target : address) (y : Y)
    (r : option A) : Outcome A :=
  if (target =? 0) || negb (yp_hasCode target y) then NoCode
  else match r with Some a => Returned a | None => Failed end.

(** An external call outside try/catch: any failure reverts the caller. *)
Definition call `{IYieldProtocol Y} {A} (target : address) (y : Y)
    (r : option A) : res A :=
  match extcall target y r with
  | Returned a => Ok a
  | Failed | NoCode => Revert ExternalCallFailed
  end.

(** ** Storage layout *)

Inductive PlanDuration := ONE_MONTH | THREE_MONTHS | SIX_MONTHS | ONE_YEAR.

Record Plan := {
  owner : address;
  dailyAmount : uint256;
  startDate : uint256;
  endDate : uint256;
  totalTarget : uint256;
  accumulatedBalance : uint256;
  principalDeposited : uint256;
  yieldEarned : uint256;
  lastDeductionDate : uint256;
  successfulDeductions : uint256;
  missedDeductions : uint256;
  isActive : bool;
  isCompleted : bool;
  duration : PlanDuration
}.

(** The value a [plans] slot reads before it is written. *)
Definition zeroPlan : Plan :=
  {| owner := 0; dailyAmount := 0; startDate := 0; endDate := 0;
     totalTarget := 0; accumulatedBalance := 0; principalDeposited := 0;
     yieldEarned := 0; lastDeductionDate := 0; successfulDeductions := 0;
     missedDeductions := 0; isActive := false; isCompleted := false;
     duration := ONE_MONTH |}.

Record EmergencyWithdrawal := {
  admin : address;
  user : address;
  planId : uint256;
  amount : uint256;
  scheduledTime : uint256;
  executionTime : uint256;
  reasonHash : bytes32;
  executed : bool;
  cancelled : bool
}.

Definition zeroEmergencyWithdrawal : EmergencyWithdrawal :=
  {| admin := 0; user := 0; planId := 0; amount := 0; scheduledTime := 0;
     executionTime := 0; reasonHash := 0; executed := false;
     cancelled := false |}.

Inductive Event :=
  | PlanCreated (id : uint256) (who : address) (daily : uint256)
      (d : PlanDuration) (start finish target : uint256)
  | DeductionExecuted (id : uint256) (who : address) (amt newBalance ts : uint256)
  | DeductionMissed (id : uint256) (who : address) (expected ts : uint256)
  | PlanCompleted (id : uint256) (who : address) (accumulated yield : uint256)
  | WithdrawalExecuted (id : uint256) (who : address) (amt penalty : uint256)
      (isEarly : bool) (ts : uint256)
  | YieldDeposited (amt : uint256) (protocol : address) (shares ts : uint256)
  | YieldWithdrawn (amt : uint256) (protocol : address) (shares ts : uint256)
  | YieldHarvested (total userShare protocolShare ts : uint256)
  | YieldDistributed (who : address) (id yieldAmount ts : uint256)
  | YieldProtocolUpdated (old new : address) (ts : uint256)
  | EmergencyYieldExit (amt : uint256) (protocol : address) (reason : bytes32)
      (ts : uint256)
  | EmergencyWithdrawalScheduled (wid : bytes32) (adm usr : address)
      (id amt execTime : uint256) (reason : bytes32)
  | EmergencyWithdrawalExecuted (wid : bytes32) (adm usr : address)
      (id amt : uint256) (reason : bytes32) (ts : uint256)
  | EmergencyWithdrawalCancelled (wid : bytes32) (adm usr : address)
      (id ts : uint256)
  | ParametersUpdated (parameter : string) (oldValue newValue ts : uint256)
  | ProtocolFeeWithdrawn (adm : address) (amt ts : uint256)
  | Paused (account : address)
  | Unpaused (account : address)
  | RoleGranted (r : Role) (account sender : address)
  | RoleRevoked (r : Role) (account sender : address)
  | OwnershipTransferStarted (previousOwner newOwner : address)
  | OwnershipTransferred (previousOwner newOwner : address).

Record Storage := {
  yieldProtocol : address;
  totalPlans : uint256;
  earlyWithdrawalPenalty : uint256;
  minDailyDeduction : uint256;
  maxDailyDeduction : uint256;
  protocolFeeBps : uint256;
  userYieldShareBps : uint256;
  minYieldDepositThreshold : uint256;
  totalPrincipal : uint256;
  totalUserYield : uint256;
  totalProtocolYield : uint256;
  totalYieldShares : uint256;
  emergencyWithdrawalDelay : uint256;
  plans : gmap N Plan;
  userPlans : gmap N (list N);
  emergencyWithdrawals : gmap N EmergencyWithdrawal;
  lastYieldHarvest : uint256;
  yieldHarvestInterval : uint256;
  paused : bool;                 (* Pausable *)
  roles : gset (Role * N);       (* AccessControl *)
  _owner : address;              (* Ownable *)
  _pendingOwner : address        (* Ownable2Step *)
}.

(** [plans[id]] and [emergencyWithdrawals[id]] as Solidity reads them. *)
Definition plan_at (s : Storage) (id : uint256) : Plan :=
  default zeroPlan (plans s !! id).

Definition withdrawal_at (s : Storage) (id : bytes32) : EmergencyWithdrawal :=
  default zeroEmergencyWithdrawal (emergencyWithdrawals s !! id).

Definition hasRole (s : Storage) (r : Role) (a : address) : bool :=
  bool_decide ((r, a) ∈ roles s).

(** The world a transaction runs in. *)
Record World (Y : Type) := {
  this : address;
  timestamp : uint256;
  usdc : Token;
  yp : Y;
  store : Storage;
  events : list Event
}.
Arguments this {Y} w.
Arguments timestamp {Y} w.
Arguments usdc {Y} w.
Arguments yp {Y} w.
Arguments store {Y} w.
Arguments events {Y} w.

(** *** Field updates *)

Definition set_accumulatedBalance (v : uint256) (p : Plan) : Plan :=
  {| owner := owner p; dailyAmount := dailyAmount p; startDate := startDate p;
     endDate := endDate p; totalTarget := totalTarget p;
     accumulatedBalance := v; principalDeposited := principalDeposited p;
     yieldEarned := yieldEarned p; lastDeductionDate := lastDeductionDate p;
     successfulDeductions := successfulDeductions p;
     missedDeductions := missedDeductions p; isActive := isActive p;
     isCompleted := isCompleted p; duration := duration p |}.

Definition set_principalDeposited (v : uint256) (p : Plan) : Plan :=
  {| owner := owner p; dailyAmount := dailyAmount p; startDate := startDate p;
     endDate := endDate p; totalTarget := totalTarget p;
     accumulatedBalance := accumulatedBalance p; principalDeposited := v;
     yieldEarned := yieldEarned p; lastDeductionDate := lastDeductionDate p;
     successfulDeductions := successfulDeductions p;
     missedDeductions := missedDeductions p; isActive := isActive p;
     isCompleted := isCompleted p; duration := duration p |}.

Definition set_yieldEarned (v : uint256) (p : Plan) : Plan :=
  {| owner := owner p; dailyAmount := dailyAmount p; startDate := startDate p;
     endDate := endDate p; totalTarget := totalTarget p;
     accumulatedBalance := accumulatedBalance p;
     principalDeposited := principalDeposited p;
     yieldEarned := v; lastDeductionDate := lastDeductionDate p;
     successfulDeductions := successfulDeductions p;
     missedDeductions := missedDeductions p; isActive := isActive p;
     isCompleted := isCompleted p; duration := duration p |}.

Definition set_lastDeductionDate (v : uint256) (p : Plan) : Plan :=
  {| owner := owner p; dailyAmount := dailyAmount p; startDate := startDate p;
     endDate := endDate p; totalTarget := totalTarget p;
     accumulatedBalance := accumulatedBalance p;
     principalDeposited := principalDeposited p;
     yieldEarned := yieldEarned p; lastDeductionDate := v;
     successfulDeductions := successfulDeductions p;
     missedDeductions := missedDeductions p; isActive := isActive p;
     isCompleted := isCompleted p; duration := duration p |}.

Definition set_successfulDeductions (v : uint256) (p : Plan) : Plan :=
  {| owner := owner p; dailyAmount := dailyAmount p; startDate := startDate p;
     endDate := endDate p; totalTarget := totalTarget p;
     accumulatedBalance := accumulatedBalance p;
     principalDeposited := principalDeposited p;
     yieldEarned := yieldEarned p; lastDeductionDate := lastDeductionDate p;
     successfulDeductions := v;
     missedDeductions := missedDeductions p; isActive := isActive p;
     isCompleted := isCompleted p; duration := duration p |}.

Definition set_missedDeductions (v : uint256) (p : Plan) : Plan :=
  {| owner := owner p; dailyAmount := dailyAmount p; startDate := startDate p;
     endDate := endDate p; totalTarget := totalTarget p;
     accumulatedBalance := accumulatedBalance p;
     principalDeposited := principalDeposited p;
     yieldEarned := yieldEarned p; lastDeductionDate := lastDeductionDate p;
     successfulDeductions := successfulDeductions p;
     missedDeductions := v; isActive := isActive p;
     isCompleted := isCompleted p; duration := duration p |}.

(** [plan.isActive = false; plan.isCompleted = true;] *)
Definition set_flags (active completed : bool) (p : Plan) : Plan :=
  {| owner := owner p; dailyAmount := dailyAmount p; startDate := startDate p;
     endDate := endDate p; totalTarget := totalTarget p;
     accumulatedBalance := accumulatedBalance p;
     principalDeposited := principalDeposited p;
     yieldEarned := yieldEarned p; lastDeductionDate := lastDeductionDate p;
     successfulDeductions := successfulDeductions p;
     missedDeductions := missedDeductions p; isActive := active;
     isCompleted := completed; duration := duration p |}.

Definition set_executed (v : bool) (w : EmergencyWithdrawal) : EmergencyWithdrawal :=
  {| admin := admin w; user := user w; planId := planId w; amount := amount w;
     scheduledTime := scheduledTime w; executionTime := executionTime w;
     reasonHash := reasonHash w; executed := v; cancelled := cancelled w |}.

Definition set_cancelled (v : bool) (w : EmergencyWithdrawal) : EmergencyWithdrawal :=
  {| admin := admin w; user := user w; planId := planId w; amount := amount w;
     scheduledTime := scheduledTime w; executionTime := executionTime w;
     reasonHash := reasonHash w; executed := executed w; cancelled := v |}.

Definition set_yieldProtocol (v : address) (s : Storage) : Storage :=
  {| yieldProtocol := v; totalPlans := totalPlans s;
     earlyWithdrawalPenalty := earlyWithdrawalPenalty s;
     minDailyDeduction := minDailyDeduction s;
     maxDailyDeduction := maxDailyDeduction s;
     protocolFeeBps := protocolFeeBps s;
     userYieldShareBps := userYieldShareBps s;
     minYieldDepositThreshold := minYieldDepositThreshold s;
     totalPrincipal := totalPrincipal s; totalUserYield := totalUserYield s;
     totalProtocolYield := totalProtocolYield s;
     totalYieldShares := totalYieldShares s;
     emergencyWithdrawalDelay := emergencyWithdrawalDelay s;
     plans := plans s; userPlans := userPlans s;
     emergencyWithdrawals := emergencyWithdrawals s;
     lastYieldHarvest := lastYieldHarvest s;
     yieldHarvestInterval := yieldHarvestInterval s; paused := paused s;
     roles := roles s; _owner := _owner s;
     _pendingOwner := _pendingOwner s |}.

Definition set_totalPlans (v : uint256) (s : Storage) : Storage :=
  {| yieldProtocol := yieldProtocol s; totalPlans := v;
     earlyWithdrawalPenalty := earlyWithdrawalPenalty s;
     minDailyDeduction := minDailyDeduction s;
     maxDailyDeduction := maxDailyDeduction s;
     protocolFeeBps := protocolFeeBps s;
     userYieldShareBps := userYieldShareBps s;
     minYieldDepositThreshold := minYieldDepositThreshold s;
     totalPrincipal := totalPrincipal s; totalUserYield := totalUserYield s;
     totalProtocolYield := totalProtocolYield s;
     totalYieldShares := totalYieldShares s;
     emergencyWithdrawalDelay := emergencyWithdrawalDelay s;
     plans := plans s; userPlans := userPlans s;
     emergencyWithdrawals := emergencyWithdrawals s;
     lastYieldHarvest := lastYieldHarvest s;
     yieldHarvestInterval := yieldHarvestInterval s; paused := paused s;
     roles := roles s; _owner := _owner s;
     _pendingOwner := _pendingOwner s |}.

Definition set_earlyWithdrawalPenalty (v : uint256) (s : Storage) : Storage :=
  {| yieldProtocol := yieldProtocol s; totalPlans := totalPlans s;
     earlyWithdrawalPenalty := v; minDailyDeduction := minDailyDeduction s;
     maxDailyDeduction := maxDailyDeduction s;
     protocolFeeBps := protocolFeeBps s;
     userYieldShareBps := userYieldShareBps s;
     minYieldDepositThreshold := minYieldDepositThreshold s;
     totalPrincipal := totalPrincipal s; totalUserYield := totalUserYield s;
     totalProtocolYield := totalProtocolYield s;
     totalYieldShares := totalYieldShares s;
     emergencyWithdrawalDelay := emergencyWithdrawalDelay s;
     plans := plans s; userPlans := userPlans s;
     emergencyWithdrawals := emergencyWithdrawals s;
     lastYieldHarvest := lastYieldHarvest s;
     yieldHarvestInterval := yieldHarvestInterval s; paused := paused s;
     roles := roles s; _owner := _owner s;
     _pendingOwner := _pendingOwner s |}.

Definition set_minDailyDeduction (v : uint256) (s : Storage) : Storage :=
  {| yieldProtocol := yieldProtocol s; totalPlans := totalPlans s;
     earlyWithdrawalPenalty := earlyWithdrawalPenalty s;
     minDailyDeduction := v; maxDailyDeduction := maxDailyDeduction s;
     protocolFeeBps := protocolFeeBps s;
     userYieldShareBps := userYieldShareBps s;
     minYieldDepositThreshold := minYieldDepositThreshold s;
     totalPrincipal := totalPrincipal s; totalUserYield := totalUserYield s;
     totalProtocolYield := totalProtocolYield s;
     totalYieldShares := totalYieldShares s;
     emergencyWithdrawalDelay := emergencyWithdrawalDelay s;
     plans := plans s; userPlans := userPlans s;
     emergencyWithdrawals := emergencyWithdrawals s;
     lastYieldHarvest := lastYieldHarvest s;
     yieldHarvestInterval := yieldHarvestInterval s; paused := paused s;
     roles := roles s; _owner := _owner s;
     _pendingOwner := _pendingOwner s |}.

Definition set_maxDailyDeduction (v : uint256) (s : Storage) : Storage :=
  {| yieldProtocol := yieldProtocol s; totalPlans := totalPlans s;
     earlyWithdrawalPenalty := earlyWithdrawalPenalty s;
     minDailyDeduction := minDailyDeduction s; maxDailyDeduction := v;
     protocolFeeBps := protocolFeeBps s;
     userYieldShareBps := userYieldShareBps s;
     minYieldDepositThreshold := minYieldDepositThreshold s;
     totalPrincipal := totalPrincipal s; totalUserYield := totalUserYield s;
     totalProtocolYield := totalProtocolYield s;
     totalYieldShares := totalYieldShares s;
     emergencyWithdrawalDelay := emergencyWithdrawalDelay s;
     plans := plans s; userPlans := userPlans s;
     emergencyWithdrawals := emergencyWithdrawals s;
     lastYieldHarvest := lastYieldHarvest s;
     yieldHarvestInterval := yieldHarvestInterval s; paused := paused s;
     roles := roles s; _owner := _owner s;
     _pendingOwner := _pendingOwner s |}.

Definition set_protocolFeeBps (v : uint256) (s : Storage) : Storage :=
  {| yieldProtocol := yieldProtocol s; totalPlans := totalPlans s;
     earlyWithdrawalPenalty := earlyWithdrawalPenalty s;
     minDailyDeduction := minDailyDeduction s;
     maxDailyDeduction := maxDailyDeduction s; protocolFeeBps := v;
     userYieldShareBps := userYieldShareBps s;
     minYieldDepositThreshold := minYieldDepositThreshold s;
     totalPrincipal := totalPrincipal s; totalUserYield := totalUserYield s;
     totalProtocolYield := totalProtocolYield s;
     totalYieldShares := totalYieldShares s;
     emergencyWithdrawalDelay := emergencyWithdrawalDelay s;
     plans := plans s; userPlans := userPlans s;
     emergencyWithdrawals := emergencyWithdrawals s;
     lastYieldHarvest := lastYieldHarvest s;
     yieldHarvestInterval := yieldHarvestInterval s; paused := paused s;
     roles := roles s; _owner := _owner s;
     _pendingOwner := _pendingOwner s |}.

Definition set_userYieldShareBps (v : uint256) (s : Storage) : Storage :=
  {| yieldProtocol := yieldProtocol s; totalPlans := totalPlans s;
     earlyWithdrawalPenalty := earlyWithdrawalPenalty s;
     minDailyDeduction := minDailyDeduction s;
     maxDailyDeduction := maxDailyDeduction s;
     protocolFeeBps := protocolFeeBps s; userYieldShareBps := v;
     minYieldDepositThreshold := minYieldDepositThreshold s;
     totalPrincipal := totalPrincipal s; totalUserYield := totalUserYield s;
     totalProtocolYield := totalProtocolYield s;
     totalYieldShares := totalYieldShares s;
     emergencyWithdrawalDelay := emergencyWithdrawalDelay s;
     plans := plans s; userPlans := userPlans s;
     emergencyWithdrawals := emergencyWithdrawals s;
     lastYieldHarvest := lastYieldHarvest s;
     yieldHarvestInterval := yieldHarvestInterval s; paused := paused s;
     roles := roles s; _owner := _owner s;
     _pendingOwner := _pendingOwner s |}.

Definition set_minYieldDepositThreshold (v : uint256) (s : Storage) : Storage :=
  {| yieldProtocol := yieldProtocol s; totalPlans := totalPlans s;
     earlyWithdrawalPenalty := earlyWithdrawalPenalty s;
     minDailyDeduction := minDailyDeduction s;
     maxDailyDeduction := maxDailyDeduction s;
     protocolFeeBps := protocolFeeBps s;
     userYieldShareBps := userYieldShareBps s; minYieldDepositThreshold := v;
     totalPrincipal := totalPrincipal s; totalUserYield := totalUserYield s;
     totalProtocolYield := totalProtocolYield s;
     totalYieldShares := totalYieldShares s;
     emergencyWithdrawalDelay := emergencyWithdrawalDelay s;
     plans := plans s; userPlans := userPlans s;
     emergencyWithdrawals := emergencyWithdrawals s;
     lastYieldHarvest := lastYieldHarvest s;
     yieldHarvestInterval := yieldHarvestInterval s; paused := paused s;
     roles := roles s; _owner := _owner s;
     _pendingOwner := _pendingOwner s |}.

Definition set_totalPrincipal (v : uint256) (s : Storage) : Storage :=
  {| yieldProtocol := yieldProtocol s; totalPlans := totalPlans s;
     earlyWithdrawalPenalty := earlyWithdrawalPenalty s;
     minDailyDeduction := minDailyDeduction s;
     maxDailyDeduction := maxDailyDeduction s;
     protocolFeeBps := protocolFeeBps s;
     userYieldShareBps := userYieldShareBps s;
     minYieldDepositThreshold := minYieldDepositThreshold s;
     totalPrincipal := v; totalUserYield := totalUserYield s;
     totalProtocolYield := totalProtocolYield s;
     totalYieldShares := totalYieldShares s;
     emergencyWithdrawalDelay := emergencyWithdrawalDelay s;
     plans := plans s; userPlans := userPlans s;
     emergencyWithdrawals := emergencyWithdrawals s;
     lastYieldHarvest := lastYieldHarvest s;
     yieldHarvestInterval := yieldHarvestInterval s; paused := paused s;
     roles := roles s; _owner := _owner s;
     _pendingOwner := _pendingOwner s |}.

Definition set_totalUserYield (v : uint256) (s : Storage) : Storage :=
  {| yieldProtocol := yieldProtocol s; totalPlans := totalPlans s;
     earlyWithdrawalPenalty := earlyWithdrawalPenalty s;
     minDailyDeduction := minDailyDeduction s;
     maxDailyDeduction := maxDailyDeduction s;
     protocolFeeBps := protocolFeeBps s;
     userYieldShareBps := userYieldShareBps s;
     minYieldDepositThreshold := minYieldDepositThreshold s;
     totalPrincipal := totalPrincipal s; totalUserYield := v;
     totalProtocolYield := totalProtocolYield s;
     totalYieldShares := totalYieldShares s;
     emergencyWithdrawalDelay := emergencyWithdrawalDelay s;
     plans := plans s; userPlans := userPlans s;
     emergencyWithdrawals := emergencyWithdrawals s;
     lastYieldHarvest := lastYieldHarvest s;
     yieldHarvestInterval := yieldHarvestInterval s; paused := paused s;
     roles := roles s; _owner := _owner s;
     _pendingOwner := _pendingOwner s |}.

Definition set_totalProtocolYield (v : uint256) (s : Storage) : Storage :=
  {| yieldProtocol := yieldProtocol s; totalPlans := totalPlans s;
     earlyWithdrawalPenalty := earlyWithdrawalPenalty s;
     minDailyDeduction := minDailyDeduction s;
     maxDailyDeduction := maxDailyDeduction s;
     protocolFeeBps := protocolFeeBps s;
     userYieldShareBps := userYieldShareBps s;
     minYieldDepositThreshold := minYieldDepositThreshold s;
     totalPrincipal := totalPrincipal s; totalUserYield := totalUserYield s;
     totalProtocolYield := v; totalYieldShares := totalYieldShares s;
     emergencyWithdrawalDelay := emergencyWithdrawalDelay s;
     plans := plans s; userPlans := userPlans s;
     emergencyWithdrawals := emergencyWithdrawals s;
     lastYieldHarvest := lastYieldHarvest s;
     yieldHarvestInterval := yieldHarvestInterval s; paused := paused s;
     roles := roles s; _owner := _owner s;
     _pendingOwner := _pendingOwner s |}.

Definition set_totalYieldShares (v : uint256) (s : Storage) : Storage :=
  {| yieldProtocol := yieldProtocol s; totalPlans := totalPlans s;
     earlyWithdrawalPenalty := earlyWithdrawalPenalty s;
     minDailyDeduction := minDailyDeduction s;
     maxDailyDeduction := maxDailyDeduction s;
     protocolFeeBps := protocolFeeBps s;
     userYieldShareBps := userYieldShareBps s;
     minYieldDepositThreshold := minYieldDepositThreshold s;
     totalPrincipal := totalPrincipal s; totalUserYield := totalUserYield s;
     totalProtocolYield := totalProtocolYield s; totalYieldShares := v;
     emergencyWithdrawalDelay := emergencyWithdrawalDelay s;
     plans := plans s; userPlans := userPlans s;
     emergencyWithdrawals := emergencyWithdrawals s;
     lastYieldHarvest := lastYieldHarvest s;
     yieldHarvestInterval := yieldHarvestInterval s; paused := paused s;
     roles := roles s; _owner := _owner s;
     _pendingOwner := _pendingOwner s |}.

Definition set_emergencyWithdrawalDelay (v : uint256) (s : Storage) : Storage :=
  {| yieldProtocol := yieldProtocol s; totalPlans := totalPlans s;
     earlyWithdrawalPenalty := earlyWithdrawalPenalty s;
     minDailyDeduction := minDailyDeduction s;
     maxDailyDeduction := maxDailyDeduction s;
     protocolFeeBps := protocolFeeBps s;
     userYieldShareBps := userYieldShareBps s;
     minYieldDepositThreshold := minYieldDepositThreshold s;
     totalPrincipal := totalPrincipal s; totalUserYield := totalUserYield s;
     totalProtocolYield := totalProtocolYield s;
     totalYieldShares := totalYieldShares s; emergencyWithdrawalDelay := v;
     plans := plans s; userPlans := userPlans s;
     emergencyWithdrawals := emergencyWithdrawals s;
     lastYieldHarvest := lastYieldHarvest s;
     yieldHarvestInterval := yieldHarvestInterval s; paused := paused s;
     roles := roles s; _owner := _owner s;
     _pendingOwner := _pendingOwner s |}.

Definition set_plans (v : gmap N Plan) (s : Storage) : Storage :=
  {| yieldProtocol := yieldProtocol s; totalPlans := totalPlans s;
     earlyWithdrawalPenalty := earlyWithdrawalPenalty s;
     minDailyDeduction := minDailyDeduction s;
     maxDailyDeduction := maxDailyDeduction s;
     protocolFeeBps := protocolFeeBps s;
     userYieldShareBps := userYieldShareBps s;
     minYieldDepositThreshold := minYieldDepositThreshold s;
     totalPrincipal := totalPrincipal s; totalUserYield := totalUserYield s;
     totalProtocolYield := totalProtocolYield s;
     totalYieldShares := totalYieldShares s;
     emergencyWithdrawalDelay := emergencyWithdrawalDelay s; plans := v;
     userPlans := userPlans s;
     emergencyWithdrawals := emergencyWithdrawals s;
     lastYieldHarvest := lastYieldHarvest s;
     yieldHarvestInterval := yieldHarvestInterval s; paused := paused s;
     roles := roles s; _owner := _owner s;
     _pendingOwner := _pendingOwner s |}.

Definition set_userPlans (v : gmap N (list N)) (s : Storage) : Storage :=
  {| yieldProtocol := yieldProtocol s; totalPlans := totalPlans s;
     earlyWithdrawalPenalty := earlyWithdrawalPenalty s;
     minDailyDeduction := minDailyDeduction s;
     maxDailyDeduction := maxDailyDeduction s;
     protocolFeeBps := protocolFeeBps s;
     userYieldShareBps := userYieldShareBps s;
     minYieldDepositThreshold := minYieldDepositThreshold s;
     totalPrincipal := totalPrincipal s; totalUserYield := totalUserYield s;
     totalProtocolYield := totalProtocolYield s;
     totalYieldShares := totalYieldShares s;
     emergencyWithdrawalDelay := emergencyWithdrawalDelay s;
     plans := plans s; userPlans := v;
     emergencyWithdrawals := emergencyWithdrawals s;
     lastYieldHarvest := lastYieldHarvest s;
     yieldHarvestInterval := yieldHarvestInterval s; paused := paused s;
     roles := roles s; _owner := _owner s;
     _pendingOwner := _pendingOwner s |}.

Definition set_emergencyWithdrawals (v : gmap N EmergencyWithdrawal) (s : Storage) : Storage :=
  {| yieldProtocol := yieldProtocol s; totalPlans := totalPlans s;
     earlyWithdrawalPenalty := earlyWithdrawalPenalty s;
     minDailyDeduction := minDailyDeduction s;
     maxDailyDeduction := maxDailyDeduction s;
     protocolFeeBps := protocolFeeBps s;
     userYieldShareBps := userYieldShareBps s;
     minYieldDepositThreshold := minYieldDepositThreshold s;
     totalPrincipal := totalPrincipal s; totalUserYield := totalUserYield s;
     totalProtocolYield := totalProtocolYield s;
     totalYieldShares := totalYieldShares s;
     emergencyWithdrawalDelay := emergencyWithdrawalDelay s;
     plans := plans s; userPlans := userPlans s; emergencyWithdrawals := v;
     lastYieldHarvest := lastYieldHarvest s;
     yieldHarvestInterval := yieldHarvestInterval s; paused := paused s;
     roles := roles s; _owner := _owner s;
     _pendingOwner := _pendingOwner s |}.

Definition set_lastYieldHarvest (v : uint256) (s : Storage) : Storage :=
  {| yieldProtocol := yieldProtocol s; totalPlans := totalPlans s;
     earlyWithdrawalPenalty := earlyWithdrawalPenalty s;
     minDailyDeduction := minDailyDeduction s;
     maxDailyDeduction := maxDailyDeduction s;
     protocolFeeBps := protocolFeeBps s;
     userYieldShareBps := userYieldShareBps s;
     minYieldDepositThreshold := minYieldDepositThreshold s;
     totalPrincipal := totalPrincipal s; totalUserYield := totalUserYield s;
     totalProtocolYield := totalProtocolYield s;
     totalYieldShares := totalYieldShares s;
     emergencyWithdrawalDelay := emergencyWithdrawalDelay s;
     plans := plans s; userPlans := userPlans s;
     emergencyWithdrawals := emergencyWithdrawals s; lastYieldHarvest := v;
     yieldHarvestInterval := yieldHarvestInterval s; paused := paused s;
     roles := roles s; _owner := _owner s;
     _pendingOwner := _pendingOwner s |}.

Definition set_paused (v : bool) (s : Storage) : Storage :=
  {| yieldProtocol := yieldProtocol s; totalPlans := totalPlans s;
     earlyWithdrawalPenalty := earlyWithdrawalPenalty s;
     minDailyDeduction := minDailyDeduction s;
     maxDailyDeduction := maxDailyDeduction s;
     protocolFeeBps := protocolFeeBps s;
     userYieldShareBps := userYieldShareBps s;
     minYieldDepositThreshold := minYieldDepositThreshold s;
     totalPrincipal := totalPrincipal s; totalUserYield := totalUserYield s;
     totalProtocolYield := totalProtocolYield s;
     totalYieldShares := totalYieldShares s;
     emergencyWithdrawalDelay := emergencyWithdrawalDelay s;
     plans := plans s; userPlans := userPlans s;
     emergencyWithdrawals := emergencyWithdrawals s;
     lastYieldHarvest := lastYieldHarvest s;
     yieldHarvestInterval := yieldHarvestInterval s; paused := v;
     roles := roles s; _owner := _owner s;
     _pendingOwner := _pendingOwner s |}.

Definition set_roles (v : gset (Role * N)) (s : Storage) : Storage :=
  {| yieldProtocol := yieldProtocol s; totalPlans := totalPlans s;
     earlyWithdrawalPenalty := earlyWithdrawalPenalty s;
     minDailyDeduction := minDailyDeduction s;
     maxDailyDeduction := maxDailyDeduction s;
     protocolFeeBps := protocolFeeBps s;
     userYieldShareBps := userYieldShareBps s;
     minYieldDepositThreshold := minYieldDepositThreshold s;
     totalPrincipal := totalPrincipal s; totalUserYield := totalUserYield s;
     totalProtocolYield := totalProtocolYield s;
     totalYieldShares := totalYieldShares s;
     emergencyWithdrawalDelay := emergencyWithdrawalDelay s;
     plans := plans s; userPlans := userPlans s;
     emergencyWithdrawals := emergencyWithdrawals s;
     lastYieldHarvest := lastYieldHarvest s;
     yieldHarvestInterval := yieldHarvestInterval s; paused := paused s;
     roles := v; _owner := _owner s; _pendingOwner := _pendingOwner s |}.

Definition set_owner (v : address) (s : Storage) : Storage :=
  {| yieldProtocol := yieldProtocol s; totalPlans := totalPlans s;
     earlyWithdrawalPenalty := earlyWithdrawalPenalty s;
     minDailyDeduction := minDailyDeduction s;
     maxDailyDeduction := maxDailyDeduction s;
     protocolFeeBps := protocolFeeBps s;
     userYieldShareBps := userYieldShareBps s;
     minYieldDepositThreshold := minYieldDepositThreshold s;
     totalPrincipal := totalPrincipal s; totalUserYield := totalUserYield s;
     totalProtocolYield := totalProtocolYield s;
     totalYieldShares := totalYieldShares s;
     emergencyWithdrawalDelay := emergencyWithdrawalDelay s;
     plans := plans s; userPlans := userPlans s;
     emergencyWithdrawals := emergencyWithdrawals s;
     lastYieldHarvest := lastYieldHarvest s;
     yieldHarvestInterval := yieldHarvestInterval s; paused := paused s;
     roles := roles s; _owner := v; _pendingOwner := _pendingOwner s |}.

Definition set_pendingOwner (v : address) (s : Storage) : Storage :=
  {| yieldProtocol := yieldProtocol s; totalPlans := totalPlans s;
     earlyWithdrawalPenalty := earlyWithdrawalPenalty s;
     minDailyDeduction := minDailyDeduction s;
     maxDailyDeduction := maxDailyDeduction s;
     protocolFeeBps := protocolFeeBps s;
     userYieldShareBps := userYieldShareBps s;
     minYieldDepositThreshold := minYieldDepositThreshold s;
     totalPrincipal := totalPrincipal s; totalUserYield := totalUserYield s;
     totalProtocolYield := totalProtocolYield s;
     totalYieldShares := totalYieldShares s;
     emergencyWithdrawalDelay := emergencyWithdrawalDelay s;
     plans := plans s; userPlans := userPlans s;
     emergencyWithdrawals := emergencyWithdrawals s;
     lastYieldHarvest := lastYieldHarvest s;
     yieldHarvestInterval := yieldHarvestInterval s; paused := paused s;
     roles := roles s; _owner := _owner s; _pendingOwner := v |}.

Definition set_timestamp {Y} (v : uint256) (w : World Y) : World Y :=
  {| this := this w; timestamp := v; usdc := usdc w; yp := yp w; store := store w; events := events w |}.

Definition set_usdc {Y} (v : Token) (w : World Y) : World Y :=
  {| this := this w; timestamp := timestamp w; usdc := v; yp := yp w; store := store w; events := events w |}.

Definition set_yp {Y} (v : Y) (w : World Y) : World Y :=
  {| this := this w; timestamp := timestamp w; usdc := usdc w; yp := v; store := store w; events := events w |}.

Definition set_store {Y} (v : Storage) (w : World Y) : World Y :=
  {| this := this w; timestamp := timestamp w; usdc := usdc w; yp := yp w; store := v; events := events w |}.

Definition set_events {Y} (v : list Event) (w : World Y) : World Y :=
  {| this := this w; timestamp := timestamp w; usdc := usdc w; yp := yp w; store := store w; events := v |}.

(** [plans[id] = p] and [emergencyWithdrawals[id] = r] *)
Definition write_plan (id : uint256) (p : Plan) (s : Storage) : Storage :=
  set_plans (<[id := p]> (plans s)) s.

Definition write_withdrawal (id : bytes32) (r : EmergencyWithdrawal)
    (s : Storage) : Storage :=
  set_emergencyWithdrawals (<[id := r]> (emergencyWithdrawals s)) s.

(** [emit e] *)
Definition emit {Y} (e : Event) (w : World Y) : World Y :=
  set_events (e :: events w) w.

(** Update the storage of a world. *)
Definition on_store {Y} (f : Storage -> Storage) (w : World Y) : World Y :=
  set_store (f (store w)) w.

(** ** The contract *)

Section SavingsPlan.
Context {Y : Type} `{!IYieldProtocol Y} `{!Keccak256}.

(** *** Modifiers *)

Definition validPlanId (s : Storage) (id : uint256) : res unit :=
  require (negb ((id =? 0) || (totalPlans s <? id))) InvalidPlanId.

Definition onlyPlanOwner (s : Storage) (id : uint256) (sender : address)
  : res unit :=
  require (owner (plan_at s id) =? sender) Unauthorized.

Definition whenNotPaused (s : Storage) : res unit :=
  require (negb (paused s)) EnforcedPause.

Definition whenPaused (s : Storage) : res unit :=
  require (paused s) ExpectedPause.

Definition onlyRole (s : Storage) (r : Role) (sender : address) : res unit :=
  require (hasRole s r sender) AccessControlUnauthorizedAccount.

(** *** Constructor *)

Definition constructor (sender _usdcToken : address)
    (_earlyWithdrawalPenalty _minDailyDeduction _maxDailyDeduction
     _protocolFeeBps _userYieldShareBps : uint256) : res Storage :=
  _ ← require (negb (sender =? 0)) OwnableInvalidOwner;
  _ ← require (negb (_usdcToken =? 0)) InvalidParameter;
  _ ← require (negb (MAX_EARLY_WITHDRAWAL_PENALTY <? _earlyWithdrawalPenalty))
        InvalidParameter;
  _ ← require (negb ((_minDailyDeduction =? 0)
                     || (_maxDailyDeduction <=? _minDailyDeduction)))
        InvalidParameter;
  _ ← require (negb (10000 <? _userYieldShareBps)) InvalidParameter;
  Ok {| yieldProtocol := 0; totalPlans := 0;
        earlyWithdrawalPenalty := _earlyWithdrawalPenalty;
        minDailyDeduction := _minDailyDeduction;
        maxDailyDeduction := _maxDailyDeduction;
        protocolFeeBps := _protocolFeeBps;
        userYieldShareBps := _userYieldShareBps;
        minYieldDepositThreshold := MIN_YIELD_DEPOSIT_THRESHOLD;
        totalPrincipal := 0; totalUserYield := 0; totalProtocolYield := 0;
        totalYieldShares := 0; emergencyWithdrawalDelay := 48 * hours1;
        plans := ∅; userPlans := ∅; emergencyWithdrawals := ∅;
        lastYieldHarvest := 0; yieldHarvestInterval := days1;
        paused := false;
        roles := {[ (DEFAULT_ADMIN_ROLE, sender); (KEEPER_ROLE, sender);
                    (EMERGENCY_ROLE, sender) ]};
        _owner := sender; _pendingOwner := 0 |}.

(** *** Internal functions *)

(** _depositToYield *)
Definition _depositToYield (amt : uint256) (w : World Y) : res (World Y) :=
  let s := store w in
  if yieldProtocol s =? 0 then Ok w
  else if amt =? 0 then Ok w
  else
    tok1 ← erc20_approve (this w) (yieldProtocol s) amt (usdc w);
    match extcall (yieldProtocol s) (yp w)
            (yp_deposit (yieldProtocol s) (this w) amt (yp w, tok1)) with
    | Returned (shares, (y', tok')) =>
        tys ← add (totalYieldShares s) shares;
        Ok (emit (YieldDeposited amt (yieldProtocol s) shares (timestamp w))
              (on_store (set_totalYieldShares tys) (set_yp y' (set_usdc tok' w))))
    | Failed =>
        tok2 ← erc20_approve (this w) (yieldProtocol s) 0 tok1;
        Ok (set_usdc tok2 w)
    | NoCode => Revert ExternalCallFailed
    end.

(** _withdrawFromYield *)
Definition _withdrawFromYield (amt : uint256) (w : World Y) : res (World Y) :=
  let s := store w in
  if yieldProtocol s =? 0 then Ok w
  else if totalYieldShares s =? 0 then Ok w
  else
    yieldBalance ← call (yieldProtocol s) (yp w)
                     (yp_getBalance (yieldProtocol s) (yp w, usdc w));
    if yieldBalance =? 0 then Ok w
    else
      m ← mul amt (totalYieldShares s);
      q ← div m yieldBalance;
      let sharesToWithdraw :=
        if totalYieldShares s <? q then totalYieldShares s else q in
      match extcall (yieldProtocol s) (yp w)
              (yp_withdraw (yieldProtocol s) (this w) sharesToWithdraw
                 (yp w, usdc w)) with
      | Returned (withdrawn, (y', tok')) =>
          tys ← sub (totalYieldShares s) sharesToWithdraw;
          Ok (emit (YieldWithdrawn withdrawn (yieldProtocol s) sharesToWithdraw
                      (timestamp w))
                (on_store (set_totalYieldShares tys)
                   (set_yp y' (set_usdc tok' w))))
      | Failed =>
          match extcall (yieldProtocol s) (yp w)
                  (yp_emergencyWithdraw (yieldProtocol s) (this w)
                     (yp w, usdc w)) with
          | Returned (emergencyAmount, (y', tok')) =>
              Ok (emit (EmergencyYieldExit emergencyAmount (yieldProtocol s)
                          (keccak256_string "WITHDRAWAL_FAILED") (timestamp w))
                    (on_store (set_totalYieldShares 0)
                       (set_yp y' (set_usdc tok' w))))
          | Failed => Ok w
          | NoCode => Revert ExternalCallFailed
          end
      | NoCode => Revert ExternalCallFailed
      end.

(** The block shared by withdraw, claimYield and executeEmergencyWithdrawal:
    [if (amount > contractBalance && address(yieldProtocol) != address(0))
       _withdrawFromYield(amount - contractBalance);] *)
Definition pullFromYieldIfNeeded (amt : uint256) (w : World Y) : res (World Y) :=
  let contractBalance := balanceOf (usdc w) (this w) in
  if (contractBalance <? amt) && negb (yieldProtocol (store w) =? 0) then
    needed ← sub amt contractBalance;
    _withdrawFromYield needed w
  else Ok w.

(** _calculateTimeFactor *)
Definition _calculateTimeFactor (plan : Plan) (now : uint256) : res uint256 :=
  planDuration ← sub (endDate plan) (startDate plan);
  timeElapsed ← (if endDate plan <? now then Ok planDuration
                 else sub now (startDate plan));
  if planDuration =? 0 then Ok PRECISION
  else
    m ← mul timeElapsed PRECISION;
    div m planDuration.

(** _calculateAndDistributeYield *)
Definition _calculateAndDistributeYield (id : uint256) (w : World Y)
  : res (uint256 * World Y) :=
  let s := store w in
  let plan := plan_at s id in
  if principalDeposited plan =? 0 then Ok (0, w)
  else if (totalPrincipal s =? 0) || (totalYieldShares s =? 0) then Ok (0, w)
  else
    m ← mul (principalDeposited plan) (totalYieldShares s);
    userShare ← div m (totalPrincipal s);
    timeFactor ← _calculateTimeFactor plan (timestamp w);
    yieldBalance ← call (yieldProtocol s) (yp w)
                     (yp_getBalance (yieldProtocol s) (yp w, usdc w));
    if yieldBalance <=? totalPrincipal s then Ok (0, w)
    else
      totalYield ← sub yieldBalance (totalPrincipal s);
      a ← mul userShare totalYield;
      b ← mul a timeFactor;
      c ← mul (totalYieldShares s) PRECISION;
      y1 ← div b c;
      m2 ← mul y1 (userYieldShareBps s);
      let yieldAmount := m2 / 10000 in
      ye ← add (yieldEarned plan) yieldAmount;
      tuy ← add (totalUserYield s) yieldAmount;
      Ok (yieldAmount,
          on_store (fun s => set_totalUserYield tuy
                               (write_plan id (set_yieldEarned ye plan) s)) w).

(** *** User functions *)

Definition planDurationOf (d : PlanDuration) : uint256 :=
  match d with
  | ONE_MONTH => PLAN_DURATION_1_MONTH
  | THREE_MONTHS => PLAN_DURATION_3_MONTHS
  | SIX_MONTHS => PLAN_DURATION_6_MONTHS
  | ONE_YEAR => PLAN_DURATION_1_YEAR
  end.

(** createPlan *)
Definition createPlan (sender : address) (daily : uint256) (d : PlanDuration)
    (w : World Y) : res (uint256 * World Y) :=
  let s := store w in
  _ ← whenNotPaused s;
  _ ← require (negb ((daily <? minDailyDeduction s)
                     || (maxDailyDeduction s <? daily))) InvalidDailyAmount;
  let planDurationDays := planDurationOf d in
  target ← mul daily (planDurationDays / days1);
  let start := timestamp w in
  finish ← add start planDurationDays;
  id ← add (totalPlans s) 1;
  let plan :=
    {| owner := sender; dailyAmount := daily; startDate := start;
       endDate := finish; totalTarget := target; accumulatedBalance := 0;
       principalDeposited := 0; yieldEarned := 0; lastDeductionDate := 0;
       successfulDeductions := 0; missedDeductions := 0; isActive := true;
       isCompleted := false; duration := d |} in
  let s1 := write_plan id plan (set_totalPlans id s) in
  let s2 := set_userPlans
              (<[sender := default [] (userPlans s !! sender) ++ [id]]>
                 (userPlans s)) s1 in
  Ok (id, emit (PlanCreated id sender daily d start finish target)
            (set_store s2 w)).

(** The schedule cursor: [plan.startDate + plan.successfulDeductions * 1 days] *)
Definition expectedDeductionDate (plan : Plan) : res uint256 :=
  m ← mul (successfulDeductions plan) days1;
  add (startDate plan) m.

(** executeDeduction *)
Definition executeDeduction (id : uint256) (w : World Y) : res (World Y) :=
  let s := store w in
  _ ← validPlanId s id;
  _ ← whenNotPaused s;
  let plan := plan_at s id in
  _ ← require (negb (negb (isActive plan) || isCompleted plan)) PlanNotActive;
  if endDate plan <=? timestamp w then
    Ok (emit (PlanCompleted id (owner plan) (accumulatedBalance plan)
                (yieldEarned plan))
          (on_store (write_plan id (set_flags false true plan)) w))
  else
    expected ← expectedDeductionDate plan;
    _ ← (if 0 <? lastDeductionDate plan then
           recent ← add (lastDeductionDate plan) hours1;
           _ ← require (negb (timestamp w <=? recent)) DeductionAlreadyExecuted;
           window ← sub expected hours1;
           require (negb (window <=? lastDeductionDate plan))
             DeductionAlreadyExecuted
         else Ok tt);
    window ← sub expected hours1;
    _ ← require (negb (timestamp w <? window)) InvalidParameter;
    let userBalance := balanceOf (usdc w) (owner plan) in
    let userAllowance := allowance (usdc w) (owner plan) (this w) in
    if (userBalance <? dailyAmount plan) || (userAllowance <? dailyAmount plan)
    then
      missed ← add (missedDeductions plan) 1;
      Ok (emit (DeductionMissed id (owner plan) (dailyAmount plan) (timestamp w))
            (on_store (write_plan id (set_missedDeductions missed plan)) w))
    else
      tok ← erc20_transferFrom (this w) (owner plan) (this w)
              (dailyAmount plan) (usdc w);
      acc ← add (accumulatedBalance plan) (dailyAmount plan);
      pd ← add (principalDeposited plan) (dailyAmount plan);
      n ← add (successfulDeductions plan) 1;
      tp ← add (totalPrincipal s) (dailyAmount plan);
      let plan' :=
        set_successfulDeductions n
          (set_lastDeductionDate (timestamp w)
             (set_principalDeposited pd (set_accumulatedBalance acc plan))) in
      let w1 := set_store (set_totalPrincipal tp (write_plan id plan' s))
                  (set_usdc tok w) in
      let contractBalance := balanceOf tok (this w) in
      w2 ← (if negb (yieldProtocol s =? 0)
               && (minYieldDepositThreshold s <=? contractBalance) then
              healthy ← call (yieldProtocol s) (yp w1)
                          (yp_isHealthy (yieldProtocol s) (yp w1, usdc w1));
              if healthy : bool then _depositToYield contractBalance w1
              else Ok w1
            else Ok w1);
      Ok (emit (DeductionExecuted id (owner plan) (dailyAmount plan) acc
                  (timestamp w)) w2).

(** One iteration of the loop of executeDeductionsBatch; [continue] is a
    return of the world reached so far. *)
Definition batchItem (id : uint256) (w : World Y) : res (World Y) :=
  let s := store w in
  if (id =? 0) || (totalPlans s <? id) then Ok w
  else
    let plan := plan_at s id in
    if negb (isActive plan) || isCompleted plan then Ok w
    else if endDate plan <? timestamp w then
      Ok (emit (PlanCompleted id (owner plan) (accumulatedBalance plan)
                  (yieldEarned plan))
            (on_store (write_plan id (set_flags false true plan)) w))
    else
      expected ← expectedDeductionDate plan;
      if expected <=? lastDeductionDate plan then Ok w
      else
        window ← sub expected hours1;
        if timestamp w <? window then Ok w
        else
          let userBalance := balanceOf (usdc w) (owner plan) in
          let userAllowance := allowance (usdc w) (owner plan) (this w) in
          if (userBalance <? dailyAmount plan)
             || (userAllowance <? dailyAmount plan)
          then
            missed ← add (missedDeductions plan) 1;
            Ok (emit (DeductionMissed id (owner plan) (dailyAmount plan)
                        (timestamp w))
                  (on_store (write_plan id (set_missedDeductions missed plan)) w))
          else
            tok ← erc20_transferFrom (this w) (owner plan) (this w)
                    (dailyAmount plan) (usdc w);
            acc ← add (accumulatedBalance plan) (dailyAmount plan);
            pd ← add (principalDeposited plan) (dailyAmount plan);
            n ← add (successfulDeductions plan) 1;
            tp ← add (totalPrincipal s) (dailyAmount plan);
            let plan' :=
              set_successfulDeductions n
                (set_lastDeductionDate (timestamp w)
                   (set_principalDeposited pd
                      (set_accumulatedBalance acc plan))) in
            Ok (emit (DeductionExecuted id (owner plan) (dailyAmount plan) acc
                        (timestamp w))
                  (set_store (set_totalPrincipal tp (write_plan id plan' s))
                     (set_usdc tok w))).

Fixpoint batchLoop (ids : list uint256) (w : World Y) : res (World Y) :=
  match ids with
  | [] => Ok w
  | id :: rest => w' ← batchItem id w; batchLoop rest w'
  end.

(** executeDeductionsBatch *)
Definition executeDeductionsBatch (ids : list uint256) (w : World Y)
  : res (World Y) :=
  _ ← whenNotPaused (store w);
  let contractBalanceBefore := balanceOf (usdc w) (this w) in
  w1 ← batchLoop ids w;
  let s := store w1 in
  let contractBalanceAfter := balanceOf (usdc w1) (this w1) in
  if negb (yieldProtocol s =? 0)
     && (minYieldDepositThreshold s <=? contractBalanceAfter) then
    healthy ← call (yieldProtocol s) (yp w1)
                (yp_isHealthy (yieldProtocol s) (yp w1, usdc w1));
    if (healthy : bool) && (contractBalanceBefore <? contractBalanceAfter) then
      newFunds ← sub contractBalanceAfter contractBalanceBefore;
      _depositToYield newFunds w1
    else Ok w1
  else Ok w1.

(** withdraw; returns [withdrawnAmount] *)
Definition withdraw (sender : address) (id amt : uint256) (w : World Y)
  : res (uint256 * World Y) :=
  let s := store w in
  _ ← validPlanId s id;
  _ ← onlyPlanOwner s id sender;
  let plan := plan_at s id in
  _ ← require (negb (negb (isActive plan) && isCompleted plan)) PlanNotActive;
  let isEarly := timestamp w <? endDate plan in
  availableBalance ← add (accumulatedBalance plan) (yieldEarned plan);
  let requestedAmount := if amt =? 0 then availableBalance else amt in
  _ ← require (negb (availableBalance <? requestedAmount))
        InvalidWithdrawalAmount;
  pw ← (if isEarly then
          m ← mul requestedAmount (earlyWithdrawalPenalty s);
          let penalty := m / 10000 in
          withdrawAmount ← sub requestedAmount penalty;
          Ok (penalty, withdrawAmount)
        else Ok (0, requestedAmount));
  let penalty := fst pw in
  let withdrawAmount := snd pw in
  py ← (if 0 <? availableBalance then
          m1 ← mul (accumulatedBalance plan) requestedAmount;
          principalToWithdraw ← div m1 availableBalance;
          m2 ← mul (yieldEarned plan) requestedAmount;
          yieldToWithdraw ← div m2 availableBalance;
          Ok (principalToWithdraw, yieldToWithdraw)
        else Ok (requestedAmount, 0));
  acc ← sub (accumulatedBalance plan) (fst py);
  ye ← sub (yieldEarned plan) (snd py);
  let plan1 := set_yieldEarned ye (set_accumulatedBalance acc plan) in
  let plan2 := if (acc =? 0) && (ye =? 0) then set_flags false true plan1
               else plan1 in
  let w1 := on_store (write_plan id plan2) w in
  w2 ← pullFromYieldIfNeeded withdrawAmount w1;
  tok ← erc20_transfer (this w2) (owner plan) withdrawAmount (usdc w2);
  Ok (withdrawAmount,
      emit (WithdrawalExecuted id (owner plan) withdrawAmount penalty isEarly
              (timestamp w))
        (set_usdc tok w2)).

(** claimYield; returns [yieldAmount] *)
Definition claimYield (sender : address) (id : uint256) (w : World Y)
  : res (uint256 * World Y) :=
  let s := store w in
  _ ← validPlanId s id;
  _ ← onlyPlanOwner s id sender;
  let plan := plan_at s id in
  _ ← require (negb (negb (isActive plan) && negb (isCompleted plan)))
        PlanNotActive;
  yw ← _calculateAndDistributeYield id w;
  let yieldAmount := fst yw in
  if yieldAmount =? 0 then Ok (0, snd yw)
  else
    w2 ← pullFromYieldIfNeeded yieldAmount (snd yw);
    tok ← erc20_transfer (this w2) (owner plan) yieldAmount (usdc w2);
    Ok (yieldAmount,
        emit (YieldDistributed (owner plan) id yieldAmount (timestamp w))
          (set_usdc tok w2)).

(** *** View functions *)

(** getAccumulatedYield *)
Definition getAccumulatedYield (id : uint256) (w : World Y) : res uint256 :=
  let s := store w in
  _ ← validPlanId s id;
  let plan := plan_at s id in
  if principalDeposited plan =? 0 then Ok 0
  else if (totalPrincipal s =? 0) || (totalYieldShares s =? 0) then Ok 0
  else
    m ← mul (principalDeposited plan) (totalYieldShares s);
    userShare ← div m (totalPrincipal s);
    timeFactor ← _calculateTimeFactor plan (timestamp w);
    m1 ← mul userShare timeFactor;
    let y1 := m1 / PRECISION in
    m2 ← mul y1 (userYieldShareBps s);
    Ok (m2 / 10000).

(** getNextDeductionDate *)
Definition getNextDeductionDate (id : uint256) (w : World Y) : res uint256 :=
  let s := store w in
  _ ← validPlanId s id;
  let plan := plan_at s id in
  if negb (isActive plan) || isCompleted plan then Ok 0
  else if endDate plan <? timestamp w then Ok 0
  else
    n ← add (successfulDeductions plan) 1;
    m ← mul n days1;
    add (startDate plan) m.

(** isPlanMature *)
Definition isPlanMature (id : uint256) (w : World Y) : res bool :=
  _ ← validPlanId (store w) id;
  Ok (endDate (plan_at (store w) id) <=? timestamp w).

(** calculateEarlyWithdrawalPenalty *)
Definition calculateEarlyWithdrawalPenalty (id amt : uint256) (w : World Y)
  : res uint256 :=
  let s := store w in
  _ ← validPlanId s id;
  if endDate (plan_at s id) <=? timestamp w then Ok 0
  else
    m ← mul amt (earlyWithdrawalPenalty s);
    Ok (m / 10000).

(** *** Admin functions *)

(** setYieldProtocol *)
Definition setYieldProtocol (sender _yieldProtocol : address) (w : World Y)
  : res (World Y) :=
  let s := store w in
  _ ← onlyRole s DEFAULT_ADMIN_ROLE sender;
  _ ← (if negb (_yieldProtocol =? 0) then
         _ ← require (yp_hasCode _yieldProtocol (yp w)) InvalidYieldProtocol;
         match extcall _yieldProtocol (yp w)
                 (yp_isHealthy _yieldProtocol (yp w, usdc w)) with
         | Returned healthy => require healthy YieldProtocolUnhealthy
         | Failed => Revert InvalidYieldProtocol
         | NoCode => Revert ExternalCallFailed
         end
       else Ok tt);
  Ok (emit (YieldProtocolUpdated (yieldProtocol s) _yieldProtocol (timestamp w))
        (on_store (set_yieldProtocol _yieldProtocol) w)).

(** setEarlyWithdrawalPenalty *)
Definition setEarlyWithdrawalPenalty (sender : address) (_penalty : uint256) (w : World Y)
  : res (World Y) :=
  let s := store w in
  _ ← onlyRole s DEFAULT_ADMIN_ROLE sender;
  _ ← require (negb (MAX_EARLY_WITHDRAWAL_PENALTY <? _penalty)) InvalidParameter;
  Ok (emit (ParametersUpdated "earlyWithdrawalPenalty"
              (earlyWithdrawalPenalty s) _penalty (timestamp w))
        (on_store (set_earlyWithdrawalPenalty _penalty) w)).

(** setDailyDeductionLimits *)
Definition setDailyDeductionLimits (sender : address) (_min _max : uint256)
    (w : World Y) : res (World Y) :=
  let s := store w in
  _ ← onlyRole s DEFAULT_ADMIN_ROLE sender;
  _ ← require (negb ((_min =? 0) || (_max <=? _min))) InvalidParameter;
  Ok (emit (ParametersUpdated "maxDailyDeduction" (maxDailyDeduction s) _max
              (timestamp w))
        (emit (ParametersUpdated "minDailyDeduction" (minDailyDeduction s) _min
                 (timestamp w))
           (on_store (fun s => set_maxDailyDeduction _max
                                 (set_minDailyDeduction _min s)) w))).

(** setYieldDistribution *)
Definition setYieldDistribution (sender : address)
    (_userYieldShareBps _protocolFeeBps : uint256) (w : World Y)
  : res (World Y) :=
  let s := store w in
  _ ← onlyRole s DEFAULT_ADMIN_ROLE sender;
  _ ← require (negb (10000 <? _userYieldShareBps)) InvalidParameter;
  Ok (emit (ParametersUpdated "protocolFeeBps" (protocolFeeBps s)
              _protocolFeeBps (timestamp w))
        (emit (ParametersUpdated "userYieldShareBps" (userYieldShareBps s)
                 _userYieldShareBps (timestamp w))
           (on_store (fun s => set_protocolFeeBps _protocolFeeBps
                                 (set_userYieldShareBps _userYieldShareBps s))
              w))).

(** setMinYieldDepositThreshold *)
Definition setMinYieldDepositThreshold (sender : address) (_threshold : uint256)
    (w : World Y) : res (World Y) :=
  let s := store w in
  _ ← onlyRole s DEFAULT_ADMIN_ROLE sender;
  Ok (emit (ParametersUpdated "minYieldDepositThreshold"
              (minYieldDepositThreshold s) _threshold (timestamp w))
        (on_store (set_minYieldDepositThreshold _threshold) w)).

(** harvestYield *)
Definition harvestYield (sender : address) (w : World Y) : res (World Y) :=
  let s := store w in
  _ ← onlyRole s KEEPER_ROLE sender;
  if yieldProtocol s =? 0 then Ok w
  else
    healthy ← call (yieldProtocol s) (yp w)
                (yp_isHealthy (yieldProtocol s) (yp w, usdc w));
    _ ← require healthy YieldProtocolUnhealthy;
    due ← add (lastYieldHarvest s) (yieldHarvestInterval s);
    if timestamp w <? due then Ok w
    else
      yieldBalance ← call (yieldProtocol s) (yp w)
                       (yp_getBalance (yieldProtocol s) (yp w, usdc w));
      if yieldBalance <=? totalPrincipal s then Ok w
      else
        totalYield ← sub yieldBalance (totalPrincipal s);
        m ← mul totalYield (userYieldShareBps s);
        let userYield := m / 10000 in
        protocolYield ← sub totalYield userYield;
        w1 ← (if 0 <? totalYield then _withdrawFromYield totalYield w
              else Ok w);
        tuy ← add (totalUserYield (store w1)) userYield;
        tpy ← add (totalProtocolYield (store w1)) protocolYield;
        Ok (emit (YieldHarvested totalYield userYield protocolYield
                    (timestamp w))
              (on_store (fun s => set_lastYieldHarvest (timestamp w)
                                    (set_totalProtocolYield tpy
                                       (set_totalUserYield tuy s))) w1)).

(** emergencyExitYield *)
Definition emergencyExitYield (sender : address) (reason : bytes32)
    (w : World Y) : res (World Y) :=
  let s := store w in
  _ ← onlyRole s EMERGENCY_ROLE sender;
  if yieldProtocol s =? 0 then Ok w
  else
    r ← call (yieldProtocol s) (yp w)
          (yp_emergencyWithdraw (yieldProtocol s) (this w) (yp w, usdc w));
    Ok (emit (EmergencyYieldExit (fst r) (yieldProtocol s) reason (timestamp w))
          (on_store (set_totalYieldShares 0)
             (set_yp (fst (snd r)) (set_usdc (snd (snd r)) w)))).

(** scheduleEmergencyWithdrawal; returns [withdrawalId] *)
Definition scheduleEmergencyWithdrawal (sender usr : address)
    (id amt : uint256) (reason : bytes32) (w : World Y)
  : res (bytes32 * World Y) :=
  let s := store w in
  _ ← onlyRole s EMERGENCY_ROLE sender;
  _ ← whenPaused s;
  _ ← require (negb ((id =? 0) || (totalPlans s <? id))) InvalidPlanId;
  let plan := plan_at s id in
  _ ← require (owner plan =? usr) InvalidParameter;
  let withdrawalId :=
    keccak256_packed sender usr id amt (timestamp w) reason in
  execTime ← add (timestamp w) (emergencyWithdrawalDelay s);
  let request :=
    {| admin := sender; user := usr; planId := id; amount := amt;
       scheduledTime := timestamp w; executionTime := execTime;
       reasonHash := reason; executed := false; cancelled := false |} in
  Ok (withdrawalId,
      emit (EmergencyWithdrawalScheduled withdrawalId sender usr id amt
              execTime reason)
        (on_store (write_withdrawal withdrawalId request) w)).

(** The amount an emergency withdrawal pays: the request's amount, 0 meaning
    everything, clamped to what the plan holds. *)
Definition emergencyAmount (request : EmergencyWithdrawal) (plan : Plan)
  : res uint256 :=
  withdrawAmount ← (if amount request =? 0 then
                      add (accumulatedBalance plan) (yieldEarned plan)
                    else Ok (amount request));
  available ← add (accumulatedBalance plan) (yieldEarned plan);
  Ok (if available <? withdrawAmount then available else withdrawAmount).

(** executeEmergencyWithdrawal *)
Definition executeEmergencyWithdrawal (sender : address) (wid : bytes32)
    (w : World Y) : res (World Y) :=
  let s := store w in
  _ ← onlyRole s EMERGENCY_ROLE sender;
  _ ← whenPaused s;
  let request := withdrawal_at s wid in
  _ ← require (negb (admin request =? 0)) InvalidEmergencyWithdrawal;
  _ ← require (negb (executed request)) EmergencyWithdrawalAlreadyExecuted;
  _ ← require (negb (cancelled request)) EmergencyWithdrawalIsCancelled;
  _ ← require (negb (timestamp w <? executionTime request))
        EmergencyWithdrawalNotReady;
  let plan := plan_at s (planId request) in
  withdrawAmount ← emergencyAmount request plan;
  w1 ← pullFromYieldIfNeeded withdrawAmount w;
  plan1 ← (if accumulatedBalance plan <=? withdrawAmount then
             d ← sub withdrawAmount (accumulatedBalance plan);
             ye ← sub (yieldEarned plan) d;
             Ok (set_accumulatedBalance 0 (set_yieldEarned ye plan))
           else
             acc ← sub (accumulatedBalance plan) withdrawAmount;
             Ok (set_accumulatedBalance acc plan));
  let w2 := on_store (fun s => write_withdrawal wid (set_executed true request)
                                 (write_plan (planId request)
                                    (set_flags false true plan1) s)) w1 in
  tok ← erc20_transfer (this w2) (user request) withdrawAmount (usdc w2);
  Ok (emit (EmergencyWithdrawalExecuted wid (admin request) (user request)
              (planId request) withdrawAmount (reasonHash request)
              (timestamp w))
        (set_usdc tok w2)).

(** cancelEmergencyWithdrawal *)
Definition cancelEmergencyWithdrawal (sender : address) (wid : bytes32)
    (w : World Y) : res (World Y) :=
  let s := store w in
  _ ← onlyRole s EMERGENCY_ROLE sender;
  let request := withdrawal_at s wid in
  _ ← require (negb (admin request =? 0)) InvalidEmergencyWithdrawal;
  _ ← require (negb (executed request)) EmergencyWithdrawalAlreadyExecuted;
  _ ← require (negb (cancelled request)) EmergencyWithdrawalIsCancelled;
  Ok (emit (EmergencyWithdrawalCancelled wid (admin request) (user request)
              (planId request) (timestamp w))
        (on_store (write_withdrawal wid (set_cancelled true request)) w)).

(** withdrawProtocolFees *)
Definition withdrawProtocolFees (sender : address) (amt : uint256)
    (to : address) (w : World Y) : res (World Y) :=
  let s := store w in
  _ ← onlyRole s DEFAULT_ADMIN_ROLE sender;
  _ ← require (negb (to =? 0)) InvalidParameter;
  _ ← require (negb (totalProtocolYield s <? amt)) InvalidWithdrawalAmount;
  tpy ← sub (totalProtocolYield s) amt;
  tok ← erc20_transfer (this w) to amt (usdc w);
  Ok (emit (ProtocolFeeWithdrawn sender amt (timestamp w))
        (on_store (set_totalProtocolYield tpy) (set_usdc tok w))).

(** pause (Pausable._pause is itself [whenNotPaused]) *)
Definition pause (sender : address) (w : World Y) : res (World Y) :=
  let s := store w in
  _ ← onlyRole s DEFAULT_ADMIN_ROLE sender;
  _ ← whenNotPaused s;
  Ok (emit (Paused sender) (on_store (set_paused true) w)).

(** unpause (Pausable._unpause is itself [whenPaused]) *)
Definition unpause (sender : address) (w : World Y) : res (World Y) :=
  let s := store w in
  _ ← onlyRole s DEFAULT_ADMIN_ROLE sender;
  _ ← whenPaused s;
  Ok (emit (Unpaused sender) (on_store (set_paused false) w)).

(** setEmergencyWithdrawalDelay *)
Definition setEmergencyWithdrawalDelay (sender : address) (_delay : uint256)
    (w : World Y) : res (World Y) :=
  let s := store w in
  _ ← onlyRole s DEFAULT_ADMIN_ROLE sender;
  Ok (emit (ParametersUpdated "emergencyWithdrawalDelay"
              (emergencyWithdrawalDelay s) _delay (timestamp w))
        (on_store (set_emergencyWithdrawalDelay _delay) w)).

(** *** Inherited from AccessControl; every role's admin is
    DEFAULT_ADMIN_ROLE, since the contract never calls _setRoleAdmin. *)

Definition grantRole (sender : address) (r : Role) (account : address)
    (w : World Y) : res (World Y) :=
  let s := store w in
  _ ← onlyRole s DEFAULT_ADMIN_ROLE sender;
  if hasRole s r account then Ok w
  else Ok (emit (RoleGranted r account sender)
             (on_store (set_roles ({[ (r, account) ]} ∪ roles s)) w)).

Definition revokeRole (sender : address) (r : Role) (account : address)
    (w : World Y) : res (World Y) :=
  let s := store w in
  _ ← onlyRole s DEFAULT_ADMIN_ROLE sender;
  if hasRole s r account then
    Ok (emit (RoleRevoked r account sender)
          (on_store (set_roles (roles s ∖ {[ (r, account) ]})) w))
  else Ok w.

Definition renounceRole (sender : address) (r : Role)
    (callerConfirmation : address) (w : World Y) : res (World Y) :=
  let s := store w in
  _ ← require (callerConfirmation =? sender) AccessControlBadConfirmation;
  if hasRole s r sender then
    Ok (emit (RoleRevoked r sender sender)
          (on_store (set_roles (roles s ∖ {[ (r, sender) ]})) w))
  else Ok w.

(** *** Inherited from Ownable2Step; no function of the contract is
    [onlyOwner], the owner only hands the ownership on. *)

Definition onlyOwner (s : Storage) (sender : address) : res unit :=
  require (_owner s =? sender) OwnableUnauthorizedAccount.

Definition transferOwnership (sender newOwner : address) (w : World Y)
  : res (World Y) :=
  let s := store w in
  _ ← onlyOwner s sender;
  Ok (emit (OwnershipTransferStarted (_owner s) newOwner)
        (on_store (set_pendingOwner newOwner) w)).

Definition acceptOwnership (sender : address) (w : World Y) : res (World Y) :=
  let s := store w in
  _ ← require (_pendingOwner s =? sender) OwnableUnauthorizedAccount;
  Ok (emit (OwnershipTransferred (_owner s) sender)
        (on_store (fun s => set_owner sender (set_pendingOwner 0 s)) w)).

Definition renounceOwnership (sender : address) (w : World Y)
  : res (World Y) :=
  let s := store w in
  _ ← onlyOwner s sender;
  Ok (emit (OwnershipTransferred (_owner s) 0)
        (on_store (fun s => set_owner 0 (set_pendingOwner 0 s)) w)).

(** *** Transactions *)

Inductive Call :=
  | CreatePlan (daily : uint256) (d : PlanDuration)
  | ExecuteDeduction (id : uint256)
  | ExecuteDeductionsBatch (ids : list uint256)
  | Withdraw (id amt : uint256)
  | ClaimYield (id : uint256)
  | SetYieldProtocol (a : address)
  | SetEarlyWithdrawalPenalty (v : uint256)
  | SetDailyDeductionLimits (lo hi : uint256)
  | SetYieldDistribution (userBps feeBps : uint256)
  | SetMinYieldDepositThreshold (v : uint256)
  | HarvestYield
  | EmergencyExitYield (reason : bytes32)
  | ScheduleEmergencyWithdrawal (usr : address) (id amt : uint256)
      (reason : bytes32)
  | ExecuteEmergencyWithdrawal (wid : bytes32)
  | CancelEmergencyWithdrawal (wid : bytes32)
  | WithdrawProtocolFees (amt : uint256) (to : address)
  | Pause
  | Unpause
  | SetEmergencyWithdrawalDelay (v : uint256)
  | GrantRole (r : Role) (account : address)
  | RevokeRole (r : Role) (account : address)
  | RenounceRole (r : Role) (confirmation : address)
  | TransferOwnership (newOwner : address)
  | AcceptOwnership
  | RenounceOwnership.

(** One transaction sent by [sender]; return values are dropped. *)
Definition exec (sender : address) (c : Call) (w : World Y) : res (World Y) :=
  match c with
  | CreatePlan daily d => r ← createPlan sender daily d w; Ok (snd r)
  | ExecuteDeduction id => executeDeduction id w
  | ExecuteDeductionsBatch ids => executeDeductionsBatch ids w
  | Withdraw id amt => r ← withdraw sender id amt w; Ok (snd r)
  | ClaimYield id => r ← claimYield sender id w; Ok (snd r)
  | SetYieldProtocol a => setYieldProtocol sender a w
  | SetEarlyWithdrawalPenalty v => setEarlyWithdrawalPenalty sender v w
  | SetDailyDeductionLimits lo hi => setDailyDeductionLimits sender lo hi w
  | SetYieldDistribution u f => setYieldDistribution sender u f w
  | SetMinYieldDepositThreshold v => setMinYieldDepositThreshold sender v w
  | HarvestYield => harvestYield sender w
  | EmergencyExitYield reason => emergencyExitYield sender reason w
  | ScheduleEmergencyWithdrawal usr id amt reason =>
      r ← scheduleEmergencyWithdrawal sender usr id amt reason w; Ok (snd r)
  | ExecuteEmergencyWithdrawal wid => executeEmergencyWithdrawal sender wid w
  | CancelEmergencyWithdrawal wid => cancelEmergencyWithdrawal sender wid w
  | WithdrawProtocolFees amt to => withdrawProtocolFees sender amt to w
  | Pause => pause sender w
  | Unpause => unpause sender w
  | SetEmergencyWithdrawalDelay v => setEmergencyWithdrawalDelay sender v w
  | GrantRole r account => grantRole sender r account w
  | RevokeRole r account => revokeRole sender r account w
  | RenounceRole r confirmation => renounceRole sender r confirmation w
  | TransferOwnership newOwner => transferOwnership sender newOwner w
  | AcceptOwnership => acceptOwnership sender w
  | RenounceOwnership => renounceOwnership sender w
  end.

(** What happens between and around the contract's transactions: time passes
    (never backwards; several transactions may share a block timestamp), and
    the token ledger and the yield protocol change by other parties'
    transactions.  The contract's storage and address stay as they are. *)
Definition environment (w w' : World Y) : Prop :=
  this w' = this w /\ store w' = store w /\ events w' = events w
  /\ timestamp w <= timestamp w'.

Inductive step : World Y -> World Y -> Prop :=
  | step_call sender c w w' : exec sender c w = Ok w' -> step w w'
  | step_env w w' : environment w w' -> step w w'.

(** The worlds right after deployment. *)
Definition deployed (w : World Y) : Prop :=
  exists sender token p mn mx fee share,
    constructor sender token p mn mx fee share = Ok (store w)
    /\ events w = [].

Inductive reachable : World Y -> Prop :=
  | reach_deployed w : deployed w -> reachable w
  | reach_step w w' : reachable w -> step w w' -> reachable w'.

End SavingsPlan.

(** ** Scenarios: sequences of transactions and environment moves *)

Section Scenarios.
Context {Y : Type} `{!IYieldProtocol Y} `{!Keccak256}.

(** MockUSDC.mint: ERC20._mint, whose _update adds to _totalSupply in
    checked arithmetic and then credits the receiver. *)
Definition erc20_mint (to : address) (value : uint256) (t : Token) : res Token :=
  if to =? 0 then Revert ERC20InvalidReceiver
  else
    supply ← add (totalSupply t) value;
    Ok {| totalSupply := supply;
          balances := <[to := balanceOf t to + value]> (balances t);
          allowances := allowances t |}.

Inductive Action :=
  | Tx (sender : address) (c : Call)        (* a call into SavingsPlan *)
  | Warp (dt : uint256)                     (* time passes *)
  | Mint (to : address) (v : uint256)       (* usdc.mint(to, v) *)
  | Approve (holder spender : address) (v : uint256). (* usdc.approve by holder *)

Definition act (a : Action) (w : World Y) : res (World Y) :=
  match a with
  | Tx sender c => exec sender c w
  | Warp dt => Ok (set_timestamp (timestamp w + dt) w)
  | Mint to v => tok ← erc20_mint to v (usdc w); Ok (set_usdc tok w)
  | Approve holder spender v =>
      tok ← erc20_approve holder spender v (usdc w); Ok (set_usdc tok w)
  end.

Fixpoint run (l : list Action) (w : World Y) : res (World Y) :=
  match l with
  | [] => Ok w
  | a :: rest => w' ← act a w; run rest w'
  end.

(** Deployment at address [self] into a given chain state. *)
Definition deploy (self : address) (now : uint256) (tok : Token) (y : Y)
    (sender token : address) (penalty mn mx fee share : uint256)
  : res (World Y) :=
  s ← constructor sender token penalty mn mx fee share;
  Ok {| this := self; timestamp := now; usdc := tok; yp := y; store := s;
        events := [] |}.

End Scenarios.

(** ** mocks/MockYieldProtocol.sol *)

Record MockYieldProtocol := {
  mock_address : address;
  apy : uint256;
  totalDeposited : uint256;
  totalShares : uint256;
  isHealthyFlag : bool;
  shares : gmap N N
}.

Definition res_to_option {A} (r : res A) : option A :=
  match r with Ok a => Some a | Revert _ => None end.

Definition mock_sharesOf (y : MockYieldProtocol) (a : address) : uint256 :=
  default 0 (shares y !! a).

(** MockYieldProtocol.deposit *)
Definition mock_deposit (sender : address) (amt : uint256)
    (yt : MockYieldProtocol * Token) : res (uint256 * (MockYieldProtocol * Token)) :=
  let y := fst yt in
  tok ← erc20_transferFrom (mock_address y) sender (mock_address y) amt (snd yt);
  let newShares := amt in
  mine ← add (mock_sharesOf y sender) newShares;
  td ← add (totalDeposited y) amt;
  ts ← add (totalShares y) newShares;
  Ok (newShares,
      ({| mock_address := mock_address y; apy := apy y; totalDeposited := td;
          totalShares := ts; isHealthyFlag := isHealthyFlag y;
          shares := <[sender := mine]> (shares y) |}, tok)).

(** MockYieldProtocol.withdraw *)
Definition mock_withdraw (sender : address) (sharesToWithdraw : uint256)
    (yt : MockYieldProtocol * Token) : res (uint256 * (MockYieldProtocol * Token)) :=
  let y := fst yt in
  _ ← require (sharesToWithdraw <=? mock_sharesOf y sender) ExternalCallFailed;
  m ← mul sharesToWithdraw (totalDeposited y);
  principal ← div m (totalShares y);
  m1 ← mul principal (apy y);
  m2 ← mul m1 365;
  let yieldPart := m2 / (10000 * 365) in
  totalAmount ← add principal yieldPart;
  mine ← sub (mock_sharesOf y sender) sharesToWithdraw;
  ts ← sub (totalShares y) sharesToWithdraw;
  td ← sub (totalDeposited y) principal;
  tok ← erc20_transfer (mock_address y) sender totalAmount (snd yt);
  Ok (totalAmount,
      ({| mock_address := mock_address y; apy := apy y; totalDeposited := td;
          totalShares := ts; isHealthyFlag := isHealthyFlag y;
          shares := <[sender := mine]> (shares y) |}, tok)).

(** MockYieldProtocol.getBalance *)
Definition mock_getBalance (yt : MockYieldProtocol * Token) : res uint256 :=
  let y := fst yt in
  m1 ← mul (totalDeposited y) (apy y);
  m2 ← mul m1 365;
  add (totalDeposited y) (m2 / (10000 * 365)).

(** MockYieldProtocol.emergencyWithdraw *)
Definition mock_emergencyWithdraw (sender : address)
    (yt : MockYieldProtocol * Token) : res (uint256 * (MockYieldProtocol * Token)) :=
  let y := fst yt in
  let balance := balanceOf (snd yt) (mock_address y) in
  tok ← erc20_transfer (mock_address y) sender balance (snd yt);
  Ok (balance,
      ({| mock_address := mock_address y; apy := apy y; totalDeposited := 0;
          totalShares := 0; isHealthyFlag := isHealthyFlag y;
          shares := shares y |}, tok)).

(** The mock behind the interface: it answers at its own address only. *)
Definition at_mock {A} (target : address) (yt : MockYieldProtocol * Token)
    (r : res A) : option A :=
  if target =? mock_address (fst yt) then res_to_option r else None.

#[global] Instance MockYieldProtocol_IYieldProtocol
  : IYieldProtocol MockYieldProtocol := {|
  yp_hasCode target y := target =? mock_address y;
  yp_deposit target sender amt yt := at_mock target yt (mock_deposit sender amt yt);
  yp_withdraw target sender n yt := at_mock target yt (mock_withdraw sender n yt);
  yp_getBalance target yt := at_mock target yt (mock_getBalance yt);
  yp_isHealthy target yt := at_mock target yt (Ok (isHealthyFlag (fst yt)));
  yp_emergencyWithdraw target sender yt :=
    at_mock target yt (mock_emergencyWithdraw sender yt)
|}.

(** A stand-in for keccak256 in scenarios: an injective code of the packed
    fields.  The theorems below hold for every hash function. *)
#[global] Instance code_Keccak256 : Keccak256 := {|
  keccak256_packed a b c d e f := Npos (encode (a, b, c, d, e, f));
  keccak256_string s := Npos (encode s)
|}.

(** *** The chain the scenarios start from *)

Definition SAVINGS : address := 1000.   (* address(this) *)
Definition USDC : address := 2000.
Definition MOCK : address := 3000.
Definition DEPLOYER : address := 1.     (* admin, keeper and emergency role *)
Definition ALICE : address := 11.       (* a saver *)
Definition T0 : uint256 := 1700000000.

Definition mock0 : MockYieldProtocol :=
  {| mock_address := MOCK; apy := 500; totalDeposited := 0; totalShares := 0;
     isHealthyFlag := true; shares := ∅ |}.

Definition token0 : Token :=
  {| totalSupply := 0; balances := ∅; allowances := ∅ |}.

(** Deployment with a 10% penalty, daily amounts in [1, 1000000]$ and an 80%
    user share of yield. *)
Definition genesis : res (World MockYieldProtocol) :=
  deploy SAVINGS T0 token0 mock0 DEPLOYER USDC 1000 1 1000000 0 8000.

Definition from_genesis (l : list Action) : res (World MockYieldProtocol) :=
  w ← genesis; run l w.

(** Alice funds herself, approves the contract and opens a 30-day plan of 10
    per day. *)
Definition alice_opens_plan : list Action :=
  [ Mint ALICE 1000; Approve ALICE SAVINGS MAX_UINT256;
    Tx ALICE (CreatePlan 10 ONE_MONTH) ].

(** [n] daily deductions at exact 24h spacing, starting now. *)
Fixpoint daily_deductions (n : nat) : list Action :=
  match n with
  | O => []
  | S O => [ Tx DEPLOYER (ExecuteDeduction 1) ]
  | S n' => Tx DEPLOYER (ExecuteDeduction 1) :: Warp days1 :: daily_deductions n'
  end.

Definition res_map {A B} (f : A -> B) (r : res A) : res B :=
  match r with Ok a => Ok (f a) | Revert e => Revert e end.

(** The world after a transaction: a revert leaves it as it was. *)
Definition after {Y} (r : res (World Y)) (w : World Y) : World Y :=
  match r with Ok w' => w' | Revert _ => w end.

(** The spec's scenario: thirty deductions at 24h spacing, then the maturity
    check on day 30. *)
Definition matured_plan : list Action :=
  alice_opens_plan ++ daily_deductions 30
  ++ [ Warp days1; Tx DEPLOYER (ExecuteDeduction 1) ].

(** One deduction, then the admin pauses the contract. *)
Definition paused_with_balance : list Action :=
  alice_opens_plan ++ [ Tx DEPLOYER (ExecuteDeduction 1); Tx DEPLOYER Pause ].

(** A request is scheduled under pause, then the contract is unpaused. *)
Definition unpaused_with_request : list Action :=
  alice_opens_plan
  ++ [ Tx DEPLOYER Pause;
       Tx DEPLOYER (ScheduleEmergencyWithdrawal ALICE 1 0 77);
       Tx DEPLOYER Unpause ].

(** The id of the request [DEPLOYER] schedules for Alice's plan at time [t]. *)
Definition request_id (t : uint256) : bytes32 :=
  keccak256_packed DEPLOYER ALICE 1 0 t 77.

(** The reading of the pause gate under which every emergency operation
    needs the pause and every user path is closed by it. *)
Definition pause_gates_every_path : Prop :=
  forall w : World MockYieldProtocol, reachable w ->
    (paused (store w) = false ->
       forall sender usr id amt reason wid,
         reverts (scheduleEmergencyWithdrawal sender usr id amt reason w)
         /\ reverts (executeEmergencyWithdrawal sender wid w)
         /\ reverts (cancelEmergencyWithdrawal sender wid w))
    /\ (paused (store w) = true ->
       forall sender id amt,
         reverts (executeDeduction id w)
         /\ reverts (withdraw sender id amt w)).

(** The world a scenario ends in (the genesis-less blank world if it reverts,
    which none of the scenarios below does). *)
Definition blank : World MockYieldProtocol :=
  {| this := SAVINGS; timestamp := T0; usdc := token0; yp := mock0;
     store := {| yieldProtocol := 0; totalPlans := 0;
                 earlyWithdrawalPenalty := 0; minDailyDeduction := 0;
                 maxDailyDeduction := 0; protocolFeeBps := 0;
                 userYieldShareBps := 0; minYieldDepositThreshold := 0;
                 totalPrincipal := 0; totalUserYield := 0;
                 totalProtocolYield := 0; totalYieldShares := 0;
                 emergencyWithdrawalDelay := 0; plans := ∅; userPlans := ∅;
                 emergencyWithdrawals := ∅; lastYieldHarvest := 0;
                 yieldHarvestInterval := 0; paused := false; roles := ∅;
                 _owner := 0; _pendingOwner := 0 |};
     events := [] |}.

Definition world_after (l : list Action) : World MockYieldProtocol :=
  match from_genesis l with Ok w => w | Revert _ => blank end.

(** Alice's plan holds 10; the contract is paused and an emergency withdrawal
    of everything is scheduled for her. *)
Definition emergency_scheduled : list Action :=
  alice_opens_plan
  ++ [ Tx DEPLOYER (ExecuteDeduction 1); Tx DEPLOYER Pause;
       Tx DEPLOYER (ScheduleEmergencyWithdrawal ALICE 1 0 77) ].



(** The request is cancelled in the block it was scheduled in ... *)
Definition request_cancelled : list Action :=
  emergency_scheduled
  ++ [ Tx DEPLOYER (CancelEmergencyWithdrawal (request_id T0)) ].

(** ... scheduled once more, with the same arguments, still in that block,
    and the timelock passes. *)
Definition request_rescheduled : list Action :=
  request_cancelled
  ++ [ Tx DEPLOYER (ScheduleEmergencyWithdrawal ALICE 1 0 77);
       Warp (48 * hours1) ].

(** With the timelock set to zero, a request for 4 of Alice's 10 is scheduled
    and executed, and scheduled again in the same block. *)
Definition partial_request_id : bytes32 :=
  keccak256_packed DEPLOYER ALICE 1 4 T0 77.

Definition executed_and_rescheduled : list Action :=
  alice_opens_plan
  ++ [ Tx DEPLOYER (ExecuteDeduction 1);
       Tx DEPLOYER (SetEmergencyWithdrawalDelay 0);
       Tx DEPLOYER Pause;
       Tx DEPLOYER (ScheduleEmergencyWithdrawal ALICE 1 4 77);
       Tx DEPLOYER (ExecuteEmergencyWithdrawal partial_request_id);
       Tx DEPLOYER (ScheduleEmergencyWithdrawal ALICE 1 4 77) ].

(** Alice's plan after its first deduction of 10. *)
Definition one_deduction : list Action :=
  alice_opens_plan ++ [ Tx DEPLOYER (ExecuteDeduction 1) ].

(** The early payout as the formula [requested * (10000 - penaltyBps) / 10000]
    gives it. *)
Definition early_payout_by_formula (requested penaltyBps : uint256) : uint256 :=
  requested * (10000 - penaltyBps) / 10000.

(** Alice opens her plan without approving the contract. *)
Definition no_allowance : list Action :=
  [ Mint ALICE 1000; Tx ALICE (CreatePlan 10 ONE_MONTH) ].

Definition missed_once : list Action :=
  no_allowance ++ [ Tx DEPLOYER (ExecuteDeduction 1) ].

(** The mock protocol is plugged in with a low pooling threshold; Alice's
    first deduction of 1000 is swept into it and a harvest books the 5%
    yield the mock reports: 40 to the users, 10 to the protocol. *)
Definition fees_harvested : list Action :=
  [ Tx DEPLOYER (SetMinYieldDepositThreshold 5);
    Tx DEPLOYER (SetYieldProtocol MOCK);
    Mint ALICE 1000000; Approve ALICE SAVINGS MAX_UINT256;
    Tx ALICE (CreatePlan 1000 ONE_MONTH);
    Tx DEPLOYER (ExecuteDeduction 1);
    Tx DEPLOYER HarvestYield ].

Definition fees_withdrawn : list Action :=
  fees_harvested ++ [ Tx DEPLOYER (WithdrawProtocolFees 10 DEPLOYER) ].

(** None of the four counters is lower in [s'] than in [s]. *)
Definition only_grow (s s' : Storage) : Prop :=
  totalPlans s <= totalPlans s'
  /\ totalPrincipal s <= totalPrincipal s'
  /\ totalUserYield s <= totalUserYield s'
  /\ totalProtocolYield s <= totalProtocolYield s'.

(** The reading under which no step of a reachable world lowers a counter. *)
Definition counters_monotonic : Prop :=
  forall w w' : World MockYieldProtocol,
    reachable w -> step w w' -> only_grow (store w) (store w').

(** Alice's 1000 sit in the mock protocol and half of her plan has elapsed. *)
Definition yield_accruing : list Action :=
  [ Tx DEPLOYER (SetMinYieldDepositThreshold 5);
    Tx DEPLOYER (SetYieldProtocol MOCK);
    Mint ALICE 1000000; Approve ALICE SAVINGS MAX_UINT256;
    Tx ALICE (CreatePlan 1000 ONE_MONTH);
    Tx DEPLOYER (ExecuteDeduction 1);
    Warp (15 * days1) ].

(** The formula in the spec's words: the plan's proportional claim
    [principalDeposited * totalYieldShares / totalPrincipal], scaled by the
    time factor [min(elapsed, duration) / duration] (carried at 18 decimals)
    and then by [userYieldShareBps / 10000]. *)
Definition spec_timeFactor (elapsed planDuration : uint256) : uint256 :=
  N.min elapsed planDuration * PRECISION / planDuration.

Definition spec_yield (principal shares total elapsed planDuration bps : uint256)
  : uint256 :=
  (principal * shares / total) * spec_timeFactor elapsed planDuration
  / PRECISION * bps / 10000.

(** The reading under which the accessor and the distribution path return
    the same amount in every reachable world. *)
Definition yield_paths_agree : Prop :=
  forall (w : World MockYieldProtocol) (id : uint256),
    reachable w ->
    getAccumulatedYield id w
    = res_map fst (_calculateAndDistributeYield id w).

(** A plan that records a last deduction has had a successful one. *)
Definition plan_inv (p : Plan) : Prop :=
  0 < lastDeductionDate p -> 1 <= successfulDeductions p.

Definition plans_inv (s : Storage) : Prop :=
  forall id, plan_inv (plan_at s id).

(** ** The remaining view functions *)

(** The descriptive half of interfaces/IYieldProtocol.sol, read by the
    views only. *)
Class IYieldProtocolInfo (Y : Type) := {
  yp_getAPY : address -> Y * Token -> option uint256;
  yp_getProtocolName : address -> Y * Token -> option string
}.

Section Views.
Context {Y : Type} `{!IYieldProtocol Y} `{!IYieldProtocolInfo Y}.

(** getPlan *)
Definition getPlan (id : uint256) (w : World Y) : res Plan :=
  _ ← validPlanId (store w) id;
  Ok (plan_at (store w) id).

(** getUserPlans *)
Definition getUserPlans (usr : address) (w : World Y) : list uint256 :=
  default [] (userPlans (store w) !! usr).

(** [try yieldProtocol.getBalance() returns (uint256 bal) { bal } catch { 0 }],
    guarded by [address(yieldProtocol) != address(0)] *)
Definition yieldBalanceOrZero (w : World Y) : res uint256 :=
  let s := store w in
  if negb (yieldProtocol s =? 0) then
    match extcall (yieldProtocol s) (yp w)
            (yp_getBalance (yieldProtocol s) (yp w, usdc w)) with
    | Returned bal => Ok bal
    | Failed => Ok 0
    | NoCode => Revert ExternalCallFailed
    end
  else Ok 0.

(** getTotalContractBalance *)
Definition getTotalContractBalance (w : World Y) : res uint256 :=
  let onChainBalance := balanceOf (usdc w) (this w) in
  yieldBalance ← yieldBalanceOrZero w;
  add onChainBalance yieldBalance.

(** getYieldProtocolInfo *)
Definition getYieldProtocolInfo (w : World Y)
  : res (address * string * uint256 * bool * uint256) :=
  let s := store w in
  let a := yieldProtocol s in
  if a =? 0 then Ok (0, ""%string, 0, false, 0)
  else
    protocolName ← match extcall a (yp w) (yp_getProtocolName a (yp w, usdc w)) with
                   | Returned name => Ok name
                   | Failed => Ok "Unknown"%string
                   | NoCode => Revert ExternalCallFailed
                   end;
    currentAPY ← match extcall a (yp w) (yp_getAPY a (yp w, usdc w)) with
                 | Returned rate => Ok rate
                 | Failed => Ok 0
                 | NoCode => Revert ExternalCallFailed
                 end;
    healthy ← match extcall a (yp w) (yp_isHealthy a (yp w, usdc w)) with
              | Returned h => Ok h
              | Failed => Ok false
              | NoCode => Revert ExternalCallFailed
              end;
    balanceInProtocol ← match extcall a (yp w)
                                (yp_getBalance a (yp w, usdc w)) with
                        | Returned bal => Ok bal
                        | Failed => Ok 0
                        | NoCode => Revert ExternalCallFailed
                        end;
    Ok (a, protocolName, currentAPY, healthy, balanceInProtocol).

(** getProjectedBalance *)
Definition getProjectedBalance (id : uint256) (w : World Y) : res uint256 :=
  let s := store w in
  _ ← validPlanId s id;
  let plan := plan_at s id in
  remaining ← sub (endDate plan) (timestamp w);
  let daysRemaining := remaining / days1 in
  currentBalance ← (if (0 <? daysRemaining) && (timestamp w <? endDate plan)
                    then
                      m ← mul (dailyAmount plan) daysRemaining;
                      add (accumulatedBalance plan) m
                    else Ok (accumulatedBalance plan));
  if negb (yieldProtocol s =? 0) then
    match extcall (yieldProtocol s) (yp w)
            (yp_getAPY (yieldProtocol s) (yp w, usdc w)) with
    | Returned rate =>
        span ← sub (endDate plan) (startDate plan);
        let daysInPlan := span / days1 in
        m1 ← mul currentBalance rate;
        m2 ← mul m1 daysInPlan;
        let estimatedYield := m2 / (365 * PRECISION) in
        m3 ← mul estimatedYield (userYieldShareBps s);
        add currentBalance (m3 / 10000)
    | Failed => Ok currentBalance
    | NoCode => Revert ExternalCallFailed
    end
  else Ok currentBalance.

(** _verifyAccounting *)
Definition _verifyAccounting (w : World Y) : res unit :=
  let s := store w in
  let onChainBalance := balanceOf (usdc w) (this w) in
  yieldBalance ← yieldBalanceOrZero w;
  totalFunds ← add onChainBalance yieldBalance;
  e1 ← add (totalPrincipal s) (totalUserYield s);
  expectedTotal ← add e1 (totalProtocolYield s);
  low ← sub expectedTotal (10 ^ 6);
  if totalFunds <? low then Revert AccountingMismatch
  else
    high ← add expectedTotal (10 ^ 6);
    if high <? totalFunds then Revert AccountingMismatch else Ok tt.

End Views.

(** MockYieldProtocol.getAPY, getProtocolName, setAPY, setHealthy *)
Definition mock_getAPY (y : MockYieldProtocol) : res uint256 :=
  mul (apy y) (10 ^ 14).

Definition mock_setAPY (v : uint256) (y : MockYieldProtocol) : MockYieldProtocol :=
  {| mock_address := mock_address y; apy := v;
     totalDeposited := totalDeposited y; totalShares := totalShares y;
     isHealthyFlag := isHealthyFlag y; shares := shares y |}.

Definition mock_setHealthy (v : bool) (y : MockYieldProtocol) : MockYieldProtocol :=
  {| mock_address := mock_address y; apy := apy y;
     totalDeposited := totalDeposited y; totalShares := totalShares y;
     isHealthyFlag := v; shares := shares y |}.

#[global] Instance MockYieldProtocol_IYieldProtocolInfo
  : IYieldProtocolInfo MockYieldProtocol := {|
  yp_getAPY target yt := at_mock target yt (mock_getAPY (fst yt));
  yp_getProtocolName target yt :=
    at_mock target yt (Ok "MockYieldProtocol"%string)
|}.

(** ** What reachable storage looks like *)

(** A plan as createPlan writes it and the other functions keep it. *)
Record plan_ok (p : Plan) : Prop := {
  ok_flags : isActive p = negb (isCompleted p);
  ok_end : endDate p = startDate p + planDurationOf (duration p);
  ok_target :
    totalTarget p = dailyAmount p * (planDurationOf (duration p) / days1);
  ok_principal :
    principalDeposited p = dailyAmount p * successfulDeductions p;
  ok_balance : accumulatedBalance p <= principalDeposited p;
  ok_count :
    successfulDeductions p <= planDurationOf (duration p) / days1 + 1;
  ok_daily : 1 <= dailyAmount p
}.

(** The part of storage the invariant speaks about. *)
Definition core_ok (pen mn mx bps n : uint256) (pl : gmap N Plan)
    (ew : gmap N EmergencyWithdrawal) : Prop :=
  pen <= MAX_EARLY_WITHDRAWAL_PENALTY
  /\ 0 < mn /\ mn < mx
  /\ bps <= 10000
  /\ (forall id, is_Some (pl !! id) <-> 1 <= id /\ id <= n)
  /\ (forall id p, pl !! id = Some p -> plan_ok p)
  /\ (forall wid r, ew !! wid = Some r -> 1 <= planId r /\ planId r <= n).

Definition store_ok (s : Storage) : Prop :=
  core_ok (earlyWithdrawalPenalty s) (minDailyDeduction s)
    (maxDailyDeduction s) (userYieldShareBps s) (totalPlans s) (plans s)
    (emergencyWithdrawals s).

(** The sum of principalDeposited over the plan table. *)
Definition principal_sum (pl : gmap N Plan) : uint256 :=
  map_fold (fun _ p acc => principalDeposited p + acc) 0 pl.

(** The plan ids an account owns, as the plan table has them. *)
Definition owns (s : Storage) (usr : address) (id : uint256) : Prop :=
  1 <= id /\ id <= totalPlans s /\ owner (plan_at s id) = usr.

(** A 30-day plan collects its thirty deductions on time and a further one
    in the last hour before its end date. *)
Definition thirty_one_deductions : list Action :=
  alice_opens_plan ++ daily_deductions 30
  ++ [ Warp (days1 - hours1); Tx DEPLOYER (ExecuteDeduction 1) ].

(** The terms of a plan that createPlan fixes. *)
Definition plan_terms (p : Plan)
  : address * uint256 * uint256 * uint256 * uint256 * PlanDuration :=
  (owner p, dailyAmount p, startDate p, endDate p, totalTarget p, duration p).

(** A plan and the same plan some transactions later. *)
Record plan_step (p p' : Plan) : Prop := {
  step_terms : plan_terms p' = plan_terms p;
  step_completed : isCompleted p = true -> isCompleted p' = true;
  step_successful : successfulDeductions p <= successfulDeductions p';
  step_missed : missedDeductions p <= missedDeductions p';
  step_principal : principalDeposited p <= principalDeposited p'
}.

(** [userPlans] lists, without repetition, exactly the plans an account
    owns. *)
Definition index_ok (s : Storage) : Prop :=
  forall usr,
    NoDup (default [] (userPlans s !! usr))
    /\ forall id, id ∈ default [] (userPlans s !! usr) <-> owns s usr id.

(** Every recorded emergency request is for the owner of its plan. *)
Definition requests_ok (s : Storage) : Prop :=
  forall wid r,
    emergencyWithdrawals s !! wid = Some r ->
    user r = owner (plan_at s (planId r)).

(** Alice's first deduction runs half an hour before the second one falls
    due. *)
Definition late_first_deduction : list Action :=
  alice_opens_plan
  ++ [ Warp (days1 - 1800); Tx DEPLOYER (ExecuteDeduction 1) ].

(** The reverts a batch can end in: the pause, an arithmetic panic, a failed
    external call, or an error of the token. *)
Definition batch_reverts : list Error :=
  [ EnforcedPause; PanicArithmetic; PanicDivisionByZero; ExternalCallFailed;
    ERC20InsufficientBalance; ERC20InsufficientAllowance; ERC20InvalidSender;
    ERC20InvalidReceiver; ERC20InvalidApprover; ERC20InvalidSpender ].

(** A plan id the batch passes over: out of range, or a plan that is not
    running. *)
Definition batch_skips (s : Storage) (id : uint256) : Prop :=
  id = 0 \/ totalPlans s < id
  \/ isActive (plan_at s id) = false \/ isCompleted (plan_at s id) = true.

(** The mock protocol holds Alice's 1000, and the contract holds 100 of its
    own to pay yield from. *)
Definition yield_funded : list Action :=
  yield_accruing ++ [ Mint SAVINGS 100 ].

(** ... and Alice has claimed the yield of her plan. *)
Definition yield_claimed : list Action :=
  yield_funded ++ [ Tx ALICE (ClaimYield 1) ].

(** A yield protocol whose every call reverts, and a world whose contract is
    configured with it at address 7 and holds 25 USDC. *)
Definition reverting_protocol : IYieldProtocol unit := {|
  yp_hasCode _ _ := true;
  yp_deposit _ _ _ _ := None;
  yp_withdraw _ _ _ _ := None;
  yp_getBalance _ _ := None;
  yp_isHealthy _ _ := None;
  yp_emergencyWithdraw _ _ _ := None
|}.

Definition reverting_protocol_info : IYieldProtocolInfo unit := {|
  yp_getAPY _ _ := None;
  yp_getProtocolName _ _ := None
|}.

Definition behind_reverting_protocol : World unit :=
  {| this := SAVINGS; timestamp := T0;
     usdc := {| totalSupply := 25; balances := {[ SAVINGS := 25 ]};
                allowances := ∅ |};
     yp := tt;
     store := set_yieldProtocol 7 (store (world_after []));
     events := [] |}.

(** The contract is configured with the mock protocol and holds nothing. *)
Definition protocol_configured : list Action :=
  [ Tx DEPLOYER (SetYieldProtocol MOCK) ].

(** Alice's plan one second after its end date. *)
Definition past_maturity : list Action :=
  matured_plan ++ [ Warp 1 ].

(** The configuration of the contract: what its administrators set. *)
Definition config (s : Storage)
  : address * uint256 * uint256 * uint256 * uint256 * uint256 * uint256
    * uint256 * bool * address * address :=
  (yieldProtocol s, earlyWithdrawalPenalty s, minDailyDeduction s,
   maxDailyDeduction s, protocolFeeBps s, userYieldShareBps s,
   minYieldDepositThreshold s, emergencyWithdrawalDelay s, paused s,
   _owner s, _pendingOwner s).

(** * Properties *)

(** ** Reading the monad *)

Lemma bind_Ok {A B} (r : res A) (k : A -> res B) (b : B) :
  (r ≫= k) = Ok b <-> exists a, r = Ok a /\ k a = Ok b.
Proof.
  destruct r as [a|e]; simpl; split.
  - intros Hk. exists a. split; [reflexivity | exact Hk].
  - intros (a' & Ha & Hk). injection Ha as ->. exact Hk.
  - discriminate.
  - intros (a' & Ha & _). discriminate.
Qed.

Lemma require_Ok (c : bool) (e : Error) (u : unit) :
  require c e = Ok u <-> c = true.
Proof. destruct c, u; simpl; split; congruence. Qed.

Lemma require_true (c : bool) (e : Error) : c = true -> require c e = Ok tt.
Proof. intros ->. reflexivity. Qed.

Lemma add_Ok (a b c : uint256) : add a b = Ok c <-> c = a + b /\ a + b <= MAX_UINT256.
Proof.
  unfold add. destruct (N.leb_spec (a + b) MAX_UINT256); split.
  - intros [= <-]. split; [reflexivity | assumption].
  - intros [-> _]. reflexivity.
  - discriminate.
  - intros [_ Hle]. lia.
Qed.

Lemma sub_Ok (a b c : uint256) : sub a b = Ok c <-> c = a - b /\ b <= a.
Proof.
  unfold sub. destruct (N.leb_spec b a); split.
  - intros [= <-]. split; [reflexivity | assumption].
  - intros [-> _]. reflexivity.
  - discriminate.
  - intros [_ Hle]. lia.
Qed.

Lemma mul_Ok (a b c : uint256) : mul a b = Ok c <-> c = a * b /\ a * b <= MAX_UINT256.
Proof.
  unfold mul. destruct (N.leb_spec (a * b) MAX_UINT256); split.
  - intros [= <-]. split; [reflexivity | assumption].
  - intros [-> _]. reflexivity.
  - discriminate.
  - intros [_ Hle]. lia.
Qed.

Lemma div_Ok (a b c : uint256) : div a b = Ok c <-> c = a / b /\ b <> 0.
Proof.
  unfold div. destruct (N.eqb_spec b 0); split.
  - discriminate.
  - intros [_ Hne]. contradiction.
  - intros [= <-]. split; [reflexivity | assumption].
  - intros [-> _]. reflexivity.
Qed.

(** Split a hypothesis [(x ← r; k) = Ok v] into its two halves. *)
Ltac bind_inv H :=
  let a := fresh "a" in
  let Ha := fresh "E" in
  apply bind_Ok in H; destruct H as (a & Ha & H).

Tactic Notation "unbind" hyp(H) "as" ident(a) ident(Ha) :=
  apply bind_Ok in H; destruct H as (a & Ha & H).

Ltac binds H :=
  repeat match type of H with
         | (_ ≫= _) = Ok _ => bind_inv H
         | (mbind _ _) = Ok _ => bind_inv H
         end.

(** Case analysis along the control flow of a run that is known to return. *)
Ltac run_inv H :=
  repeat (cbn in H;
   match type of H with
   | Revert _ = Ok _ => discriminate H
   | mbind _ ?r = Ok _ => destruct r eqn:?
   | (if ?c then _ else _) = Ok _ => destruct c eqn:?
   | match ?x with _ => _ end = Ok _ => destruct x eqn:?
   end).

(** Turn the checked operations that returned into their equations. *)
Ltac arith_facts :=
  repeat match goal with
         | Hs : add _ _ = Ok _ |- _ => apply add_Ok in Hs as [-> ?]
         | Hs : sub _ _ = Ok _ |- _ => apply sub_Ok in Hs as [-> ?]
         | Hs : mul _ _ = Ok _ |- _ => apply mul_Ok in Hs as [-> ?]
         | Hs : div _ _ = Ok _ |- _ => apply div_Ok in Hs as [-> ?]
         end.

(** The first computation a run branches on. *)
Ltac scrutinee t :=
  lazymatch t with
  | mbind _ ?r => scrutinee r
  | match ?x with _ => _ end => scrutinee x
  | _ => t
  end.

(** Exhaust the control flow of a run in hypothesis [H], closing every path
    whose outcome contradicts [H]. *)
Ltac crunch H :=
  repeat (cbn in H;
    lazymatch type of H with
    | Ok _ = Revert _ => discriminate H
    | Revert _ = Ok _ => discriminate H
    | Revert _ = Revert _ => discriminate H
    | ?lhs = _ =>
        let x := scrutinee lhs in
        lazymatch x with
        | Ok _ => fail
        | Revert _ => fail
        | _ => destruct x eqn:?
        end
    end).

(** Turn the boolean tests recorded along a path into propositions. *)
Ltac bool_facts :=
  repeat match goal with
         | Hb : (_ <? _) = true |- _ => apply N.ltb_lt in Hb
         | Hb : (_ <? _) = false |- _ => apply N.ltb_ge in Hb
         | Hb : (_ <=? _) = true |- _ => apply N.leb_le in Hb
         | Hb : (_ <=? _) = false |- _ => apply N.leb_gt in Hb
         | Hb : (_ =? _) = true |- _ => apply N.eqb_eq in Hb
         | Hb : (_ =? _) = false |- _ => apply N.eqb_neq in Hb
         | Hb : negb _ = true |- _ => apply negb_true_iff in Hb
         | Hb : negb _ = false |- _ => apply negb_false_iff in Hb
         | Hb : _ || _ = false |- _ => apply orb_false_iff in Hb as [? ?]
         | Hb : _ && _ = true |- _ => apply andb_true_iff in Hb as [? ?]
         end.

(** Quotients are just numbers to linear arithmetic. *)
Ltac hide_quotients :=
  repeat match goal with
         | |- context [N.div ?a ?b] =>
             let q := fresh "q" in generalize (N.div a b); intros q
         end.

(** Case analysis along the control flow of the left-hand side of an
    equation between two runs, outermost computation first. *)
Ltac res_cases_with tac :=
  repeat (cbn; try reflexivity;
   match goal with
   | |- _ => progress tac
   | |- mbind _ (res_map _ ?r) = _ => destruct r eqn:?
   | |- mbind _ ?r = _ => destruct r eqn:?
   | |- (if ?c then _ else _) = _ => destruct c eqn:?
   | |- match ?x with _ => _ end = _ => destruct x eqn:?
   end).

Ltac res_cases := res_cases_with idtac.

(** ** C1: withdrawing from a plan completed by the maturity check *)

Section Maturity.
Context {Y : Type} `{!IYieldProtocol Y} `{!Keccak256}.
Implicit Types (w : World Y) (sender : address).

(** The guard of [withdraw] rejects every plan that is inactive and
    completed, whatever it still holds. *)
Lemma withdraw_completed_reverts sender id amt w :
  validPlanId (store w) id = Ok tt ->
  owner (plan_at (store w) id) = sender ->
  isActive (plan_at (store w) id) = false ->
  isCompleted (plan_at (store w) id) = true ->
  withdraw sender id amt w = Revert PlanNotActive.
Proof.
  intros Hid Hown Hact Hdone. unfold withdraw, onlyPlanOwner.
  rewrite Hid, Hown, N.eqb_refl, Hact, Hdone. reflexivity.
Qed.

(** The maturity branch of [executeDeduction] produces exactly such a plan
    and leaves its balances where they are. *)
Lemma executeDeduction_matures id w :
  validPlanId (store w) id = Ok tt ->
  paused (store w) = false ->
  isActive (plan_at (store w) id) = true ->
  isCompleted (plan_at (store w) id) = false ->
  endDate (plan_at (store w) id) <= timestamp w ->
  exists w', executeDeduction id w = Ok w'
    /\ plan_at (store w') id = set_flags false true (plan_at (store w) id).
Proof.
  intros Hid Hp Hact Hdone Hend. unfold executeDeduction, whenNotPaused.
  rewrite Hid, Hp, Hact, Hdone. simpl.
  destruct (N.leb_spec (endDate (plan_at (store w) id)) (timestamp w)); [|lia].
  eexists. split; [reflexivity|].
  unfold plan_at. simpl. rewrite lookup_insert_eq. reflexivity.
Qed.

End Maturity.

(** C1 (the code departs from the claim).  The spec's own scenario: a 30-day
    plan of 10 per day, thirty deductions at 24h spacing, the maturity check
    on day 30.  The plan then is inactive and completed and holds 300, the
    block time is its end date, and [withdraw(1, 0)] by its owner reverts
    with PlanNotActive instead of paying the 300. *)
Theorem C1_mature_withdraw_reverts :
  exists w : World MockYieldProtocol,
    from_genesis matured_plan = Ok w
    /\ isActive (plan_at (store w) 1) = false
    /\ isCompleted (plan_at (store w) 1) = true
    /\ successfulDeductions (plan_at (store w) 1) = 30
    /\ accumulatedBalance (plan_at (store w) 1)
       + yieldEarned (plan_at (store w) 1) = 300
    /\ owner (plan_at (store w) 1) = ALICE
    /\ endDate (plan_at (store w) 1) = timestamp w
    /\ balanceOf (usdc w) SAVINGS = 300
    /\ withdraw ALICE 1 0 w = Revert PlanNotActive.
Proof.
  eexists. split; [vm_compute; reflexivity|].
  repeat split; vm_compute; reflexivity.
Qed.

(** ** Scenarios reach reachable worlds *)

Section Reach.
Context {Y : Type} `{!IYieldProtocol Y} `{!Keccak256}.
Implicit Types (w : World Y).

Lemma act_step a w w' : act a w = Ok w' -> step w w'.
Proof.
  destruct a as [sender c|dt|to v|holder spender v]; simpl; intros Hact.
  - eapply step_call; eassumption.
  - injection Hact as <-. apply step_env. unfold environment; simpl.
    repeat split; lia.
  - bind_inv Hact. injection Hact as <-. apply step_env.
    unfold environment; simpl. repeat split; lia.
  - bind_inv Hact. injection Hact as <-. apply step_env.
    unfold environment; simpl. repeat split; lia.
Qed.

Lemma run_reachable l : forall w w',
  reachable w -> run l w = Ok w' -> reachable w'.
Proof.
  induction l as [|a l IH]; simpl; intros w w' Hr Hrun.
  - injection Hrun as <-. exact Hr.
  - bind_inv Hrun. eapply IH; [|exact Hrun].
    eapply reach_step; [exact Hr|]. eapply act_step; eassumption.
Qed.

Lemma deploy_deployed self now tok y sender token p mn mx fee share w :
  deploy self now tok y sender token p mn mx fee share = Ok w -> deployed w.
Proof.
  unfold deploy. intros Hd. bind_inv Hd. injection Hd as <-.
  exists sender, token, p, mn, mx, fee, share. simpl. split; [assumption|reflexivity].
Qed.

End Reach.

Lemma from_genesis_reachable l w : from_genesis l = Ok w -> reachable w.
Proof.
  unfold from_genesis. intros Hg. bind_inv Hg.
  eapply run_reachable; [|exact Hg].
  apply reach_deployed. eapply deploy_deployed. exact E.
Qed.

(** ** C2: what the pause gates *)

Section Pause.
Context {Y : Type} `{!IYieldProtocol Y} `{!Keccak256}.
Implicit Types (w : World Y) (sender : address).

Lemma scheduleEmergencyWithdrawal_needs_pause sender usr id amt reason w :
  paused (store w) = false ->
  reverts (scheduleEmergencyWithdrawal sender usr id amt reason w).
Proof.
  intros Hp. unfold scheduleEmergencyWithdrawal, onlyRole, whenPaused.
  destruct (hasRole (store w) EMERGENCY_ROLE sender); simpl.
  - rewrite Hp. simpl. eexists; reflexivity.
  - eexists; reflexivity.
Qed.

Lemma executeEmergencyWithdrawal_needs_pause sender wid w :
  paused (store w) = false ->
  reverts (executeEmergencyWithdrawal sender wid w).
Proof.
  intros Hp. unfold executeEmergencyWithdrawal, onlyRole, whenPaused.
  destruct (hasRole (store w) EMERGENCY_ROLE sender); simpl.
  - rewrite Hp. simpl. eexists; reflexivity.
  - eexists; reflexivity.
Qed.

Lemma executeDeduction_blocked_by_pause id w :
  paused (store w) = true -> reverts (executeDeduction id w).
Proof.
  intros Hp. unfold executeDeduction, whenNotPaused.
  destruct (validPlanId (store w) id) as [[]|e]; simpl.
  - rewrite Hp. simpl. eexists; reflexivity.
  - eexists; reflexivity.
Qed.

Lemma createPlan_blocked_by_pause sender daily d w :
  paused (store w) = true ->
  createPlan sender daily d w = Revert EnforcedPause.
Proof. intros Hp. unfold createPlan, whenNotPaused. rewrite Hp. reflexivity. Qed.

Lemma executeDeductionsBatch_blocked_by_pause ids w :
  paused (store w) = true ->
  executeDeductionsBatch ids w = Revert EnforcedPause.
Proof.
  intros Hp. unfold executeDeductionsBatch, whenNotPaused. rewrite Hp.
  reflexivity.
Qed.

(** [cancelEmergencyWithdrawal] and [withdraw] carry no pause modifier: they
    run the same way whatever the pause flag is. *)

Lemma cancelEmergencyWithdrawal_ignores_pause b sender wid w :
  cancelEmergencyWithdrawal sender wid (on_store (set_paused b) w)
  = res_map (on_store (set_paused b)) (cancelEmergencyWithdrawal sender wid w).
Proof.
  unfold cancelEmergencyWithdrawal, onlyRole, require, hasRole, withdrawal_at.
  res_cases.
Qed.

Lemma _withdrawFromYield_ignores_pause b amt w :
  _withdrawFromYield amt (on_store (set_paused b) w)
  = res_map (on_store (set_paused b)) (_withdrawFromYield amt w).
Proof. unfold _withdrawFromYield, call, extcall. res_cases. Qed.

Lemma pullFromYieldIfNeeded_ignores_pause b amt w :
  pullFromYieldIfNeeded amt (on_store (set_paused b) w)
  = res_map (on_store (set_paused b)) (pullFromYieldIfNeeded amt w).
Proof.
  unfold pullFromYieldIfNeeded. cbn.
  destruct (_ && _); cbn; [|reflexivity].
  destruct (sub _ _); cbn; [|reflexivity].
  apply _withdrawFromYield_ignores_pause.
Qed.

Ltac pull_past_pause :=
  match goal with
  | |- mbind _ (pullFromYieldIfNeeded ?a
                  (on_store ?f (on_store (set_paused ?b) ?w0))) = _ =>
      change (on_store f (on_store (set_paused b) w0))
        with (on_store (set_paused b) (on_store f w0));
      rewrite pullFromYieldIfNeeded_ignores_pause
  end.

Lemma withdraw_ignores_pause b sender id amt w :
  withdraw sender id amt (on_store (set_paused b) w)
  = res_map (fun r => (fst r, on_store (set_paused b) (snd r)))
      (withdraw sender id amt w).
Proof.
  unfold withdraw, validPlanId, onlyPlanOwner, require, plan_at. cbn.
  set (plan := default zeroPlan (plans (store w) !! id)).
  res_cases_with ltac:(idtac; pull_past_pause).
Qed.

(** C2 (amended).  scheduleEmergencyWithdrawal and executeEmergencyWithdrawal
    revert whenever the contract is not paused, and executeDeduction reverts
    whenever it is paused.  cancelEmergencyWithdrawal and withdraw have no
    pause gate: each returns the same result, and leaves the same world up
    to the flag itself, whether the contract is paused or not. *)
Theorem C2_pause_gates sender w :
  (paused (store w) = false ->
     (forall usr id amt reason,
        reverts (scheduleEmergencyWithdrawal sender usr id amt reason w))
     /\ (forall wid, reverts (executeEmergencyWithdrawal sender wid w)))
  /\ (paused (store w) = true -> forall id, reverts (executeDeduction id w))
  /\ (forall b wid,
        cancelEmergencyWithdrawal sender wid (on_store (set_paused b) w)
        = res_map (on_store (set_paused b))
            (cancelEmergencyWithdrawal sender wid w))
  /\ (forall b id amt,
        withdraw sender id amt (on_store (set_paused b) w)
        = res_map (fun r => (fst r, on_store (set_paused b) (snd r)))
            (withdraw sender id amt w)).
Proof.
  split; [|split; [|split]].
  - intros Hp. split.
    + intros. apply scheduleEmergencyWithdrawal_needs_pause, Hp.
    + intros. apply executeEmergencyWithdrawal_needs_pause, Hp.
  - intros Hp id. apply executeDeduction_blocked_by_pause, Hp.
  - intros. apply cancelEmergencyWithdrawal_ignores_pause.
  - intros. apply withdraw_ignores_pause.
Qed.

End Pause.

Lemma world_after_reachable l :
  is_Some (res_to_option (from_genesis l)) -> reachable (world_after l).
Proof.
  unfold world_after. destruct (from_genesis l) as [w|e] eqn:Hg.
  - intros _. eapply from_genesis_reachable, Hg.
  - intros [x Hx]. discriminate.
Qed.

Lemma C2_pause_gates_witness :
  (paused (store (world_after unpaused_with_request)) = false
   /\ reverts (executeEmergencyWithdrawal DEPLOYER (request_id T0)
                 (world_after unpaused_with_request)))
  /\ (paused (store (world_after paused_with_balance)) = true
      /\ reverts (executeDeduction 1 (world_after paused_with_balance))).
Proof.
  split; (split; [vm_compute; reflexivity|]).
  - refine (proj2 (proj1 (C2_pause_gates DEPLOYER
                            (world_after unpaused_with_request)) _)
              (request_id T0)).
    vm_compute; reflexivity.
  - refine (proj1 (proj2 (C2_pause_gates DEPLOYER
                            (world_after paused_with_balance))) _ 1).
    vm_compute; reflexivity.
Defined.

(** While the contract is paused, Alice withdraws her early 10 (minus the
    penalty of 1). *)
Lemma withdraw_succeeds_while_paused :
  paused (store (world_after paused_with_balance)) = true
  /\ res_map fst (withdraw ALICE 1 0 (world_after paused_with_balance)) = Ok 9.
Proof. split; vm_compute; reflexivity. Qed.

(** While the contract is not paused, a pending request is cancelled. *)
Lemma cancel_succeeds_while_unpaused :
  paused (store (world_after unpaused_with_request)) = false
  /\ is_Some (res_to_option
                (cancelEmergencyWithdrawal DEPLOYER (request_id T0)
                   (world_after unpaused_with_request))).
Proof. split; [vm_compute; reflexivity|]. vm_compute. eexists; reflexivity. Qed.

(** C2 (as stated) fails: in a reachable paused world [withdraw] succeeds,
    and in a reachable unpaused world [cancelEmergencyWithdrawal] does. *)
Lemma C2_counterexample : ~ pause_gates_every_path.
Proof.
  intros Hclaim.
  destruct withdraw_succeeds_while_paused as [Hp Hw].
  assert (Hr : reachable (world_after paused_with_balance)).
  { apply world_after_reachable. vm_compute. eexists; reflexivity. }
  destruct (Hclaim _ Hr) as [_ Hpaused].
  destruct (Hpaused Hp ALICE 1 0) as [_ [e He]].
  rewrite He in Hw. discriminate Hw.
Qed.

(** ** The token ledger *)

Lemma erc20_transfer_balances from to v t t' :
  erc20_transfer from to v t = Ok t' ->
  v <= balanceOf t from
  /\ allowances t' = allowances t
  /\ (forall a, a <> from -> a <> to -> balanceOf t' a = balanceOf t a)
  /\ (to <> from -> balanceOf t' to = balanceOf t to + v
                    /\ balanceOf t' from = balanceOf t from - v)
  /\ (to = from -> balanceOf t' to = balanceOf t to).
Proof.
  unfold erc20_transfer. intros H0. run_inv H0. injection H0 as <-.
  apply N.ltb_ge in Heqb1. unfold balanceOf in *. cbn.
  split; [assumption|]. split; [reflexivity|]. split; [|split].
  - intros a Ha1 Ha2. rewrite !lookup_insert_ne by congruence. reflexivity.
  - intros Hne. rewrite lookup_insert_eq. cbn.
    rewrite (lookup_insert_ne _ from to) by congruence.
    rewrite (lookup_insert_ne _ to from) by congruence.
    rewrite lookup_insert_eq. cbn. split; reflexivity.
  - intros ->. rewrite !lookup_insert_eq. cbn. lia.
Qed.

(** ** What pulling liquidity from the yield protocol may touch *)

Section YieldFrame.
Context {Y : Type} `{!IYieldProtocol Y} `{!Keccak256}.
Implicit Types (w : World Y) (sender : address).

Lemma set_totalYieldShares_id s : set_totalYieldShares (totalYieldShares s) s = s.
Proof. destruct s; reflexivity. Qed.

Lemma _withdrawFromYield_frame amt w w' :
  _withdrawFromYield amt w = Ok w' ->
  this w' = this w /\ timestamp w' = timestamp w
  /\ exists tys, store w' = set_totalYieldShares tys (store w).
Proof.
  unfold _withdrawFromYield, call, extcall. intros H0.
  run_inv H0; injection H0 as <-; cbn; repeat split;
    try (eexists; reflexivity);
    exists (totalYieldShares (store w)); rewrite set_totalYieldShares_id;
    reflexivity.
Qed.

Lemma _depositToYield_frame amt w w' :
  _depositToYield amt w = Ok w' ->
  this w' = this w /\ timestamp w' = timestamp w
  /\ exists tys, store w' = set_totalYieldShares tys (store w).
Proof.
  unfold _depositToYield, extcall. intros H0.
  run_inv H0; injection H0 as <-; cbn; repeat split;
    try (eexists; reflexivity);
    exists (totalYieldShares (store w)); rewrite set_totalYieldShares_id;
    reflexivity.
Qed.

Lemma pullFromYieldIfNeeded_frame amt w w' :
  pullFromYieldIfNeeded amt w = Ok w' ->
  this w' = this w /\ timestamp w' = timestamp w
  /\ exists tys, store w' = set_totalYieldShares tys (store w).
Proof.
  unfold pullFromYieldIfNeeded. intros H0.
  destruct (_ && _).
  - bind_inv H0. eapply _withdrawFromYield_frame, H0.
  - injection H0 as <-. repeat split.
    exists (totalYieldShares (store w)). rewrite set_totalYieldShares_id.
    reflexivity.
Qed.

Lemma pullFromYieldIfNeeded_skipped amt w :
  yieldProtocol (store w) = 0 \/ amt <= balanceOf (usdc w) (this w) ->
  pullFromYieldIfNeeded amt w = Ok w.
Proof.
  unfold pullFromYieldIfNeeded. intros [Hz|Hle].
  - rewrite Hz. cbn. rewrite andb_false_r. reflexivity.
  - destruct (N.ltb_spec (balanceOf (usdc w) (this w)) amt); [lia|]. reflexivity.
Qed.

End YieldFrame.

(** Replace the worlds that yield-protocol traffic returned by what they
    are: the world before, with another totalYieldShares. *)
Ltac yield_frames :=
  repeat match goal with
         | Hy : _depositToYield _ _ = Ok ?w2 |- _ =>
             apply _depositToYield_frame in Hy as (? & ? & ? & Hy)
         | Hy : _withdrawFromYield _ _ = Ok ?w2 |- _ =>
             apply _withdrawFromYield_frame in Hy as (? & ? & ? & Hy)
         | Hy : pullFromYieldIfNeeded _ _ = Ok ?w2 |- _ =>
             apply pullFromYieldIfNeeded_frame in Hy as (? & ? & ? & Hy)
         end;
  cbn in *;
  repeat match goal with
         | Hst : store ?w2 = _ |- context [store ?w2] => rewrite Hst; cbn
         end.

(** ** C3: the emergency payout *)

Section Emergency.
Context {Y : Type} `{!IYieldProtocol Y} `{!Keccak256}.
Implicit Types (w : World Y) (sender : address).


Lemma scheduleEmergencyWithdrawal_records sender usr id amt reason w wid w' :
  scheduleEmergencyWithdrawal sender usr id amt reason w = Ok (wid, w') ->
  usr = owner (plan_at (store w) id)
  /\ wid = keccak256_packed sender usr id amt (timestamp w) reason
  /\ withdrawal_at (store w') wid
     = {| admin := sender; user := usr; planId := id; amount := amt;
          scheduledTime := timestamp w;
          executionTime := timestamp w + emergencyWithdrawalDelay (store w);
          reasonHash := reason; executed := false; cancelled := false |}.
Proof.
  unfold scheduleEmergencyWithdrawal. intros Hs. binds Hs.
  injection Hs as <- <-.
  apply require_Ok, N.eqb_eq in E2. apply add_Ok in E3 as [-> _].
  split; [congruence|]. split; [reflexivity|].
  unfold withdrawal_at. cbn. rewrite lookup_insert_eq. reflexivity.
Qed.



End Emergency.


(** ** C4: the life of an emergency request *)

Section Timelock.
Context {Y : Type} `{!IYieldProtocol Y} `{!Keccak256}.
Implicit Types (w : World Y) (sender : address).

(** Before its execution time a request cannot be executed; when every
    earlier check passes, the revert is EmergencyWithdrawalNotReady. *)
Lemma executeEmergencyWithdrawal_not_ready sender wid w :
  timestamp w < executionTime (withdrawal_at (store w) wid) ->
  reverts (executeEmergencyWithdrawal sender wid w)
  /\ (hasRole (store w) EMERGENCY_ROLE sender = true ->
      paused (store w) = true ->
      admin (withdrawal_at (store w) wid) <> 0 ->
      executed (withdrawal_at (store w) wid) = false ->
      cancelled (withdrawal_at (store w) wid) = false ->
      executeEmergencyWithdrawal sender wid w
      = Revert EmergencyWithdrawalNotReady).
Proof.
  intros Hlt. apply N.ltb_lt in Hlt.
  unfold executeEmergencyWithdrawal, onlyRole, whenPaused, require.
  split.
  - repeat (cbn; match goal with
                 | |- reverts (Revert _) => eexists; reflexivity
                 | |- reverts (mbind _ (if ?c then _ else _)) => destruct c eqn:?
                 end).
    rewrite Hlt in *. discriminate.
  - intros -> -> Hadm -> ->. apply N.eqb_neq in Hadm. rewrite Hadm, Hlt.
    reflexivity.
Qed.

(** The guard of [executeEmergencyWithdrawal] honours both flags. *)
Lemma executeEmergencyWithdrawal_flags sender wid w :
  executed (withdrawal_at (store w) wid) = true
  \/ cancelled (withdrawal_at (store w) wid) = true ->
  reverts (executeEmergencyWithdrawal sender wid w).
Proof.
  intros Hflag.
  unfold executeEmergencyWithdrawal, onlyRole, whenPaused, require.
  repeat (cbn; match goal with
               | |- reverts (Revert _) => eexists; reflexivity
               | |- reverts (mbind _ (if ?c then _ else _)) => destruct c eqn:?
               end).
  destruct Hflag as [Hf|Hf]; rewrite Hf in *; discriminate.
Qed.

(** [scheduleEmergencyWithdrawal] writes a fresh record under the id it
    computes, whatever that slot held before. *)
Lemma scheduleEmergencyWithdrawal_overwrites sender usr id amt reason w wid w' :
  scheduleEmergencyWithdrawal sender usr id amt reason w = Ok (wid, w') ->
  executed (withdrawal_at (store w') wid) = false
  /\ cancelled (withdrawal_at (store w') wid) = false.
Proof.
  intros Hs. apply scheduleEmergencyWithdrawal_records in Hs as (_ & _ & ->).
  split; reflexivity.
Qed.

End Timelock.

(** C4 (the code departs from the claim).  Scheduling the same request again
    in the same block yields the same id and overwrites the stored record,
    flags included.  So a request that was cancelled is executed after all
    (paying Alice her 10), and with a zero timelock one id is executed
    twice (paying 4 each time for a single request of 4). *)
Theorem C4_rescheduling_resets_request :
  (cancelled (withdrawal_at (store (world_after request_cancelled))
                (request_id T0)) = true
   /\ timestamp (world_after request_cancelled) = T0
   /\ res_map fst (scheduleEmergencyWithdrawal DEPLOYER ALICE 1 0 77
                     (world_after request_cancelled))
      = Ok (request_id T0)
   /\ cancelled (withdrawal_at (store (world_after request_rescheduled))
                   (request_id T0)) = false
   /\ res_map (fun w => balanceOf (usdc w) ALICE)
        (executeEmergencyWithdrawal DEPLOYER (request_id T0)
           (world_after request_rescheduled))
      = Ok (balanceOf (usdc (world_after request_rescheduled)) ALICE + 10))
  /\ (head (events (world_after (removelast executed_and_rescheduled)))
      = Some (EmergencyWithdrawalExecuted partial_request_id DEPLOYER ALICE 1
                4 77 T0)
     /\ res_map (fun w => head (events w))
          (executeEmergencyWithdrawal DEPLOYER partial_request_id
             (world_after executed_and_rescheduled))
        = Ok (Some (EmergencyWithdrawalExecuted partial_request_id DEPLOYER
                      ALICE 1 4 77 T0))).
Proof. repeat split; vm_compute; reflexivity. Qed.

(** ** C5: what a withdrawal pays *)

Section Payout.
Context {Y : Type} `{!IYieldProtocol Y} `{!Keccak256}.
Implicit Types (w : World Y) (sender : address).

Lemma withdraw_effects sender id amt w paidAmt w' :
  withdraw sender id amt w = Ok (paidAmt, w') ->
  let plan := plan_at (store w) id in
  let available := accumulatedBalance plan + yieldEarned plan in
  let requested := if amt =? 0 then available else amt in
  let isEarly := timestamp w <? endDate plan in
  let penalty := if isEarly
                 then requested * earlyWithdrawalPenalty (store w) / 10000
                 else 0 in
  paidAmt = requested - penalty
  /\ requested <= available
  /\ penalty <= requested
  /\ exists tok1,
       erc20_transfer (this w) (owner plan) paidAmt tok1 = Ok (usdc w')
       /\ (yieldProtocol (store w) = 0
           \/ paidAmt <= balanceOf (usdc w) (this w) -> tok1 = usdc w)
       /\ (forall a, a <> this w -> a <> owner plan ->
             balanceOf (usdc w') a = balanceOf tok1 a)
       /\ (owner plan <> this w ->
             balanceOf (usdc w') (owner plan)
             = balanceOf tok1 (owner plan) + paidAmt)
       /\ head (events w')
          = Some (WithdrawalExecuted id (owner plan) paidAmt penalty isEarly
                    (timestamp w))
       /\ exists w2,
            pullFromYieldIfNeeded paidAmt
              (on_store (write_plan id (plan_at (store w') id)) w) = Ok w2
            /\ tok1 = usdc w2.
Proof.
  intros Hw. cbn zeta. unfold withdraw in Hw.
  set (plan := plan_at (store w) id) in *.
  unbind Hw as u1 Hid. unbind Hw as u2 Hown. unbind Hw as u3 Hact.
  unbind Hw as avail Hav. unbind Hw as u4 Hreq. unbind Hw as pw Hpw.
  unbind Hw as py Hpy. unbind Hw as acc Hacc. unbind Hw as ye Hye.
  unbind Hw as w2 Hpull. unbind Hw as tok Htok.
  injection Hw as <- <-.
  apply add_Ok in Hav as [-> Hav].
  set (available := accumulatedBalance plan + yieldEarned plan) in *.
  set (requested := if amt =? 0 then available else amt) in *.
  apply require_Ok, negb_true_iff, N.ltb_ge in Hreq.
  assert (Hpen : pw = ((if timestamp w <? endDate plan
                        then requested * earlyWithdrawalPenalty (store w) / 10000
                        else 0),
                       requested
                       - (if timestamp w <? endDate plan
                          then requested * earlyWithdrawalPenalty (store w) / 10000
                          else 0))
                 /\ (if timestamp w <? endDate plan
                     then requested * earlyWithdrawalPenalty (store w) / 10000
                     else 0) <= requested).
  { destruct (timestamp w <? endDate plan).
    - binds Hpw. injection Hpw as <-. arith_facts.
      split; [reflexivity|assumption].
    - injection Hpw as <-. rewrite N.sub_0_r. split; [reflexivity|apply N.le_0_l]. }
  destruct Hpen as [-> Hpen]. cbn [fst snd] in *.
  split; [reflexivity|]. split; [assumption|]. split; [assumption|].
  destruct (pullFromYieldIfNeeded_frame _ _ _ Hpull)
    as (Hthis & _ & tys & Hst).
  cbn in Hthis, Hst. rewrite Hthis in Htok.
  destruct (erc20_transfer_balances _ _ _ _ _ Htok) as (_ & _ & Hoth & Hto & _).
  exists (usdc w2). split; [assumption|]. split.
  - intros Hskip.
    rewrite pullFromYieldIfNeeded_skipped in Hpull by exact Hskip.
    injection Hpull as <-. reflexivity.
  - split; [exact Hoth|]. split; [intros Hne; apply Hto, Hne|].
    split; [reflexivity|].
    exists w2. split; [|reflexivity].
    cbn. rewrite Hst. unfold plan_at at 1. cbn. rewrite lookup_insert_eq.
    cbn. exact Hpull.
Qed.

(** C5 (amended).  A successful withdraw pays the requested amount (the full
    available balance when amount = 0) minus the penalty; before endDate the
    penalty is requested * penaltyBps / 10000 rounded down, so the payout is
    requested - requested * penaltyBps / 10000; at or after endDate the
    penalty is zero and the payout is the requested amount.  The payout is
    what the call returns, what the WithdrawalExecuted event reports and
    what one token transfer moves from the contract to the plan owner; that
    transfer starts from the token ledger which pulling the payout from the
    yield protocol, after the plan has been written back, leaves behind. *)
Theorem C5_withdraw_payout sender id amt w paidAmt w' :
  withdraw sender id amt w = Ok (paidAmt, w') ->
  let plan := plan_at (store w) id in
  let available := accumulatedBalance plan + yieldEarned plan in
  let requested := if amt =? 0 then available else amt in
  let isEarly := timestamp w <? endDate plan in
  let penalty := if isEarly
                 then requested * earlyWithdrawalPenalty (store w) / 10000
                 else 0 in
  (timestamp w < endDate plan ->
     paidAmt = requested - requested * earlyWithdrawalPenalty (store w) / 10000)
  /\ (endDate plan <= timestamp w -> paidAmt = requested /\ penalty = 0)
  /\ requested <= available
  /\ exists tok1,
       erc20_transfer (this w) (owner plan) paidAmt tok1 = Ok (usdc w')
       /\ (yieldProtocol (store w) = 0
           \/ paidAmt <= balanceOf (usdc w) (this w) -> tok1 = usdc w)
       /\ (forall a, a <> this w -> a <> owner plan ->
             balanceOf (usdc w') a = balanceOf tok1 a)
       /\ (owner plan <> this w ->
             balanceOf (usdc w') (owner plan)
             = balanceOf tok1 (owner plan) + paidAmt)
       /\ head (events w')
          = Some (WithdrawalExecuted id (owner plan) paidAmt penalty isEarly
                    (timestamp w))
       /\ exists w2,
            pullFromYieldIfNeeded paidAmt
              (on_store (write_plan id (plan_at (store w') id)) w) = Ok w2
            /\ tok1 = usdc w2.
Proof.
  intros Hw. cbn zeta.
  destruct (withdraw_effects _ _ _ _ _ _ Hw) as (Hpaid & Hreq & _ & Htok).
  cbn zeta in *.
  split; [|split; [|split; [exact Hreq | exact Htok]]].
  - intros Hearly. apply N.ltb_lt in Hearly. rewrite Hearly in Hpaid.
    exact Hpaid.
  - intros Hmature. apply N.ltb_ge in Hmature. rewrite Hmature in *.
    rewrite N.sub_0_r in Hpaid. split; [exact Hpaid | reflexivity].
Qed.

End Payout.

Lemma C5_withdraw_payout_witness :
  withdraw ALICE 1 5 (world_after one_deduction)
  = Ok (5, world_after (one_deduction ++ [ Tx ALICE (Withdraw 1 5) ]))
  /\ timestamp (world_after one_deduction)
     < endDate (plan_at (store (world_after one_deduction)) 1)
  /\ 5 = 5 - 5 * 1000 / 10000.
Proof.
  assert (Hw : withdraw ALICE 1 5 (world_after one_deduction)
               = Ok (5, world_after (one_deduction ++ [ Tx ALICE (Withdraw 1 5) ])))
    by (vm_compute; reflexivity).
  assert (He : timestamp (world_after one_deduction)
               < endDate (plan_at (store (world_after one_deduction)) 1))
    by (vm_compute; reflexivity).
  split; [exact Hw|]. split; [exact He|].
  pose proof (proj1 (C5_withdraw_payout _ _ _ _ _ _ Hw) He) as Hpaid.
  vm_compute in Hpaid. vm_compute. exact Hpaid.
Defined.

(** C5 (as stated) fails: an early withdrawal of 5 under a 10% penalty pays
    5, since the penalty 5 * 1000 / 10000 rounds down to 0, while
    5 * (10000 - 1000) / 10000 is 4. *)
Lemma C5_counterexample :
  timestamp (world_after one_deduction)
  < endDate (plan_at (store (world_after one_deduction)) 1)
  /\ earlyWithdrawalPenalty (store (world_after one_deduction)) = 1000
  /\ res_map fst (withdraw ALICE 1 5 (world_after one_deduction)) = Ok 5
  /\ early_payout_by_formula 5 1000 = 4.
Proof. repeat split; vm_compute; reflexivity. Qed.

(** ** An invariant of the plans of reachable worlds *)

Section Invariant.
Context {Y : Type} `{!IYieldProtocol Y} `{!Keccak256}.
Implicit Types (w : World Y) (sender : address).

Lemma plan_at_write id p s id' :
  plan_at (write_plan id p s) id' = if decide (id = id') then p else plan_at s id'.
Proof.
  unfold plan_at, write_plan. cbn. rewrite lookup_insert.
  destruct (decide (id = id')); reflexivity.
Qed.

Ltac keep_plans H Hinv :=
  crunch H; injection H as <-; unfold plans_inv; cbn; arith_facts;
  yield_frames;
  try exact Hinv;
  let id' := fresh "id'" in
  intros id'; unfold plan_at in *; cbn;
  rewrite ?lookup_insert; repeat case_decide; subst; cbn;
  repeat match goal with
         | |- context [if ?c then _ else _] => destruct c; cbn
         end;
  try apply Hinv;
  unfold plan_inv; cbn; intros; try lia;
  try (apply Hinv; assumption).

Lemma executeDeduction_plans id w w' :
  plans_inv (store w) ->
  executeDeduction id w = Ok w' -> plans_inv (store w').
Proof. unfold executeDeduction. intros Hinv H0. keep_plans H0 Hinv. Qed.

Lemma batchItem_plans id w w' :
  plans_inv (store w) ->
  batchItem id w = Ok w' -> plans_inv (store w').
Proof. unfold batchItem. intros Hinv H0. keep_plans H0 Hinv. Qed.

Lemma batchLoop_plans ids : forall w w',
  plans_inv (store w) -> batchLoop ids w = Ok w' -> plans_inv (store w').
Proof.
  induction ids as [|id ids IH]; cbn; intros w w' Hinv H0.
  - injection H0 as <-. exact Hinv.
  - unbind H0 as w1 Hitem. eapply IH; [|exact H0].
    eapply batchItem_plans; eassumption.
Qed.

Lemma exec_plans sender c w w' :
  plans_inv (store w) -> exec sender c w = Ok w' -> plans_inv (store w').
Proof.
  intros Hinv H0. destruct c; cbn in H0.
  - unfold createPlan in H0. keep_plans H0 Hinv.
  - eapply executeDeduction_plans; eassumption.
  - unfold executeDeductionsBatch in H0.
    unbind H0 as u Hp. unbind H0 as w1 Hloop.
    apply (batchLoop_plans _ _ _ Hinv) in Hloop.
    keep_plans H0 Hloop.
  - unfold withdraw in H0. keep_plans H0 Hinv.
  - unfold claimYield, _calculateAndDistributeYield in H0. keep_plans H0 Hinv.
  - unfold setYieldProtocol in H0. keep_plans H0 Hinv.
  - unfold setEarlyWithdrawalPenalty in H0. keep_plans H0 Hinv.
  - unfold setDailyDeductionLimits in H0. keep_plans H0 Hinv.
  - unfold setYieldDistribution in H0. keep_plans H0 Hinv.
  - unfold setMinYieldDepositThreshold in H0. keep_plans H0 Hinv.
  - unfold harvestYield in H0. keep_plans H0 Hinv.
  - unfold emergencyExitYield in H0. keep_plans H0 Hinv.
  - unfold scheduleEmergencyWithdrawal in H0. keep_plans H0 Hinv.
  - unfold executeEmergencyWithdrawal in H0. keep_plans H0 Hinv.
  - unfold cancelEmergencyWithdrawal in H0. keep_plans H0 Hinv.
  - unfold withdrawProtocolFees in H0. keep_plans H0 Hinv.
  - unfold pause in H0. keep_plans H0 Hinv.
  - unfold unpause in H0. keep_plans H0 Hinv.
  - unfold setEmergencyWithdrawalDelay in H0. keep_plans H0 Hinv.
  - unfold grantRole in H0. keep_plans H0 Hinv.
  - unfold revokeRole in H0. keep_plans H0 Hinv.
  - unfold renounceRole in H0. keep_plans H0 Hinv.
  - unfold transferOwnership in H0. keep_plans H0 Hinv.
  - unfold acceptOwnership in H0. keep_plans H0 Hinv.
  - unfold renounceOwnership in H0. keep_plans H0 Hinv.
Qed.

Lemma reachable_plans_inv w : reachable w -> plans_inv (store w).
Proof.
  induction 1 as [w (sender & token & p & mn & mx & fee & share & Hc & _)
                 | w w' _ IH Hstep].
  - unfold constructor in Hc. crunch Hc. injection Hc as <-.
    intros id. unfold plan_at. cbn. rewrite lookup_empty. cbn.
    unfold plan_inv. cbn. lia.
  - destruct Hstep as [sender c w0 w0' Hexec | w0 w0' (_ & Hst & _)].
    + eapply exec_plans; eassumption.
    + rewrite Hst. exact IH.
Qed.

End Invariant.

(** ** C6: the rejections of executeDeduction *)

Section Schedule.
Context {Y : Type} `{!IYieldProtocol Y} `{!Keccak256}.
Implicit Types (w : World Y) (sender : address).

Lemma expectedDeductionDate_Ok plan expected :
  expectedDeductionDate plan = Ok expected
  <-> expected = startDate plan + successfulDeductions plan * days1
      /\ successfulDeductions plan * days1 <= MAX_UINT256
      /\ startDate plan + successfulDeductions plan * days1 <= MAX_UINT256.
Proof.
  unfold expectedDeductionDate. split.
  - intros H0. binds H0. arith_facts. auto.
  - intros (-> & H1 & H2). unfold mul, add.
    destruct (N.leb_spec (successfulDeductions plan * days1) MAX_UINT256);
      [|lia]. cbn.
    destruct (N.leb_spec (startDate plan + successfulDeductions plan * days1)
                MAX_UINT256); [|lia].
    reflexivity.
Qed.

Lemma executeDeduction_duplicate_only id w :
  executeDeduction id w = Revert DeductionAlreadyExecuted ->
  let plan := plan_at (store w) id in
  0 < lastDeductionDate plan
  /\ exists expected,
       expectedDeductionDate plan = Ok expected
       /\ (timestamp w <= lastDeductionDate plan + hours1
           \/ hours1 <= expected
              /\ expected - hours1 <= lastDeductionDate plan).
Proof.
  intros H0. cbn zeta.
  unfold executeDeduction, validPlanId, whenNotPaused, require,
    expectedDeductionDate, _depositToYield, erc20_transferFrom,
    erc20_transfer, erc20_approve, call, extcall, add, sub, mul in H0.
  set (plan := plan_at (store w) id) in *.
  crunch H0; bool_facts; (split; [assumption|]);
    exists (startDate plan + successfulDeductions plan * days1);
    (split; [apply expectedDeductionDate_Ok; auto|]); auto.
Qed.

(** C6.  In a reachable world, for an active plan before its end date with
    lastDeductionDate > 0, where the schedule arithmetic does not overflow
    (the expected date startDate + successfulDeductions * 1 day and
    lastDeductionDate + 1 hour fit in a uint256): executeDeduction reverts
    with DeductionAlreadyExecuted exactly when the last deduction ran within
    the last hour or on/after expected - 1 hour; called more than one hour
    before the expected date it reverts, with InvalidParameter unless it is
    such a duplicate; and a reverted call leaves the world as it was. *)
Theorem C6_deduction_rejections id w expected :
  reachable w ->
  validPlanId (store w) id = Ok tt ->
  paused (store w) = false ->
  let plan := plan_at (store w) id in
  isActive plan = true -> isCompleted plan = false ->
  timestamp w < endDate plan ->
  0 < lastDeductionDate plan ->
  expectedDeductionDate plan = Ok expected ->
  lastDeductionDate plan + hours1 <= MAX_UINT256 ->
  let duplicate := timestamp w <= lastDeductionDate plan + hours1
                   \/ expected - hours1 <= lastDeductionDate plan in
  (executeDeduction id w = Revert DeductionAlreadyExecuted <-> duplicate)
  /\ (timestamp w < expected - hours1 -> reverts (executeDeduction id w))
  /\ (timestamp w < expected - hours1 -> ~ duplicate ->
      executeDeduction id w = Revert InvalidParameter)
  /\ (reverts (executeDeduction id w) -> after (executeDeduction id w) w = w).
Proof.
  intros Hreach Hid Hp plan Hact Hdone Hearly Hlast Hexp Hrecent duplicate.
  assert (Hwin : hours1 <= expected).
  { pose proof (reachable_plans_inv w Hreach id Hlast) as Hsucc.
    fold plan in Hsucc.
    apply expectedDeductionDate_Ok in Hexp as (-> & _ & _).
    unfold hours1, days1. lia. }
  assert (Hrun : executeDeduction id w =
    (if timestamp w <=? lastDeductionDate plan + hours1
     then Revert DeductionAlreadyExecuted
     else if expected - hours1 <=? lastDeductionDate plan
     then Revert DeductionAlreadyExecuted
     else if timestamp w <? expected - hours1 then Revert InvalidParameter
     else executeDeduction id w)).
  { unfold executeDeduction, whenNotPaused. fold plan.
    rewrite Hid, Hp, Hact, Hdone, Hexp. cbn.
    destruct (N.leb_spec (endDate plan) (timestamp w)); [lia|].
    destruct (N.ltb_spec 0 (lastDeductionDate plan)); [|lia].
    unfold add, sub.
    destruct (N.leb_spec (lastDeductionDate plan + hours1) MAX_UINT256); [|lia].
    destruct (N.leb_spec hours1 expected); [|lia]. cbn.
    destruct (timestamp w <=? lastDeductionDate plan + hours1); [reflexivity|].
    cbn.
    destruct (expected - hours1 <=? lastDeductionDate plan); [reflexivity|].
    cbn.
    destruct (timestamp w <? expected - hours1); reflexivity. }
  split; [|split; [|split]].
  - split.
    + intros Hdup.
      destruct (executeDeduction_duplicate_only _ _ Hdup)
        as (_ & e' & He' & Hcase).
      change (plan_at (store w) id) with plan in He', Hcase.
      rewrite Hexp in He'. injection He' as <-.
      unfold duplicate. tauto.
    + intros [Hd|Hd]; rewrite Hrun.
      * apply N.leb_le in Hd. rewrite Hd. reflexivity.
      * apply N.leb_le in Hd. rewrite Hd.
        destruct (_ <=? _); reflexivity.
  - intros Hpre. apply N.ltb_lt in Hpre. rewrite Hrun, Hpre.
    destruct (_ <=? _); [eexists; reflexivity|].
    destruct (_ <=? _); eexists; reflexivity.
  - intros Hpre Hnd. unfold duplicate in Hnd.
    rewrite Hrun.
    destruct (N.leb_spec (timestamp w) (lastDeductionDate plan + hours1));
      [tauto|].
    destruct (N.leb_spec (expected - hours1) (lastDeductionDate plan));
      [tauto|].
    apply N.ltb_lt in Hpre. rewrite Hpre. reflexivity.
  - intros [e He]. rewrite He. reflexivity.
Qed.

(** C7 (amended).  When executeDeduction is due and finds the owner's token
    balance or allowance below dailyAmount, the call succeeds: it emits
    DeductionMissed and adds one to missedDeductions, and changes nothing
    else: not the other fields of the plan (successfulDeductions and
    accumulatedBalance among them), not the other plans, not the counters,
    not the token ledger.  The plan's next scheduled slot,
    startDate + successfulDeductions * 1 day, is the one just processed: it
    does not advance. *)
Theorem C7_missed_deduction id w expected :
  validPlanId (store w) id = Ok tt ->
  paused (store w) = false ->
  let plan := plan_at (store w) id in
  isActive plan = true -> isCompleted plan = false ->
  timestamp w < endDate plan ->
  expectedDeductionDate plan = Ok expected ->
  hours1 <= expected ->
  (0 < lastDeductionDate plan ->
     lastDeductionDate plan + hours1 <= MAX_UINT256
     /\ lastDeductionDate plan + hours1 < timestamp w
     /\ lastDeductionDate plan < expected - hours1) ->
  expected - hours1 <= timestamp w ->
  balanceOf (usdc w) (owner plan) < dailyAmount plan
  \/ allowance (usdc w) (owner plan) (this w) < dailyAmount plan ->
  missedDeductions plan + 1 <= MAX_UINT256 ->
  let plan' := set_missedDeductions (missedDeductions plan + 1) plan in
  executeDeduction id w
  = Ok (emit (DeductionMissed id (owner plan) (dailyAmount plan) (timestamp w))
          (on_store (write_plan id plan') w))
  /\ successfulDeductions plan' = successfulDeductions plan
  /\ accumulatedBalance plan' = accumulatedBalance plan
  /\ expectedDeductionDate plan' = Ok expected.
Proof.
  intros Hid Hp plan Hact Hdone Hearly Hexp Hwin Hlast Hdue Hfunds Hmiss plan'.
  split; [|split; [reflexivity|split; [reflexivity|exact Hexp]]].
  unfold executeDeduction, whenNotPaused. fold plan.
  rewrite Hid, Hp, Hact, Hdone, Hexp. cbn.
  destruct (N.leb_spec (endDate plan) (timestamp w)); [lia|].
  assert (Hdup : (if 0 <? lastDeductionDate plan
                  then recent ← add (lastDeductionDate plan) hours1;
                       _ ← require (negb (timestamp w <=? recent))
                             DeductionAlreadyExecuted;
                       window ← sub expected hours1;
                       require (negb (window <=? lastDeductionDate plan))
                         DeductionAlreadyExecuted
                  else Ok tt) = Ok tt).
  { destruct (N.ltb_spec 0 (lastDeductionDate plan)) as [Hpos|_];
      [|reflexivity].
    destruct (Hlast Hpos) as (H1 & H2 & H3). unfold add, sub.
    destruct (N.leb_spec (lastDeductionDate plan + hours1) MAX_UINT256); [|lia].
    cbn.
    destruct (N.leb_spec (timestamp w) (lastDeductionDate plan + hours1));
      [lia|]. cbn.
    destruct (N.leb_spec hours1 expected); [|lia]. cbn.
    destruct (N.leb_spec (expected - hours1) (lastDeductionDate plan)); [lia|].
    reflexivity. }
  rewrite Hdup. cbn. unfold sub.
  destruct (N.leb_spec hours1 expected); [|lia]. cbn.
  destruct (N.ltb_spec (timestamp w) (expected - hours1)); [lia|]. cbn.
  assert (Hshort : (balanceOf (usdc w) (owner plan) <? dailyAmount plan)
                   || (allowance (usdc w) (owner plan) (this w)
                       <? dailyAmount plan) = true).
  { apply orb_true_iff.
    destruct Hfunds as [Hf|Hf]; [left|right]; apply N.ltb_lt, Hf. }
  rewrite Hshort. unfold add.
  destruct (N.leb_spec (missedDeductions plan + 1) MAX_UINT256); [|lia].
  reflexivity.
Qed.

End Schedule.

Lemma C6_deduction_rejections_witness :
  executeDeduction 1 (world_after one_deduction)
  = Revert DeductionAlreadyExecuted.
Proof.
  assert (Hr : reachable (world_after one_deduction)).
  { apply world_after_reachable. vm_compute. eexists; reflexivity. }
  refine (proj2 (proj1 (C6_deduction_rejections 1 (world_after one_deduction)
                          (T0 + days1) Hr _ _ _ _ _ _ _ _)) _);
    try (vm_compute; reflexivity).
  - vm_compute. discriminate.
  - left. vm_compute. discriminate.
Defined.

Lemma C7_missed_deduction_witness :
  executeDeduction 1 (world_after no_allowance) = Ok (world_after missed_once).
Proof.
  refine (eq_trans
            (proj1 (C7_missed_deduction 1 (world_after no_allowance) T0
                      _ _ _ _ _ _ _ _ _ _ _)) _);
    try (vm_compute; reflexivity).
  - vm_compute. discriminate.
  - vm_compute. discriminate.
  - vm_compute. discriminate.
  - right. vm_compute. reflexivity.
  - vm_compute. discriminate.
Defined.

(** C7 (as stated) fails: Alice has not approved the contract, the deduction
    of her plan is recorded as missed, and the plan's next slot stays at the
    start date instead of moving one day on. *)
Lemma C7_counterexample :
  allowance (usdc (world_after no_allowance)) ALICE SAVINGS
  < dailyAmount (plan_at (store (world_after no_allowance)) 1)
  /\ executeDeduction 1 (world_after no_allowance) = Ok (world_after missed_once)
  /\ missedDeductions (plan_at (store (world_after missed_once)) 1) = 1
  /\ expectedDeductionDate (plan_at (store (world_after no_allowance)) 1)
     = Ok T0
  /\ expectedDeductionDate (plan_at (store (world_after missed_once)) 1)
     = Ok T0
  /\ T0 <> T0 + days1.
Proof.
  repeat split; try (vm_compute; reflexivity). vm_compute. discriminate.
Qed.

(** ** C8: the global counters *)

Section Counters.
Context {Y : Type} `{!IYieldProtocol Y} `{!Keccak256}.
Implicit Types (w : World Y) (sender : address).

Ltac grow H :=
  crunch H; injection H as <-; unfold only_grow; cbn; arith_facts;
  yield_frames; hide_quotients; repeat split; lia.

Lemma only_grow_refl s : only_grow s s.
Proof. unfold only_grow. repeat split; lia. Qed.

Lemma only_grow_trans s1 s2 s3 :
  only_grow s1 s2 -> only_grow s2 s3 -> only_grow s1 s3.
Proof. unfold only_grow. intros (?&?&?&?) (?&?&?&?). repeat split; lia. Qed.

Lemma executeDeduction_grows id w w' :
  executeDeduction id w = Ok w' -> only_grow (store w) (store w').
Proof. unfold executeDeduction. intros H0. grow H0. Qed.

Lemma batchItem_grows id w w' :
  batchItem id w = Ok w' -> only_grow (store w) (store w').
Proof. unfold batchItem. intros H0. grow H0. Qed.

Lemma batchLoop_grows ids : forall w w',
  batchLoop ids w = Ok w' -> only_grow (store w) (store w').
Proof.
  induction ids as [|id ids IH]; cbn; intros w w' H0.
  - injection H0 as <-. apply only_grow_refl.
  - unbind H0 as w1 Hitem.
    eapply only_grow_trans; [eapply batchItem_grows, Hitem|].
    apply IH, H0.
Qed.

Lemma executeDeductionsBatch_grows ids w w' :
  executeDeductionsBatch ids w = Ok w' -> only_grow (store w) (store w').
Proof.
  unfold executeDeductionsBatch. intros H0.
  unbind H0 as u Hp. unbind H0 as w1 Hloop.
  apply batchLoop_grows in Hloop.
  eapply only_grow_trans; [exact Hloop|].
  grow H0.
Qed.

(** Every call but withdrawProtocolFees leaves the four counters where they
    are or raises them. *)
Lemma exec_grows sender c w w' :
  exec sender c w = Ok w' ->
  (forall amt to, c <> WithdrawProtocolFees amt to) ->
  only_grow (store w) (store w').
Proof.
  intros H0 Hc. destruct c; cbn in H0.
  - unfold createPlan in H0. grow H0.
  - eapply executeDeduction_grows, H0.
  - eapply executeDeductionsBatch_grows, H0.
  - unfold withdraw in H0. grow H0.
  - unfold claimYield, _calculateAndDistributeYield in H0. grow H0.
  - unfold setYieldProtocol in H0. grow H0.
  - unfold setEarlyWithdrawalPenalty in H0. grow H0.
  - unfold setDailyDeductionLimits in H0. grow H0.
  - unfold setYieldDistribution in H0. grow H0.
  - unfold setMinYieldDepositThreshold in H0. grow H0.
  - unfold harvestYield in H0. grow H0.
  - unfold emergencyExitYield in H0. grow H0.
  - unfold scheduleEmergencyWithdrawal in H0. grow H0.
  - unfold executeEmergencyWithdrawal in H0. grow H0.
  - unfold cancelEmergencyWithdrawal in H0. grow H0.
  - exfalso. eapply Hc. reflexivity.
  - unfold pause in H0. grow H0.
  - unfold unpause in H0. grow H0.
  - unfold setEmergencyWithdrawalDelay in H0. grow H0.
  - unfold grantRole in H0. grow H0.
  - unfold revokeRole in H0. grow H0.
  - unfold renounceRole in H0. grow H0.
  - unfold transferOwnership in H0. grow H0.
  - unfold acceptOwnership in H0. grow H0.
  - unfold renounceOwnership in H0. grow H0.
Qed.

(** withdrawProtocolFees takes its amount off totalProtocolYield. *)
Lemma withdrawProtocolFees_counters sender amt to w w' :
  withdrawProtocolFees sender amt to w = Ok w' ->
  totalPlans (store w') = totalPlans (store w)
  /\ totalPrincipal (store w') = totalPrincipal (store w)
  /\ totalUserYield (store w') = totalUserYield (store w)
  /\ amt <= totalProtocolYield (store w)
  /\ totalProtocolYield (store w') = totalProtocolYield (store w) - amt.
Proof.
  unfold withdrawProtocolFees. intros H0.
  crunch H0. injection H0 as <-. cbn. arith_facts. repeat split; assumption.
Qed.

(** C8 (amended).  No step of the system, whether a call of the contract or
    a move of its environment, ever lowers totalPlans, totalPrincipal or
    totalUserYield; and totalProtocolYield is lowered by withdrawProtocolFees
    only, which takes exactly the withdrawn amount off it. *)
Theorem C8_counters w w' :
  step w w' ->
  totalPlans (store w) <= totalPlans (store w')
  /\ totalPrincipal (store w) <= totalPrincipal (store w')
  /\ totalUserYield (store w) <= totalUserYield (store w')
  /\ (totalProtocolYield (store w) <= totalProtocolYield (store w')
      \/ exists sender amt to,
           exec sender (WithdrawProtocolFees amt to) w = Ok w'
           /\ amt <= totalProtocolYield (store w)
           /\ totalProtocolYield (store w')
              = totalProtocolYield (store w) - amt).
Proof.
  intros [sender c w0 w0' Hexec | w0 w0' (_ & Hst & _)].
  - destruct (match c with WithdrawProtocolFees _ _ => true | _ => false end)
      eqn:Hfee.
    + destruct c; try discriminate Hfee.
      destruct (withdrawProtocolFees_counters _ _ _ _ _ Hexec)
        as (-> & -> & -> & Hle & Htpy).
      repeat split; try lia. right. exists sender, amt, to. auto.
    + assert (Hc : forall amt to, c <> WithdrawProtocolFees amt to).
      { intros amt to ->. discriminate Hfee. }
      destruct (exec_grows _ _ _ _ Hexec Hc) as (? & ? & ? & ?).
      repeat split; try assumption. left; assumption.
  - rewrite Hst. repeat split; try lia.
Qed.

End Counters.

Lemma C8_counters_witness :
  step (world_after (removelast fees_harvested)) (world_after fees_harvested)
  /\ totalUserYield (store (world_after (removelast fees_harvested)))
     <= totalUserYield (store (world_after fees_harvested)).
Proof.
  assert (Hstep : step (world_after (removelast fees_harvested))
                    (world_after fees_harvested)).
  { apply (step_call DEPLOYER HarvestYield). vm_compute. reflexivity. }
  split; [exact Hstep|].
  exact (proj1 (proj2 (proj2 (C8_counters _ _ Hstep)))).
Defined.

(** C8 (as stated) fails: after a harvest booked 10 of protocol yield, the
    admin withdraws the fees and totalProtocolYield drops from 10 to 0. *)
Lemma C8_counterexample : ~ counters_monotonic.
Proof.
  intros Hclaim.
  assert (Hr : reachable (world_after fees_harvested)).
  { apply world_after_reachable. vm_compute. eexists; reflexivity. }
  assert (Hstep : step (world_after fees_harvested)
                    (world_after fees_withdrawn)).
  { apply (step_call DEPLOYER (WithdrawProtocolFees 10 DEPLOYER)).
    vm_compute. reflexivity. }
  destruct (Hclaim _ _ Hr Hstep) as (_ & _ & _ & Hle).
  vm_compute in Hle. apply Hle. reflexivity.
Qed.

(** ** C9: the two yield computations *)

Section Yield.
Context {Y : Type} `{!IYieldProtocol Y} `{!Keccak256}.
Implicit Types (w : World Y) (sender : address).

Lemma _calculateTimeFactor_spec plan now tf :
  _calculateTimeFactor plan now = Ok tf ->
  startDate plan <> endDate plan ->
  tf = spec_timeFactor (now - startDate plan) (endDate plan - startDate plan).
Proof.
  unfold _calculateTimeFactor, spec_timeFactor. intros H0 Hne.
  unbind H0 as dur Hdur. unbind H0 as el Hel.
  apply sub_Ok in Hdur as [-> Hle].
  destruct (N.eqb_spec (endDate plan - startDate plan) 0) as [Hz|Hnz]; [lia|].
  unbind H0 as m Hm. apply mul_Ok in Hm as [-> _].
  apply div_Ok in H0 as [-> _].
  destruct (N.ltb_spec (endDate plan) now).
  - injection Hel as <-. f_equal. f_equal. lia.
  - apply sub_Ok in Hel as [-> ?]. f_equal. f_equal. lia.
Qed.

(** What each of the two paths computes.  getAccumulatedYield and the
    distribution path behind claimYield both return zero when
    principalDeposited, totalPrincipal or totalYieldShares is zero, and both
    start from the plan's proportional claim
    principalDeposited * totalYieldShares / totalPrincipal and the time
    factor min(elapsed, duration) / duration.  The accessor returns that
    claim scaled by the time factor and by userYieldShareBps / 10000.  The
    distribution path asks the yield protocol for its balance, returns zero
    when that is not above totalPrincipal, and otherwise scales the claim
    by (balance - totalPrincipal) / totalYieldShares as well, before the
    user share is taken. *)
Lemma yield_formulas id w :
  validPlanId (store w) id = Ok tt ->
  let s := store w in
  let plan := plan_at s id in
  let userShare := principalDeposited plan * totalYieldShares s / totalPrincipal s in
  (principalDeposited plan = 0 \/ totalPrincipal s = 0 \/ totalYieldShares s = 0 ->
     getAccumulatedYield id w = Ok 0
     /\ _calculateAndDistributeYield id w = Ok (0, w))
  /\ (principalDeposited plan <> 0 -> totalPrincipal s <> 0 ->
      totalYieldShares s <> 0 -> startDate plan <> endDate plan ->
      (forall v, getAccumulatedYield id w = Ok v ->
         v = spec_yield (principalDeposited plan) (totalYieldShares s)
               (totalPrincipal s) (timestamp w - startDate plan)
               (endDate plan - startDate plan) (userYieldShareBps s))
      /\ (forall v w', _calculateAndDistributeYield id w = Ok (v, w') ->
            exists yieldBalance,
              call (yieldProtocol s) (yp w)
                (yp_getBalance (yieldProtocol s) (yp w, usdc w))
              = Ok yieldBalance
              /\ v = (if yieldBalance <=? totalPrincipal s then 0
                      else userShare * (yieldBalance - totalPrincipal s)
                           * spec_timeFactor (timestamp w - startDate plan)
                               (endDate plan - startDate plan)
                           / (totalYieldShares s * PRECISION)
                           * userYieldShareBps s / 10000))).
Proof.
  intros Hid s plan userShare. change (store w) with s in Hid. split.
  - intros Hz. unfold getAccumulatedYield, _calculateAndDistributeYield.
    fold s plan. rewrite Hid. cbn.
    destruct (N.eqb_spec (principalDeposited plan) 0); [split; reflexivity|].
    destruct Hz as [Hz|[Hz|Hz]]; [contradiction| |]; rewrite Hz; cbn;
      rewrite ?orb_true_r; split; reflexivity.
  - intros Hpd Htp Htys Hdur.
    apply N.eqb_neq in Hpd, Htp, Htys. split.
    + intros v Hv. unfold getAccumulatedYield in Hv. fold s plan in Hv.
      rewrite Hid in Hv. cbn in Hv. rewrite Hpd, Htp, Htys in Hv. cbn in Hv.
      unbind Hv as m Hm. unbind Hv as us Hus. unbind Hv as tf Htf.
      unbind Hv as m1 Hm1. unbind Hv as m2 Hm2. injection Hv as <-.
      apply _calculateTimeFactor_spec in Htf; [|assumption].
      arith_facts. unfold spec_yield. rewrite <- Htf. reflexivity.
    + intros v w' Hv. unfold _calculateAndDistributeYield in Hv.
      fold s plan in Hv. rewrite Hpd, Htp, Htys in Hv. cbn in Hv.
      unbind Hv as m Hm. unbind Hv as us Hus. unbind Hv as tf Htf.
      unbind Hv as bal Hbal. exists bal. split; [exact Hbal|].
      apply _calculateTimeFactor_spec in Htf; [|assumption].
      destruct (bal <=? totalPrincipal s).
      * injection Hv as <- _. reflexivity.
      * unbind Hv as ty Hty. unbind Hv as a Ha. unbind Hv as b Hb.
        unbind Hv as c Hc. unbind Hv as y1 Hy1. unbind Hv as m2 Hm2.
        unbind Hv as ye Hye. unbind Hv as tuy Htuy. injection Hv as <- _.
        arith_facts. unfold userShare. rewrite <- Htf. reflexivity.
Qed.

End Yield.

Example yield_formulas_midterm :
  getAccumulatedYield 1 (world_after yield_accruing) = Ok 400
  /\ 400 = spec_yield 1000 1000 1000 (15 * days1) (30 * days1) 8000.
Proof.
  assert (Hv : getAccumulatedYield 1 (world_after yield_accruing) = Ok 400)
    by (vm_compute; reflexivity).
  split; [exact Hv|].
  refine (eq_trans
            (proj1 (proj2 (yield_formulas 1 (world_after yield_accruing) _)
                      _ _ _ _) 400 Hv) _);
    try (vm_compute; reflexivity); vm_compute; discriminate.
Qed.

(** The two paths do not return the same amount in every reachable world. *)
Lemma yield_paths_disagree : ~ yield_paths_agree.
Proof.
  intros Hclaim.
  assert (Hr : reachable (world_after yield_accruing)).
  { apply world_after_reachable. vm_compute. eexists; reflexivity. }
  specialize (Hclaim _ 1 Hr). vm_compute in Hclaim. discriminate Hclaim.
Qed.

(** C9.  The accessor does not compute what claimYield distributes: it never
    reads the yield.  Whatever the yield protocol and the token ledger hold,
    getAccumulatedYield returns the same value.  In the reachable world
    where Alice's 1000 sit in the mock protocol at 5% and half of her 30-day
    plan has elapsed, the protocol reports a balance of 1050 against a
    totalPrincipal of 1000, so the whole pool has earned 50; the distribution
    path behind claimYield computes 20 for her plan, and claimYield pays 20;
    getAccumulatedYield returns 400 for the same plan in the same state. *)
Theorem C9_accessor_ignores_the_yield :
  (forall (w : World MockYieldProtocol) (id : uint256)
          (y : MockYieldProtocol) (t : Token),
     getAccumulatedYield id (set_yp y (set_usdc t w))
     = getAccumulatedYield id w)
  /\ reachable (world_after yield_accruing)
  /\ call (yieldProtocol (store (world_after yield_accruing)))
        (yp (world_after yield_accruing))
        (yp_getBalance (yieldProtocol (store (world_after yield_accruing)))
           (yp (world_after yield_accruing),
            usdc (world_after yield_accruing)))
     = Ok 1050
  /\ totalPrincipal (store (world_after yield_accruing)) = 1000
  /\ res_map fst
       (_calculateAndDistributeYield 1 (world_after yield_accruing))
     = Ok 20
  /\ getAccumulatedYield 1 (world_after yield_accruing) = Ok 400
  /\ res_map fst (claimYield ALICE 1 (world_after yield_funded)) = Ok 20
  /\ getAccumulatedYield 1 (world_after yield_funded) = Ok 400.
Proof.
  split; [intros w id y t; reflexivity|].
  split.
  { apply world_after_reachable. vm_compute. eexists; reflexivity. }
  repeat split; vm_compute; reflexivity.
Qed.

(** ** C10: what a withdrawal leaves alone *)

Section Frame.
Context {Y : Type} `{!IYieldProtocol Y} `{!Keccak256}.
Implicit Types (w : World Y) (sender : address).

(** C10.  A successful withdraw changes, in the contract's storage, the
    record of the targeted plan and totalYieldShares, and nothing else; in
    that record it changes accumulatedBalance, yieldEarned and the two
    lifecycle flags only.  So totalPlans, totalPrincipal, totalUserYield and
    totalProtocolYield, and every other plan, are as before. *)
Theorem C10_withdraw_frame sender id amt w paidAmt w' :
  withdraw sender id amt w = Ok (paidAmt, w') ->
  let plan := plan_at (store w) id in
  let plan' := plan_at (store w') id in
  (totalPlans (store w') = totalPlans (store w)
   /\ totalPrincipal (store w') = totalPrincipal (store w)
   /\ totalUserYield (store w') = totalUserYield (store w)
   /\ totalProtocolYield (store w') = totalProtocolYield (store w))
  /\ (forall other, other <> id ->
        plans (store w') !! other = plans (store w) !! other)
  /\ (exists tys,
        store w'
        = set_totalYieldShares tys (write_plan id plan' (store w)))
  /\ (exists acc ye active completed,
        plan' = set_flags active completed
                  (set_yieldEarned ye (set_accumulatedBalance acc plan)))
  /\ this w' = this w /\ timestamp w' = timestamp w.
Proof.
  intros Hw. cbn zeta. unfold withdraw in Hw.
  set (plan := plan_at (store w) id) in *.
  unbind Hw as u1 Hid. unbind Hw as u2 Hown. unbind Hw as u3 Hact.
  unbind Hw as avail Hav. unbind Hw as u4 Hreq. unbind Hw as pw Hpw.
  unbind Hw as py Hpy. unbind Hw as acc Hacc. unbind Hw as ye Hye.
  unbind Hw as w2 Hpull. unbind Hw as tok Htok.
  injection Hw as _ <-.
  apply pullFromYieldIfNeeded_frame in Hpull as (Hthis & Hts & tys & Hst).
  cbn in Hthis, Hts, Hst. cbn. rewrite Hst, Hthis, Hts. cbn.
  set (plan2 := if (acc =? 0) && (ye =? 0) then _ else _).
  assert (Hplan' : plan_at (set_totalYieldShares tys
                              (write_plan id plan2 (store w))) id = plan2).
  { unfold plan_at. cbn. rewrite lookup_insert_eq. reflexivity. }
  rewrite Hplan'.
  split; [repeat split|]. split; [|split; [|split]].
  - intros other Hne. rewrite lookup_insert_ne by congruence. reflexivity.
  - exists tys. reflexivity.
  - exists acc, ye. subst plan2. destruct ((acc =? 0) && (ye =? 0)).
    + exists false, true. reflexivity.
    + exists (isActive plan), (isCompleted plan). destruct plan; reflexivity.
  - split; reflexivity.
Qed.

End Frame.

Lemma C10_withdraw_frame_witness :
  withdraw ALICE 1 5 (world_after one_deduction)
  = Ok (5, world_after (one_deduction ++ [ Tx ALICE (Withdraw 1 5) ]))
  /\ totalPrincipal
       (store (world_after (one_deduction ++ [ Tx ALICE (Withdraw 1 5) ])))
     = totalPrincipal (store (world_after one_deduction)).
Proof.
  assert (Hw : withdraw ALICE 1 5 (world_after one_deduction)
               = Ok (5, world_after (one_deduction ++ [ Tx ALICE (Withdraw 1 5) ])))
    by (vm_compute; reflexivity).
  split; [exact Hw|].
  exact (proj1 (proj2 (proj1 (C10_withdraw_frame _ _ _ _ _ _ Hw)))).
Defined.

(** * The storage invariant of reachable states *)

Lemma validPlanId_Ok s id u :
  validPlanId s id = Ok u <-> 1 <= id /\ id <= totalPlans s.
Proof.
  unfold validPlanId, require.
  destruct (N.eqb_spec id 0), (N.ltb_spec (totalPlans s) id); cbn;
    split; try discriminate; try lia; destruct u; reflexivity.
Qed.

Lemma planDurationOf_days d : planDurationOf d = days1 * (planDurationOf d / days1).
Proof. destruct d; reflexivity. Qed.

Lemma core_ok_insert pen mn mx bps n pl ew id p' :
  core_ok pen mn mx bps n pl ew ->
  1 <= id /\ id <= n -> plan_ok p' ->
  core_ok pen mn mx bps n (<[id := p']> pl) ew.
Proof.
  intros (H1 & H2 & H3 & H4 & Hdom & Hpl & Hew) Hid Hp.
  unfold core_ok. split_and!; try assumption.
  - intros id0. rewrite lookup_insert. case_decide as Hd.
    + subst id0. split; [intros _; exact Hid | intros _; eexists; reflexivity].
    + apply Hdom.
  - intros id0 p. rewrite lookup_insert. case_decide as Hd.
    + intros [= <-]. exact Hp.
    + apply Hpl.
Qed.

Lemma core_ok_create pen mn mx bps n pl ew p' :
  core_ok pen mn mx bps n pl ew -> plan_ok p' ->
  core_ok pen mn mx bps (n + 1) (<[n + 1 := p']> pl) ew.
Proof.
  intros (H1 & H2 & H3 & H4 & Hdom & Hpl & Hew) Hp.
  unfold core_ok. split_and!; try assumption.
  - intros id0. rewrite lookup_insert. case_decide as Hd.
    + subst id0. split; [intros _; lia | intros _; eexists; reflexivity].
    + rewrite Hdom. lia.
  - intros id0 p. rewrite lookup_insert. case_decide as Hd.
    + intros [= <-]. exact Hp.
    + apply Hpl.
  - intros wid r Hr. apply Hew in Hr. lia.
Qed.

Lemma core_ok_request pen mn mx bps n pl ew wid r :
  core_ok pen mn mx bps n pl ew ->
  1 <= planId r /\ planId r <= n ->
  core_ok pen mn mx bps n pl (<[wid := r]> ew).
Proof.
  intros (H1 & H2 & H3 & H4 & Hdom & Hpl & Hew) Hr.
  unfold core_ok. split_and!; try assumption.
  intros wid0 r0. rewrite lookup_insert. case_decide as Hd.
  - intros [= <-]. exact Hr.
  - apply Hew.
Qed.

Lemma core_ok_params pen mn mx bps n pl ew pen' mn' mx' bps' :
  core_ok pen mn mx bps n pl ew ->
  pen' <= MAX_EARLY_WITHDRAWAL_PENALTY -> 0 < mn' -> mn' < mx' ->
  bps' <= 10000 ->
  core_ok pen' mn' mx' bps' n pl ew.
Proof.
  intros (H1 & H2 & H3 & H4 & Hdom & Hpl & Hew) ? ? ? ?.
  unfold core_ok. split_and!; assumption.
Qed.

Lemma plan_known s id :
  store_ok s -> 1 <= id /\ id <= totalPlans s ->
  plans s !! id = Some (plan_at s id) /\ plan_ok (plan_at s id).
Proof.
  intros (_ & _ & _ & _ & Hdom & Hpl & _) Hid.
  apply Hdom in Hid as [p Hp]. pose proof (Hpl _ _ Hp) as Hok.
  unfold plan_at, uint256. rewrite Hp. cbn.
  split; [reflexivity | exact Hok].
Qed.

Lemma withdrawal_known s wid :
  admin (withdrawal_at s wid) <> 0 ->
  emergencyWithdrawals s !! wid = Some (withdrawal_at s wid).
Proof.
  unfold withdrawal_at. destruct (emergencyWithdrawals s !! wid); cbn.
  - reflexivity.
  - intros Hne. contradiction Hne. reflexivity.
Qed.

Lemma request_plan_valid s wid :
  store_ok s -> admin (withdrawal_at s wid) <> 0 ->
  1 <= planId (withdrawal_at s wid)
  /\ planId (withdrawal_at s wid) <= totalPlans s.
Proof.
  intros (_ & _ & _ & _ & _ & _ & Hew) Hadm.
  eapply Hew, withdrawal_known, Hadm.
Qed.

(** Turn the checks that passed into propositions. *)
Ltac check_facts :=
  repeat match goal with
         | Hq : require _ _ = Ok _ |- _ => apply require_Ok in Hq
         | Hq : validPlanId _ _ = Ok _ |- _ => apply validPlanId_Ok in Hq
         | Hq : whenNotPaused _ = Ok _ |- _ => apply require_Ok in Hq
         | Hq : whenPaused _ = Ok _ |- _ => apply require_Ok in Hq
         | Hq : onlyRole _ _ _ = Ok _ |- _ => apply require_Ok in Hq
         | Hq : onlyPlanOwner _ _ _ = Ok _ |- _ => apply require_Ok in Hq
         | Hq : onlyOwner _ _ = Ok _ |- _ => apply require_Ok in Hq
         | Hq : expectedDeductionDate _ = Ok _ |- _ =>
             apply expectedDeductionDate_Ok in Hq as (-> & ? & ?)
         end;
  bool_facts.

Section Inv.
Context {Y : Type} `{!IYieldProtocol Y} `{!Keccak256}.
Implicit Types (w : World Y) (sender : address).

Ltac same_core Hok :=
  unfold store_ok in *; cbn in *; exact Hok.

Ltac updated_plan Hok id :=
  let Hk := fresh "Hk" in
  let Hp := fresh "Hp" in
  lazymatch goal with
  | Hv : 1 <= id /\ id <= totalPlans ?s |- _ =>
      destruct (plan_known s id Hok Hv) as [Hk Hp];
      unfold store_ok in *; cbn in *;
      apply core_ok_insert; [exact Hok | exact Hv |];
      pose proof (planDurationOf_days (duration (plan_at s id)));
      repeat match goal with
             | |- context [if ?c then _ else _] => destruct c eqn:?; cbn
             end;
      destruct Hp; constructor; cbn; try assumption; try reflexivity;
      unfold days1, hours1 in *; try lia;
      try (etrans; [apply N.le_sub_l | assumption])
  end.

Lemma executeDeduction_store_ok id w w' :
  store_ok (store w) -> executeDeduction id w = Ok w' -> store_ok (store w').
Proof.
  unfold executeDeduction. intros Hok H0.
  crunch H0; injection H0 as <-; arith_facts; check_facts; yield_frames;
    updated_plan Hok id.
  all: try (destruct (isCompleted (plan_at (store w) id)); cbn in *; congruence).
Qed.

Lemma batchItem_store_ok id w w' :
  store_ok (store w) -> batchItem id w = Ok w' -> store_ok (store w').
Proof.
  unfold batchItem. intros Hok H0.
  crunch H0; injection H0 as <-; arith_facts; check_facts;
    try exact Hok;
    (assert (Hv : 1 <= id /\ id <= totalPlans (store w)) by lia);
    updated_plan Hok id.
  all: try (destruct (isCompleted (plan_at (store w) id)); cbn in *; congruence).
Qed.

Lemma batchLoop_store_ok ids : forall w w',
  store_ok (store w) -> batchLoop ids w = Ok w' -> store_ok (store w').
Proof.
  induction ids as [|id ids IH]; cbn; intros w w' Hok H0.
  - injection H0 as <-. exact Hok.
  - unbind H0 as w1 Hitem. eapply IH; [|exact H0].
    eapply batchItem_store_ok; eassumption.
Qed.

Lemma exec_store_ok sender c w w' :
  store_ok (store w) -> exec sender c w = Ok w' -> store_ok (store w').
Proof.
  intros Hok H0. destruct c; cbn in H0.
  - (* createPlan *)
    unfold createPlan in H0. crunch H0. injection H0 as <-.
    arith_facts; check_facts. unfold store_ok in *; cbn.
    apply core_ok_create; [exact Hok|].
    destruct Hok as (_ & Hmin & _).
    constructor; cbn; try reflexivity; try lia. apply N.le_0_l.
  - eapply executeDeduction_store_ok; eassumption.
  - unfold executeDeductionsBatch in H0.
    unbind H0 as u Hp. unbind H0 as w1 Hloop.
    apply (batchLoop_store_ok _ _ _ Hok) in Hloop.
    crunch H0; injection H0 as <-; yield_frames; same_core Hloop.
  - (* withdraw *)
    unfold withdraw in H0.
    crunch H0; injection H0 as <-; arith_facts; check_facts;
      unfold store_ok; cbn; yield_frames; updated_plan Hok id.
  - (* claimYield *)
    unfold claimYield, _calculateAndDistributeYield in H0.
    crunch H0; injection H0 as <-; arith_facts; check_facts;
      unfold store_ok; cbn; yield_frames; try exact Hok; updated_plan Hok id.
  - unfold setYieldProtocol in H0.
    crunch H0; injection H0 as <-; same_core Hok.
  - unfold setEarlyWithdrawalPenalty in H0.
    crunch H0; injection H0 as <-; check_facts.
    unfold store_ok in *; cbn.
    destruct Hok as (? & ? & ? & ? & ?).
    eapply core_ok_params; [unfold core_ok; eauto 10| | | |]; assumption.
  - unfold setDailyDeductionLimits in H0.
    crunch H0; injection H0 as <-; check_facts.
    unfold store_ok in *; cbn.
    destruct Hok as (? & ? & ? & ? & ?).
    eapply core_ok_params; [unfold core_ok; eauto 10| | | |];
      try assumption; lia.
  - unfold setYieldDistribution in H0.
    crunch H0; injection H0 as <-; check_facts.
    unfold store_ok in *; cbn.
    destruct Hok as (? & ? & ? & ? & ?).
    eapply core_ok_params; [unfold core_ok; eauto 10| | | |]; assumption.
  - unfold setMinYieldDepositThreshold in H0.
    crunch H0; injection H0 as <-; same_core Hok.
  - unfold harvestYield in H0.
    crunch H0; injection H0 as <-; yield_frames; same_core Hok.
  - unfold emergencyExitYield in H0.
    crunch H0; injection H0 as <-; same_core Hok.
  - (* scheduleEmergencyWithdrawal *)
    unfold scheduleEmergencyWithdrawal in H0.
    crunch H0; injection H0 as <-; arith_facts; check_facts.
    unfold store_ok in *; cbn.
    apply core_ok_request; [exact Hok|]. cbn. lia.
  - (* executeEmergencyWithdrawal *)
    unfold executeEmergencyWithdrawal, emergencyAmount in H0.
    crunch H0; injection H0 as <-; arith_facts; check_facts; yield_frames.
    all: match goal with
         | Ha : admin (withdrawal_at _ _) <> 0 |- _ =>
             pose proof (request_plan_valid _ _ Hok Ha) as Hv
         end.
    all: destruct (plan_known _ _ Hok Hv) as [Hk Hp].
    all: unfold store_ok in *; cbn in *.
    all: apply core_ok_request; [|exact Hv].
    all: apply core_ok_insert; [exact Hok | exact Hv |].
    all: destruct Hp; constructor; cbn; try assumption; try lia.
  - (* cancelEmergencyWithdrawal *)
    unfold cancelEmergencyWithdrawal in H0.
    crunch H0; injection H0 as <-; check_facts.
    match goal with
    | Ha : admin (withdrawal_at _ _) <> 0 |- _ =>
        pose proof (request_plan_valid _ _ Hok Ha) as Hv
    end.
    unfold store_ok in *; cbn.
    apply core_ok_request; [exact Hok | exact Hv].
  - unfold withdrawProtocolFees in H0.
    crunch H0; injection H0 as <-; same_core Hok.
  - unfold pause in H0. crunch H0; injection H0 as <-; same_core Hok.
  - unfold unpause in H0. crunch H0; injection H0 as <-; same_core Hok.
  - unfold setEmergencyWithdrawalDelay in H0.
    crunch H0; injection H0 as <-; same_core Hok.
  - unfold grantRole in H0. crunch H0; injection H0 as <-; same_core Hok.
  - unfold revokeRole in H0. crunch H0; injection H0 as <-; same_core Hok.
  - unfold renounceRole in H0. crunch H0; injection H0 as <-; same_core Hok.
  - unfold transferOwnership in H0.
    crunch H0; injection H0 as <-; same_core Hok.
  - unfold acceptOwnership in H0.
    crunch H0; injection H0 as <-; same_core Hok.
  - unfold renounceOwnership in H0.
    crunch H0; injection H0 as <-; same_core Hok.
Qed.

Lemma reachable_store_ok w : reachable w -> store_ok (store w).
Proof.
  induction 1 as [w (sender & token & p & mn & mx & fee & share & Hc & _)
                 | w w' _ IH Hstep].
  - unfold constructor in Hc. crunch Hc. injection Hc as <-. check_facts.
    unfold store_ok, core_ok. cbn. split_and!; try lia.
    + intros id. rewrite lookup_empty. split; [intros [? ?]; discriminate|lia].
    + intros id p0. rewrite lookup_empty. discriminate.
    + intros wid r. rewrite lookup_empty. discriminate.
  - destruct Hstep as [sender c w0 w0' Hexec | w0 w0' (_ & Hst & _)].
    + eapply exec_store_ok; eassumption.
    + rewrite Hst. exact IH.
Qed.
End Inv.

(** * What every reachable state satisfies *)

Lemma plan_step_refl p : plan_step p p.
Proof. constructor; auto; reflexivity. Qed.

Lemma plan_step_trans p q r : plan_step p q -> plan_step q r -> plan_step p r.
Proof.
  intros [] []. constructor; try (etrans; eassumption); auto.
Qed.

Section Static.
Context {Y : Type} `{!IYieldProtocol Y} `{!Keccak256}.
Implicit Types (w : World Y) (sender : address).

(** After the control flow of a call is split in [H]: the plan read at any
    id is the old one or the one the call wrote. *)
Ltac per_plan H :=
  crunch H; injection H as <-; cbn; arith_facts; yield_frames;
  (split; [reflexivity|]);
  let id' := fresh "id'" in
  intros id'; unfold plan_at; cbn;
  rewrite ?lookup_insert; repeat case_decide; subst; cbn;
  try apply plan_step_refl;
  repeat match goal with
         | |- context [if ?c then _ else _] => destruct c eqn:?; cbn
         end;
  constructor; cbn; try reflexivity; try lia; try congruence.

Lemma executeDeduction_plan_step id w w' :
  executeDeduction id w = Ok w' ->
  totalPlans (store w') = totalPlans (store w)
  /\ forall id', plan_step (plan_at (store w) id') (plan_at (store w') id').
Proof. unfold executeDeduction. intros H0. per_plan H0. Qed.

Lemma batchItem_plan_step id w w' :
  batchItem id w = Ok w' ->
  totalPlans (store w') = totalPlans (store w)
  /\ forall id', plan_step (plan_at (store w) id') (plan_at (store w') id').
Proof. unfold batchItem. intros H0. per_plan H0. Qed.

Lemma batchLoop_plan_step ids : forall w w',
  batchLoop ids w = Ok w' ->
  totalPlans (store w') = totalPlans (store w)
  /\ forall id', plan_step (plan_at (store w) id') (plan_at (store w') id').
Proof.
  induction ids as [|id ids IH]; cbn; intros w w' H0.
  - injection H0 as <-. split; [reflexivity | intros; apply plan_step_refl].
  - unbind H0 as w1 Hitem.
    apply batchItem_plan_step in Hitem as [Hn1 Hs1].
    apply IH in H0 as [Hn2 Hs2].
    split; [congruence|]. intros id'.
    eapply plan_step_trans; [apply Hs1 | apply Hs2].
Qed.

Lemma exec_plan_step sender c w w' :
  exec sender c w = Ok w' ->
  totalPlans (store w) <= totalPlans (store w')
  /\ forall id, id <= totalPlans (store w) ->
       plan_step (plan_at (store w) id) (plan_at (store w') id).
Proof.
  intros H0.
  assert (Hsame : totalPlans (store w') = totalPlans (store w)
                  /\ (forall id', plan_step (plan_at (store w) id')
                                    (plan_at (store w') id'))
                  -> totalPlans (store w) <= totalPlans (store w')
                     /\ forall id, id <= totalPlans (store w) ->
                          plan_step (plan_at (store w) id)
                            (plan_at (store w') id)).
  { intros [-> Hs]. split; [reflexivity | intros; apply Hs]. }
  destruct c; cbn in H0; [clear Hsame | apply Hsame ..].
  - (* createPlan *)
    unfold createPlan in H0. crunch H0. injection H0 as <-.
    arith_facts. cbn. split; [lia|].
    intros id Hid. unfold plan_at. cbn.
    rewrite lookup_insert_ne by lia. apply plan_step_refl.
  - eapply executeDeduction_plan_step; eassumption.
  - unfold executeDeductionsBatch in H0.
    unbind H0 as u Hp. unbind H0 as w1 Hloop.
    apply batchLoop_plan_step in Hloop as [Hn Hs].
    assert (store w' = store w1
            \/ exists x, store w' = set_totalYieldShares x (store w1))
      as [Hst | [x Hst]].
    { crunch H0; injection H0 as <-; yield_frames; eauto. }
    all: rewrite Hst; cbn; split; [exact Hn | exact Hs].
  - unfold withdraw in H0. per_plan H0.
  - unfold claimYield, _calculateAndDistributeYield in H0. per_plan H0.
  - unfold setYieldProtocol in H0. per_plan H0.
  - unfold setEarlyWithdrawalPenalty in H0. per_plan H0.
  - unfold setDailyDeductionLimits in H0. per_plan H0.
  - unfold setYieldDistribution in H0. per_plan H0.
  - unfold setMinYieldDepositThreshold in H0. per_plan H0.
  - unfold harvestYield in H0. per_plan H0.
  - unfold emergencyExitYield in H0. per_plan H0.
  - unfold scheduleEmergencyWithdrawal in H0. per_plan H0.
  - unfold executeEmergencyWithdrawal, emergencyAmount in H0. per_plan H0.
  - unfold cancelEmergencyWithdrawal in H0. per_plan H0.
  - unfold withdrawProtocolFees in H0. per_plan H0.
  - unfold pause in H0. per_plan H0.
  - unfold unpause in H0. per_plan H0.
  - unfold setEmergencyWithdrawalDelay in H0. per_plan H0.
  - unfold grantRole in H0. per_plan H0.
  - unfold revokeRole in H0. per_plan H0.
  - unfold renounceRole in H0. per_plan H0.
  - unfold transferOwnership in H0. per_plan H0.
  - unfold acceptOwnership in H0. per_plan H0.
  - unfold renounceOwnership in H0. per_plan H0.
Qed.

End Static.
Section Registry.
Context {Y : Type} `{!IYieldProtocol Y} `{!Keccak256}.
Implicit Types (w : World Y) (sender : address).

Ltac untouched H :=
  crunch H; injection H as <-; cbn; yield_frames; auto.

Lemma batchLoop_registry ids : forall w w',
  batchLoop ids w = Ok w' ->
  userPlans (store w') = userPlans (store w)
  /\ emergencyWithdrawals (store w') = emergencyWithdrawals (store w).
Proof.
  induction ids as [|id ids IH]; cbn; intros w w' H0.
  - injection H0 as <-. auto.
  - unbind H0 as w1 Hitem. apply IH in H0 as [-> ->].
    unfold batchItem in Hitem. untouched Hitem.
Qed.

(** createPlan alone writes [userPlans]. *)
Lemma exec_userPlans sender c w w' :
  exec sender c w = Ok w' ->
  (forall daily d, c <> CreatePlan daily d) ->
  userPlans (store w') = userPlans (store w)
  /\ totalPlans (store w') = totalPlans (store w).
Proof.
  intros H0 Hc. destruct c; cbn in H0.
  - contradiction (Hc daily d). reflexivity.
  - unfold executeDeduction in H0. untouched H0.
  - unfold executeDeductionsBatch in H0.
    unbind H0 as u Hp. unbind H0 as w1 Hloop.
    pose proof (batchLoop_registry _ _ _ Hloop) as [Hu _].
    apply batchLoop_plan_step in Hloop as [Hn _].
    rewrite <- Hu, <- Hn. untouched H0.
  - unfold withdraw in H0. untouched H0.
  - unfold claimYield, _calculateAndDistributeYield in H0. untouched H0.
  - unfold setYieldProtocol in H0. untouched H0.
  - unfold setEarlyWithdrawalPenalty in H0. untouched H0.
  - unfold setDailyDeductionLimits in H0. untouched H0.
  - unfold setYieldDistribution in H0. untouched H0.
  - unfold setMinYieldDepositThreshold in H0. untouched H0.
  - unfold harvestYield in H0. untouched H0.
  - unfold emergencyExitYield in H0. untouched H0.
  - unfold scheduleEmergencyWithdrawal in H0. untouched H0.
  - unfold executeEmergencyWithdrawal, emergencyAmount in H0. untouched H0.
  - unfold cancelEmergencyWithdrawal in H0. untouched H0.
  - unfold withdrawProtocolFees in H0. untouched H0.
  - unfold pause in H0. untouched H0.
  - unfold unpause in H0. untouched H0.
  - unfold setEmergencyWithdrawalDelay in H0. untouched H0.
  - unfold grantRole in H0. untouched H0.
  - unfold revokeRole in H0. untouched H0.
  - unfold renounceRole in H0. untouched H0.
  - unfold transferOwnership in H0. untouched H0.
  - unfold acceptOwnership in H0. untouched H0.
  - unfold renounceOwnership in H0. untouched H0.
Qed.

Lemma owner_kept sender c w w' id :
  exec sender c w = Ok w' -> id <= totalPlans (store w) ->
  owner (plan_at (store w') id) = owner (plan_at (store w) id).
Proof.
  intros H0 Hid. apply exec_plan_step in H0 as [_ Hs].
  destruct (Hs id Hid) as [Ht _ _ _ _]. unfold plan_terms in Ht.
  congruence.
Qed.

Lemma exec_index_ok sender c w w' :
  store_ok (store w) -> index_ok (store w) ->
  exec sender c w = Ok w' -> index_ok (store w').
Proof.
  intros Hok Hix H0.
  assert (Hcases : (exists daily d, c = CreatePlan daily d)
                   \/ forall daily d, c <> CreatePlan daily d).
  { destruct c; try (right; intros; discriminate). left. eauto. }
  destruct Hcases as [(daily & d & ->) | Hc].
  - cbn in H0. unfold createPlan in H0. crunch H0. injection H0 as <-.
    arith_facts. intros usr. unfold owns, plan_at. cbn.
    destruct (Hix sender) as [Hnd Hmem].
    assert (Hfresh : totalPlans (store w) + 1
                     ∉ default [] (userPlans (store w) !! sender)).
    { intros Hin. apply Hmem in Hin as (_ & Hle & _). lia. }
    destruct (decide (usr = sender)) as [-> | Hne].
    + rewrite lookup_insert_eq. cbn. split.
      * apply NoDup_app. split; [exact Hnd|]. split.
        -- intros x Hx Hx'. apply list_elem_of_singleton in Hx'. subst x.
           contradiction.
        -- apply NoDup_singleton.
      * intros id. rewrite ?lookup_insert_eq. cbn.
        rewrite elem_of_app, list_elem_of_singleton, Hmem.
        unfold owns, plan_at.
        destruct (decide (id = totalPlans (store w) + 1)) as [-> | Hid].
        -- rewrite lookup_insert_eq. cbn. split; [intros _|auto].
           split_and!; [lia | lia | reflexivity].
        -- rewrite lookup_insert_ne by congruence.
           split; [intros [(? & ? & ?) | ?]; [|contradiction] | intros (? & ? & ?)].
           ++ split_and!; [lia | lia | assumption].
           ++ left. split_and!; [lia | lia | assumption].
    + rewrite lookup_insert_ne by congruence.
      destruct (Hix usr) as [Hnd' Hmem']. split; [exact Hnd'|].
      intros id. rewrite ?lookup_insert_ne by congruence.
      rewrite Hmem'. unfold owns, plan_at.
      destruct (decide (id = totalPlans (store w) + 1)) as [-> | Hid].
      * rewrite lookup_insert_eq. cbn.
        split; [intros (_ & ? & _); lia | intros (_ & _ & ?); congruence].
      * rewrite lookup_insert_ne by congruence.
        split; intros (? & ? & ?); (split_and!; [lia | lia | assumption]).
  - destruct (exec_userPlans _ _ _ _ H0 Hc) as [Hu Hn].
    intros usr. destruct (Hix usr) as [Hnd Hmem]. rewrite Hu.
    split; [exact Hnd|]. intros id. rewrite Hmem. unfold owns. rewrite Hn.
    split; intros (H1 & H2 & H3); (split_and!; [exact H1 | exact H2 |]).
    + rewrite (owner_kept _ _ _ _ _ H0 H2). exact H3.
    + rewrite <- (owner_kept _ _ _ _ _ H0 H2). exact H3.
Qed.

Lemma exec_requests_ok sender c w w' :
  store_ok (store w) -> requests_ok (store w) ->
  exec sender c w = Ok w' -> requests_ok (store w').
Proof.
  intros Hok Hrq H0.
  assert (Hkeep : emergencyWithdrawals (store w')
                  = emergencyWithdrawals (store w) -> requests_ok (store w')).
  { intros He wid r Hr. rewrite He in Hr.
    rewrite (owner_kept _ _ _ _ _ H0); [exact (Hrq _ _ Hr)|].
    destruct Hok as (_ & _ & _ & _ & _ & _ & Hew). apply (Hew _ _ Hr). }
  assert (Hupd : forall wid0 r0,
             emergencyWithdrawals (store w')
             = <[wid0 := r0]> (emergencyWithdrawals (store w)) ->
             planId r0 <= totalPlans (store w) ->
             user r0 = owner (plan_at (store w) (planId r0)) ->
             requests_ok (store w')).
  { intros wid0 r0 He Hle Hu wid r Hr. rewrite He in Hr.
    rewrite lookup_insert in Hr. case_decide as Hd.
    - injection Hr as <-. rewrite (owner_kept _ _ _ _ _ H0 Hle). exact Hu.
    - rewrite (owner_kept _ _ _ _ _ H0); [exact (Hrq _ _ Hr)|].
      destruct Hok as (_ & _ & _ & _ & _ & _ & Hew). apply (Hew _ _ Hr). }
  destruct c; pose proof H0 as Hrun; cbn in H0.
  - apply Hkeep. unfold createPlan in H0. untouched H0.
  - apply Hkeep. unfold executeDeduction in H0. untouched H0.
  - apply Hkeep. unfold executeDeductionsBatch in H0.
    unbind H0 as u Hp. unbind H0 as w1 Hloop.
    pose proof (batchLoop_registry _ _ _ Hloop) as [_ He].
    rewrite <- He. untouched H0.
  - apply Hkeep. unfold withdraw in H0. untouched H0.
  - apply Hkeep. unfold claimYield, _calculateAndDistributeYield in H0.
    untouched H0.
  - apply Hkeep. unfold setYieldProtocol in H0. untouched H0.
  - apply Hkeep. unfold setEarlyWithdrawalPenalty in H0. untouched H0.
  - apply Hkeep. unfold setDailyDeductionLimits in H0. untouched H0.
  - apply Hkeep. unfold setYieldDistribution in H0. untouched H0.
  - apply Hkeep. unfold setMinYieldDepositThreshold in H0. untouched H0.
  - apply Hkeep. unfold harvestYield in H0. untouched H0.
  - apply Hkeep. unfold emergencyExitYield in H0. untouched H0.
  - unfold scheduleEmergencyWithdrawal in H0.
    crunch H0; injection H0 as <-; arith_facts; check_facts.
    eapply Hupd; [cbn; reflexivity | cbn; lia | cbn; congruence].
  - unfold executeEmergencyWithdrawal, emergencyAmount in H0.
    crunch H0; injection H0 as Hw'; arith_facts; check_facts; yield_frames.
    all: match goal with
         | Ha : admin (withdrawal_at _ _) <> 0 |- _ =>
             pose proof (request_plan_valid _ _ Hok Ha) as Hv;
             pose proof (Hrq _ _ (withdrawal_known _ _ Ha)) as Hu
         end.
    all: eapply Hupd;
           [ rewrite <- Hw'; cbn;
             repeat match goal with
                    | Hst : store ?w2 = _ |- context [store ?w2] =>
                        rewrite Hst; cbn
                    end;
             reflexivity
           | cbn; lia
           | cbn; exact Hu ].
  - unfold cancelEmergencyWithdrawal in H0.
    crunch H0; injection H0 as <-; check_facts.
    match goal with
    | Ha : admin (withdrawal_at _ _) <> 0 |- _ =>
        pose proof (request_plan_valid _ _ Hok Ha) as Hv;
        pose proof (Hrq _ _ (withdrawal_known _ _ Ha)) as Hu
    end.
    eapply Hupd; [cbn; reflexivity | cbn; lia | cbn; exact Hu].
  - apply Hkeep. unfold withdrawProtocolFees in H0. untouched H0.
  - apply Hkeep. unfold pause in H0. untouched H0.
  - apply Hkeep. unfold unpause in H0. untouched H0.
  - apply Hkeep. unfold setEmergencyWithdrawalDelay in H0. untouched H0.
  - apply Hkeep. unfold grantRole in H0. untouched H0.
  - apply Hkeep. unfold revokeRole in H0. untouched H0.
  - apply Hkeep. unfold renounceRole in H0. untouched H0.
  - apply Hkeep. unfold transferOwnership in H0. untouched H0.
  - apply Hkeep. unfold acceptOwnership in H0. untouched H0.
  - apply Hkeep. unfold renounceOwnership in H0. untouched H0.
Qed.

End Registry.
Lemma principal_sum_empty : principal_sum ∅ = 0.
Proof. unfold principal_sum. apply map_fold_empty. Qed.

Lemma principal_sum_fresh pl id p' :
  pl !! id = None ->
  principal_sum (<[id := p']> pl) = principalDeposited p' + principal_sum pl.
Proof.
  intros Hn. unfold principal_sum.
  rewrite map_fold_insert_L; [reflexivity | | exact Hn].
  intros. lia.
Qed.

Lemma principal_sum_insert pl id p p' :
  pl !! id = Some p ->
  principal_sum (<[id := p']> pl) + principalDeposited p
  = principal_sum pl + principalDeposited p'.
Proof.
  intros Hs.
  rewrite <- insert_delete_eq.
  rewrite principal_sum_fresh by apply lookup_delete_eq.
  unfold principal_sum.
  rewrite (map_fold_delete_L _ _ id p pl); [lia | | exact Hs].
  intros. lia.
Qed.

Section Sums.
Context {Y : Type} `{!IYieldProtocol Y} `{!Keccak256}.
Implicit Types (w : World Y) (sender : address).

(** The plan table after a call is the old one, or the old one with the
    plan at a valid id replaced. *)
Ltac sum_kept Hok Hsum :=
  cbn; try exact Hsum;
  lazymatch goal with
  | Hv : 1 <= ?id /\ ?id <= totalPlans ?s
    |- _ = principal_sum (<[?id := ?p']> (plans ?s)) =>
      let Hk := fresh "Hk" in
      destruct (plan_known s id Hok Hv) as [Hk _];
      pose proof (principal_sum_insert _ _ _ p' Hk);
      repeat match goal with
             | _ : context [if ?c then _ else _] |- _ => destruct c; cbn in *
             end;
      cbn in *; unfold uint256 in *; lia
  end.

Lemma executeDeduction_sum id w w' :
  store_ok (store w) ->
  totalPrincipal (store w) = principal_sum (plans (store w)) ->
  executeDeduction id w = Ok w' ->
  totalPrincipal (store w') = principal_sum (plans (store w')).
Proof.
  unfold executeDeduction. intros Hok Hsum H0.
  crunch H0; injection H0 as <-; arith_facts; check_facts; cbn; yield_frames;
    sum_kept Hok Hsum.
Qed.

Lemma batchItem_sum id w w' :
  store_ok (store w) ->
  totalPrincipal (store w) = principal_sum (plans (store w)) ->
  batchItem id w = Ok w' ->
  totalPrincipal (store w') = principal_sum (plans (store w')).
Proof.
  unfold batchItem. intros Hok Hsum H0.
  crunch H0; injection H0 as <-; arith_facts; check_facts; cbn;
    try exact Hsum;
    (assert (Hv : 1 <= id /\ id <= totalPlans (store w)) by lia);
    sum_kept Hok Hsum.
Qed.

Lemma batchLoop_sum ids : forall w w',
  store_ok (store w) ->
  totalPrincipal (store w) = principal_sum (plans (store w)) ->
  batchLoop ids w = Ok w' ->
  totalPrincipal (store w') = principal_sum (plans (store w')).
Proof.
  induction ids as [|id ids IH]; cbn; intros w w' Hok Hsum H0.
  - injection H0 as <-. exact Hsum.
  - unbind H0 as w1 Hitem. eapply IH; [| |exact H0].
    + eapply batchItem_store_ok; eassumption.
    + eapply batchItem_sum; eassumption.
Qed.

Lemma exec_sum sender c w w' :
  store_ok (store w) ->
  totalPrincipal (store w) = principal_sum (plans (store w)) ->
  exec sender c w = Ok w' ->
  totalPrincipal (store w') = principal_sum (plans (store w')).
Proof.
  intros Hok Hsum H0. destruct c; cbn in H0.
  - unfold createPlan in H0. crunch H0. injection H0 as <-.
    arith_facts. cbn. rewrite principal_sum_fresh; [cbn; exact Hsum|].
    destruct Hok as (_ & _ & _ & _ & Hdom & _).
    apply eq_None_not_Some. rewrite Hdom. lia.
  - eapply executeDeduction_sum; eassumption.
  - unfold executeDeductionsBatch in H0.
    unbind H0 as u Hp. unbind H0 as w1 Hloop.
    apply (batchLoop_sum _ _ _ Hok Hsum) in Hloop.
    crunch H0; injection H0 as <-; cbn; yield_frames; exact Hloop.
  - unfold withdraw in H0.
    crunch H0; injection H0 as <-; arith_facts; check_facts; cbn;
      yield_frames; sum_kept Hok Hsum.
  - unfold claimYield, _calculateAndDistributeYield in H0.
    crunch H0; injection H0 as <-; arith_facts; check_facts; cbn;
      yield_frames; sum_kept Hok Hsum.
  - unfold setYieldProtocol in H0.
    crunch H0; injection H0 as <-; exact Hsum.
  - unfold setEarlyWithdrawalPenalty in H0.
    crunch H0; injection H0 as <-; exact Hsum.
  - unfold setDailyDeductionLimits in H0.
    crunch H0; injection H0 as <-; exact Hsum.
  - unfold setYieldDistribution in H0.
    crunch H0; injection H0 as <-; exact Hsum.
  - unfold setMinYieldDepositThreshold in H0.
    crunch H0; injection H0 as <-; exact Hsum.
  - unfold harvestYield in H0.
    crunch H0; injection H0 as <-; cbn; yield_frames; exact Hsum.
  - unfold emergencyExitYield in H0.
    crunch H0; injection H0 as <-; exact Hsum.
  - unfold scheduleEmergencyWithdrawal in H0.
    crunch H0; injection H0 as <-; exact Hsum.
  - unfold executeEmergencyWithdrawal, emergencyAmount in H0.
    crunch H0; injection H0 as <-; arith_facts; check_facts; cbn;
      yield_frames.
    all: match goal with
         | Ha : admin (withdrawal_at _ _) <> 0 |- _ =>
             pose proof (request_plan_valid _ _ Hok Ha) as Hv
         end.
    all: sum_kept Hok Hsum.
  - unfold cancelEmergencyWithdrawal in H0.
    crunch H0; injection H0 as <-; exact Hsum.
  - unfold withdrawProtocolFees in H0.
    crunch H0; injection H0 as <-; exact Hsum.
  - unfold pause in H0. crunch H0; injection H0 as <-; exact Hsum.
  - unfold unpause in H0. crunch H0; injection H0 as <-; exact Hsum.
  - unfold setEmergencyWithdrawalDelay in H0.
    crunch H0; injection H0 as <-; exact Hsum.
  - unfold grantRole in H0. crunch H0; injection H0 as <-; exact Hsum.
  - unfold revokeRole in H0. crunch H0; injection H0 as <-; exact Hsum.
  - unfold renounceRole in H0. crunch H0; injection H0 as <-; exact Hsum.
  - unfold transferOwnership in H0.
    crunch H0; injection H0 as <-; exact Hsum.
  - unfold acceptOwnership in H0.
    crunch H0; injection H0 as <-; exact Hsum.
  - unfold renounceOwnership in H0.
    crunch H0; injection H0 as <-; exact Hsum.
Qed.

End Sums.
Section ReachableStates.
Context {Y : Type} `{!IYieldProtocol Y} `{!Keccak256}.
Implicit Types (w : World Y) (sender : address).

Lemma reachable_sum w :
  reachable w -> totalPrincipal (store w) = principal_sum (plans (store w)).
Proof.
  induction 1 as [w (sender & token & p & mn & mx & fee & share & Hc & _)
                 | w w' Hr IH Hstep].
  - unfold constructor in Hc. crunch Hc. injection Hc as <-. cbn.
    symmetry. apply principal_sum_empty.
  - destruct Hstep as [sender c w0 w0' Hexec | w0 w0' (_ & Hst & _)].
    + eapply exec_sum; [apply reachable_store_ok| |]; eassumption.
    + rewrite Hst. exact IH.
Qed.

Lemma reachable_index_ok w : reachable w -> index_ok (store w).
Proof.
  induction 1 as [w (sender & token & p & mn & mx & fee & share & Hc & _)
                 | w w' Hr IH Hstep].
  - unfold constructor in Hc. crunch Hc. injection Hc as <-.
    intros usr. unfold owns. cbn. rewrite lookup_empty. cbn.
    split; [apply NoDup_nil_2|]. intros id.
    split; [intros Hin; inversion Hin | intros (? & ? & _); lia].
  - destruct Hstep as [sender c w0 w0' Hexec | w0 w0' (_ & Hst & _)].
    + eapply exec_index_ok; [apply reachable_store_ok| |]; eassumption.
    + rewrite Hst. exact IH.
Qed.

Lemma reachable_requests_ok w : reachable w -> requests_ok (store w).
Proof.
  induction 1 as [w (sender & token & p & mn & mx & fee & share & Hc & _)
                 | w w' Hr IH Hstep].
  - unfold constructor in Hc. crunch Hc. injection Hc as <-.
    intros wid r. cbn. rewrite lookup_empty. discriminate.
  - destruct Hstep as [sender c w0 w0' Hexec | w0 w0' (_ & Hst & _)].
    + eapply exec_requests_ok; [apply reachable_store_ok| |]; eassumption.
    + rewrite Hst. exact IH.
Qed.

(** X1.  In every reachable state the parameters lie inside the bounds that
    the constructor and the setters check: the early-withdrawal penalty is
    at most MAX_EARLY_WITHDRAWAL_PENALTY (50%), the daily limits satisfy
    0 < minDailyDeduction < maxDailyDeduction, and the user's share of
    yield is at most 10000 basis points. *)
Theorem X1_parameters_in_bounds w :
  reachable w ->
  earlyWithdrawalPenalty (store w) <= MAX_EARLY_WITHDRAWAL_PENALTY
  /\ 0 < minDailyDeduction (store w)
  /\ minDailyDeduction (store w) < maxDailyDeduction (store w)
  /\ userYieldShareBps (store w) <= 10000.
Proof.
  intros Hr. destruct (reachable_store_ok w Hr) as (H1 & H2 & H3 & H4 & _).
  auto.
Qed.

(** X2.  In every reachable state the plan that getPlan returns is
    consistent: exactly one of isActive and isCompleted holds, endDate is
    startDate plus the plan's duration, totalTarget is dailyAmount times the
    number of days of the duration, principalDeposited is dailyAmount times
    successfulDeductions, accumulatedBalance never exceeds
    principalDeposited, at most one deduction per day of the duration plus
    one has succeeded, and dailyAmount is positive. *)
Theorem X2_stored_plans_consistent `{!IYieldProtocolInfo Y} id w p :
  reachable w -> getPlan id w = Ok p -> plan_ok p.
Proof.
  intros Hr Hg. unfold getPlan in Hg. unbind Hg as u Hid.
  injection Hg as <-. apply validPlanId_Ok in Hid.
  apply plan_known; [apply reachable_store_ok; exact Hr | exact Hid].
Qed.

(** X3.  In every reachable state a plan has collected at most one
    dailyAmount more than its totalTarget: successfulDeductions is at most
    the number of days of the duration plus one, so principalDeposited is at
    most totalTarget + dailyAmount. *)
Theorem X3_collected_at_most_one_extra id w :
  reachable w -> 1 <= id -> id <= totalPlans (store w) ->
  let plan := plan_at (store w) id in
  successfulDeductions plan <= planDurationOf (duration plan) / days1 + 1
  /\ principalDeposited plan <= totalTarget plan + dailyAmount plan.
Proof.
  intros Hr H1 H2 plan.
  destruct (plan_known (store w) id (reachable_store_ok w Hr) (conj H1 H2))
    as [_ [_ _ Ht Hp _ Hc _]].
  fold plan in Ht, Hp, Hc. split; [exact Hc|].
  rewrite Ht, Hp.
  replace (dailyAmount plan * (planDurationOf (duration plan) / days1)
           + dailyAmount plan)
    with (dailyAmount plan * (planDurationOf (duration plan) / days1 + 1))
    by lia.
  apply N.mul_le_mono_l. exact Hc.
Qed.

(** X4.  In every reachable state totalPrincipal equals the sum of
    principalDeposited over all plans. *)
Theorem X4_totalPrincipal_is_sum w :
  reachable w -> totalPrincipal (store w) = principal_sum (plans (store w)).
Proof. apply reachable_sum. Qed.

(** X5.  In every reachable state getUserPlans(user) lists, without
    repetition, exactly the ids of the existing plans whose owner is
    user. *)
Theorem X5_userPlans_lists_owned_plans `{!IYieldProtocolInfo Y} usr w :
  reachable w ->
  NoDup (getUserPlans usr w)
  /\ forall id,
       id ∈ getUserPlans usr w
       <-> 1 <= id /\ id <= totalPlans (store w)
           /\ owner (plan_at (store w) id) = usr.
Proof. intros Hr. apply (reachable_index_ok w Hr usr). Qed.

(** X6.  In every reachable state an emergency withdrawal request that
    exists (its admin field is set) names an existing plan, and its user is
    the owner of that plan. *)
Theorem X6_requests_name_plan_owner wid w :
  reachable w ->
  let request := withdrawal_at (store w) wid in
  admin request <> 0 ->
  1 <= planId request /\ planId request <= totalPlans (store w)
  /\ user request = owner (plan_at (store w) (planId request)).
Proof.
  intros Hr request Ha.
  destruct (request_plan_valid _ _ (reachable_store_ok w Hr) Ha) as [H1 H2].
  split_and!; [exact H1 | exact H2 |].
  apply (reachable_requests_ok w Hr wid). apply withdrawal_known, Ha.
Qed.

(** X7.  No transaction changes the owner, dailyAmount, startDate, endDate,
    totalTarget or duration of an existing plan, reopens a completed plan, or
    lowers its successfulDeductions, missedDeductions or
    principalDeposited. *)
Theorem X7_plan_terms_are_fixed id w w' :
  step w w' -> id <= totalPlans (store w) ->
  plan_step (plan_at (store w) id) (plan_at (store w') id).
Proof.
  intros [sender c w0 w0' Hexec | w0 w0' (_ & Hst & _)] Hid.
  - apply exec_plan_step in Hexec as [_ Hs]. apply Hs, Hid.
  - rewrite Hst. apply plan_step_refl.
Qed.

End ReachableStates.

Lemma X1_parameters_in_bounds_witness :
  earlyWithdrawalPenalty (store (world_after alice_opens_plan))
  <= MAX_EARLY_WITHDRAWAL_PENALTY
  /\ 0 < minDailyDeduction (store (world_after alice_opens_plan))
  /\ minDailyDeduction (store (world_after alice_opens_plan))
     < maxDailyDeduction (store (world_after alice_opens_plan))
  /\ userYieldShareBps (store (world_after alice_opens_plan)) <= 10000.
Proof.
  assert (Hr : reachable (world_after alice_opens_plan)).
  { apply world_after_reachable. vm_compute. eexists; reflexivity. }
  exact (X1_parameters_in_bounds (world_after alice_opens_plan) Hr).
Defined.

Lemma X2_stored_plans_consistent_witness :
  plan_ok (plan_at (store (world_after one_deduction)) 1).
Proof.
  assert (Hr : reachable (world_after one_deduction)).
  { apply world_after_reachable. vm_compute. eexists; reflexivity. }
  refine (X2_stored_plans_consistent 1 (world_after one_deduction) _ Hr _).
  vm_compute. reflexivity.
Defined.

Lemma X3_collected_at_most_one_extra_witness :
  successfulDeductions (plan_at (store (world_after thirty_one_deductions)) 1)
  = 31
  /\ totalTarget (plan_at (store (world_after thirty_one_deductions)) 1) = 300
  /\ principalDeposited (plan_at (store (world_after thirty_one_deductions)) 1)
     <= totalTarget (plan_at (store (world_after thirty_one_deductions)) 1)
        + dailyAmount (plan_at (store (world_after thirty_one_deductions)) 1).
Proof.
  assert (Hr : reachable (world_after thirty_one_deductions)).
  { apply world_after_reachable. vm_compute. eexists; reflexivity. }
  split; [vm_compute; reflexivity|]. split; [vm_compute; reflexivity|].
  refine (proj2 (X3_collected_at_most_one_extra 1
                   (world_after thirty_one_deductions) Hr _ _)).
  - vm_compute. discriminate.
  - vm_compute. discriminate.
Defined.

Lemma X4_totalPrincipal_is_sum_witness :
  totalPrincipal (store (world_after one_deduction))
  = principal_sum (plans (store (world_after one_deduction))).
Proof.
  assert (Hr : reachable (world_after one_deduction)).
  { apply world_after_reachable. vm_compute. eexists; reflexivity. }
  exact (X4_totalPrincipal_is_sum (world_after one_deduction) Hr).
Defined.

Lemma X5_userPlans_lists_owned_plans_witness :
  NoDup (getUserPlans ALICE (world_after one_deduction))
  /\ forall id,
       id ∈ getUserPlans ALICE (world_after one_deduction)
       <-> 1 <= id /\ id <= totalPlans (store (world_after one_deduction))
           /\ owner (plan_at (store (world_after one_deduction)) id) = ALICE.
Proof.
  assert (Hr : reachable (world_after one_deduction)).
  { apply world_after_reachable. vm_compute. eexists; reflexivity. }
  exact (X5_userPlans_lists_owned_plans ALICE (world_after one_deduction) Hr).
Defined.

Lemma X6_requests_name_plan_owner_witness :
  1 <= planId (withdrawal_at (store (world_after emergency_scheduled))
                 (request_id T0))
  /\ planId (withdrawal_at (store (world_after emergency_scheduled))
               (request_id T0))
     <= totalPlans (store (world_after emergency_scheduled))
  /\ user (withdrawal_at (store (world_after emergency_scheduled))
             (request_id T0))
     = owner (plan_at (store (world_after emergency_scheduled))
                (planId (withdrawal_at (store (world_after emergency_scheduled))
                           (request_id T0)))).
Proof.
  assert (Hr : reachable (world_after emergency_scheduled)).
  { apply world_after_reachable. vm_compute. eexists; reflexivity. }
  refine (X6_requests_name_plan_owner (request_id T0)
            (world_after emergency_scheduled) Hr _).
  vm_compute. discriminate.
Defined.

Lemma X7_plan_terms_are_fixed_witness :
  plan_step (plan_at (store (world_after alice_opens_plan)) 1)
    (plan_at (store (world_after one_deduction)) 1).
Proof.
  refine (X7_plan_terms_are_fixed 1 (world_after alice_opens_plan)
            (world_after one_deduction) _ _).
  - apply (step_call DEPLOYER (ExecuteDeduction 1)). vm_compute. reflexivity.
  - vm_compute. discriminate.
Defined.

(** * Creating plans and collecting deductions *)

(** Decide the comparisons in the goal from the hypotheses. *)
Ltac settle_test :=
  match goal with
  | |- context [?a <? ?b] =>
      first [ rewrite (proj2 (N.ltb_lt a b)) by lia
            | rewrite (proj2 (N.ltb_ge a b)) by lia ]
  | |- context [?a <=? ?b] =>
      first [ rewrite (proj2 (N.leb_le a b)) by lia
            | rewrite (proj2 (N.leb_gt a b)) by lia ]
  | |- context [?a =? ?b] =>
      first [ rewrite (proj2 (N.eqb_eq a b)) by lia
            | rewrite (proj2 (N.eqb_neq a b)) by lia ]
  end.

Ltac settle_tests := cbn; repeat (settle_test; cbn).

Section CreatePlan.
Context {Y : Type} `{!IYieldProtocol Y} `{!Keccak256} `{!IYieldProtocolInfo Y}.
Implicit Types (w : World Y) (sender : address).

(** X8.  createPlan, called while the contract is not paused with a daily
    amount inside the limits (and no uint256 overflow in the target, the end
    date and the plan counter), returns the id totalPlans + 1; afterwards
    getPlan of that id returns a fresh active plan of the caller with
    totalTarget = dailyAmount * days and endDate = now + duration, the id is
    appended to the caller's getUserPlans list, no other plan or list
    changes, and no token moves. *)
Theorem X8_createPlan_registers_plan sender daily d w :
  paused (store w) = false ->
  minDailyDeduction (store w) <= daily ->
  daily <= maxDailyDeduction (store w) ->
  daily * (planDurationOf d / days1) <= MAX_UINT256 ->
  timestamp w + planDurationOf d <= MAX_UINT256 ->
  totalPlans (store w) + 1 <= MAX_UINT256 ->
  let id := totalPlans (store w) + 1 in
  exists w',
    createPlan sender daily d w = Ok (id, w')
    /\ totalPlans (store w') = id
    /\ getPlan id w'
       = Ok {| owner := sender; dailyAmount := daily;
               startDate := timestamp w;
               endDate := timestamp w + planDurationOf d;
               totalTarget := daily * (planDurationOf d / days1);
               accumulatedBalance := 0; principalDeposited := 0;
               yieldEarned := 0; lastDeductionDate := 0;
               successfulDeductions := 0; missedDeductions := 0;
               isActive := true; isCompleted := false; duration := d |}
    /\ getUserPlans sender w' = getUserPlans sender w ++ [id]
    /\ (forall usr, usr <> sender -> getUserPlans usr w' = getUserPlans usr w)
    /\ (forall other, other <> id ->
          plans (store w') !! other = plans (store w) !! other)
    /\ usdc w' = usdc w /\ yp w' = yp w.
Proof.
  intros Hp Hmin Hmax Ht He Hn id. subst id.
  unfold createPlan, whenNotPaused, require, add, mul. rewrite Hp. cbn.
  settle_tests. eexists. split; [reflexivity|]. cbn.
  split; [reflexivity|]. split.
  { unfold getPlan, validPlanId, require, plan_at. cbn. settle_tests.
    rewrite lookup_insert_eq. reflexivity. }
  unfold getUserPlans. cbn. split; [rewrite lookup_insert_eq; reflexivity|].
  split; [intros usr Hu; rewrite lookup_insert_ne by congruence; reflexivity|].
  split; [intros other Ho; rewrite lookup_insert_ne by congruence; reflexivity|].
  split; reflexivity.
Qed.

(** X9.  createPlan reverts with EnforcedPause while the contract is paused,
    whatever its arguments; when not paused it reverts with
    InvalidDailyAmount for a daily amount below minDailyDeduction or above
    maxDailyDeduction.  In a reachable state a daily amount of zero is
    therefore never accepted. *)
Theorem X9_createPlan_rejections sender daily d w :
  (paused (store w) = true ->
   createPlan sender daily d w = Revert EnforcedPause)
  /\ (paused (store w) = false ->
      daily < minDailyDeduction (store w)
      \/ maxDailyDeduction (store w) < daily ->
      createPlan sender daily d w = Revert InvalidDailyAmount)
  /\ (reachable w -> reverts (createPlan sender 0 d w)).
Proof.
  split; [|split].
  - intros Hp. unfold createPlan, whenNotPaused. rewrite Hp. reflexivity.
  - intros Hp Hout. unfold createPlan, whenNotPaused, require. rewrite Hp. cbn.
    replace ((daily <? minDailyDeduction (store w))
             || (maxDailyDeduction (store w) <? daily)) with true;
      [reflexivity|].
    symmetry. apply orb_true_iff.
    destruct Hout; [left | right]; apply N.ltb_lt; assumption.
  - intros Hr. destruct (reachable_store_ok w Hr) as (_ & Hmin & _).
    unfold createPlan, whenNotPaused, require.
    destruct (paused (store w)); cbn; [eexists; reflexivity|].
    replace (0 <? minDailyDeduction (store w)) with true
      by (symmetry; apply N.ltb_lt; exact Hmin).
    cbn. eexists; reflexivity.
Qed.

End CreatePlan.

Lemma erc20_approve_balances owner spender v t t' :
  erc20_approve owner spender v t = Ok t' ->
  balances t' = balances t
  /\ allowance t' owner spender = v
  /\ forall o s, (o, s) <> (owner, spender) ->
       allowance t' o s = allowance t o s.
Proof.
  unfold erc20_approve, allowance. intros H0. crunch H0. injection H0 as <-.
  cbn. split; [reflexivity|]. split.
  - rewrite lookup_insert_eq. reflexivity.
  - intros o s Hne. rewrite lookup_insert_ne by congruence. reflexivity.
Qed.

Lemma erc20_transferFrom_effects spender from to v t t' :
  erc20_transferFrom spender from to v t = Ok t' ->
  v <= balanceOf t from
  /\ (forall a, a <> from -> a <> to -> balanceOf t' a = balanceOf t a)
  /\ (to <> from -> balanceOf t' to = balanceOf t to + v
                    /\ balanceOf t' from = balanceOf t from - v)
  /\ allowance t' from spender
     = (if allowance t from spender <? MAX_UINT256
        then allowance t from spender - v
        else allowance t from spender).
Proof.
  unfold erc20_transferFrom. intros H0.
  unbind H0 as t1 H1.
  apply erc20_transfer_balances in H0 as (Hv & Hal & Hoth & Hmove & _).
  assert (Hb : balances t1 = balances t
               /\ allowance t1 from spender
                  = (if allowance t from spender <? MAX_UINT256
                     then allowance t from spender - v
                     else allowance t from spender)).
  { destruct (allowance t from spender <? MAX_UINT256) eqn:Hinf.
    - destruct (allowance t from spender <? v) eqn:Hlt; [discriminate|].
      apply erc20_approve_balances in H1 as (Hb & Ha & _). auto.
    - injection H1 as <-. split; reflexivity. }
  destruct Hb as (Hb & Ha).
  unfold balanceOf in *. rewrite Hb in *.
  split; [exact Hv|]. split; [exact Hoth|]. split; [exact Hmove|].
  unfold allowance in *. rewrite Hal. exact Ha.
Qed.

Section Deductions.
Context {Y : Type} `{!IYieldProtocol Y} `{!Keccak256} `{!IYieldProtocolInfo Y}.
Implicit Types (w : World Y) (sender : address).

(** X10.  A successful executeDeduction before the plan's end date, for an
    owner with enough balance and allowance, adds exactly dailyAmount to the
    plan's accumulatedBalance and principalDeposited and to totalPrincipal,
    counts one more successful deduction, stamps lastDeductionDate with the
    block time, and leaves the missed counter and every other plan as they
    were.  With no yield protocol configured, exactly dailyAmount moves from
    the owner's token balance to the contract's, and a finite allowance
    shrinks by dailyAmount. *)
Theorem X10_deduction_collects_dailyAmount id w w' :
  executeDeduction id w = Ok w' ->
  let plan := plan_at (store w) id in
  let plan' := plan_at (store w') id in
  timestamp w < endDate plan ->
  dailyAmount plan <= balanceOf (usdc w) (owner plan) ->
  dailyAmount plan <= allowance (usdc w) (owner plan) (this w) ->
  accumulatedBalance plan' = accumulatedBalance plan + dailyAmount plan
  /\ principalDeposited plan' = principalDeposited plan + dailyAmount plan
  /\ successfulDeductions plan' = successfulDeductions plan + 1
  /\ lastDeductionDate plan' = timestamp w
  /\ missedDeductions plan' = missedDeductions plan
  /\ yieldEarned plan' = yieldEarned plan
  /\ totalPrincipal (store w') = totalPrincipal (store w) + dailyAmount plan
  /\ (forall other, other <> id ->
        plans (store w') !! other = plans (store w) !! other)
  /\ (yieldProtocol (store w) = 0 -> owner plan <> this w ->
      balanceOf (usdc w') (owner plan)
      = balanceOf (usdc w) (owner plan) - dailyAmount plan
      /\ balanceOf (usdc w') (this w)
         = balanceOf (usdc w) (this w) + dailyAmount plan
      /\ allowance (usdc w') (owner plan) (this w)
         = (if allowance (usdc w) (owner plan) (this w) <? MAX_UINT256
            then allowance (usdc w) (owner plan) (this w) - dailyAmount plan
            else allowance (usdc w) (owner plan) (this w))).
Proof.
  intros H0 plan plan'. subst plan plan'. intros Hearly Hbal Hall.
  unfold executeDeduction in H0.
  crunch H0; injection H0 as <-; arith_facts; check_facts; try lia;
    try (match goal with
         | Hb : _ || _ = true |- _ =>
             apply orb_true_iff in Hb as [Hb|Hb]; bool_facts; lia
         end);
    cbn; yield_frames; unfold plan_at; cbn; rewrite ?lookup_insert_eq; cbn;
    fold (plan_at (store w) id).
  all: split_and!; try reflexivity;
    try (intros other Ho; rewrite lookup_insert_ne by congruence;
         reflexivity).
  all: try (intros Hz; match goal with
                       | Hn : yieldProtocol _ <> 0 |- _ =>
                           contradiction
                       end).
  all: intros _ Hne;
    match goal with
    | Ht : erc20_transferFrom _ _ _ _ _ = Ok _ |- _ =>
        apply erc20_transferFrom_effects in Ht as (_ & _ & Hmove & Ha);
        destruct (Hmove (not_eq_sym Hne)) as [Hto Hfrom]
    end;
    split_and!; assumption.
Qed.

(** X11.  In a reachable state a completed plan is closed to the normal
    paths, whatever balance it still holds: executeDeduction reverts with
    PlanNotActive (when the contract is not paused), withdraw by the owner
    reverts with PlanNotActive for every amount, the batch skips the plan
    and getNextDeductionDate returns 0. *)
Theorem X11_completed_plan_is_closed id amt w :
  reachable w -> 1 <= id -> id <= totalPlans (store w) ->
  let plan := plan_at (store w) id in
  isCompleted plan = true ->
  (paused (store w) = false -> executeDeduction id w = Revert PlanNotActive)
  /\ withdraw (owner plan) id amt w = Revert PlanNotActive
  /\ batchItem id w = Ok w
  /\ getNextDeductionDate id w = Ok 0.
Proof.
  intros Hr H1 H2 plan Hdone. subst plan.
  destruct (plan_known (store w) id (reachable_store_ok w Hr) (conj H1 H2))
    as [_ [Hflags _ _ _ _ _ _]].
  rewrite Hdone in Hflags. cbn in Hflags.
  split_and!.
  - intros Hp.
    unfold executeDeduction, validPlanId, whenNotPaused, require.
    settle_tests. rewrite Hp, Hflags. reflexivity.
  - unfold withdraw, validPlanId, onlyPlanOwner, require.
    settle_tests. rewrite Hflags, Hdone. reflexivity.
  - unfold batchItem. settle_tests. rewrite Hflags. reflexivity.
  - unfold getNextDeductionDate, validPlanId, require.
    settle_tests. rewrite Hflags. reflexivity.
Qed.

(** X12.  With no yield protocol configured and away from the exact end
    date, the batch does for a single plan what executeDeduction does:
    whenever executeDeduction(id) succeeds, executeDeductionsBatch([id])
    succeeds with the same resulting state, token ledger and events. *)
Theorem X12_batch_of_one_agrees id w w' :
  yieldProtocol (store w) = 0 ->
  timestamp w <> endDate (plan_at (store w) id) ->
  executeDeduction id w = Ok w' ->
  executeDeductionsBatch [id] w = Ok w'.
Proof.
  intros Hz Hne H0. unfold executeDeduction in H0. rewrite Hz in H0.
  unfold executeDeductionsBatch, batchLoop, batchItem.
  crunch H0; injection H0 as <-;
    repeat match goal with
           | Hq : _ = Ok _ |- _ => rewrite Hq; cbn
           | Hq : _ = true |- _ => rewrite Hq; cbn
           | Hq : _ = false |- _ => rewrite Hq; cbn
           end;
    arith_facts; check_facts; cbn;
    repeat match goal with
           | Hq : _ = false |- _ => rewrite Hq; cbn
           | Hq : _ = true |- _ => rewrite Hq; cbn
           end;
    unfold sub; unfold days1, hours1 in *; settle_tests; rewrite ?Hz; cbn;
    try reflexivity.
Qed.

(** X13.  The batch has no one-hour guard.  For a running plan whose last
    deduction ran within the last hour, at a time inside the window of the
    next expected deduction: executeDeduction reverts with
    DeductionAlreadyExecuted, while executeDeductionsBatch with the same
    plan id collects another dailyAmount. *)
Theorem X13_batch_has_no_hour_guard id w tok :
  yieldProtocol (store w) = 0 ->
  paused (store w) = false ->
  1 <= id -> id <= totalPlans (store w) ->
  let plan := plan_at (store w) id in
  let expected := startDate plan + successfulDeductions plan * days1 in
  isActive plan = true -> isCompleted plan = false ->
  timestamp w < endDate plan ->
  0 < lastDeductionDate plan ->
  timestamp w <= lastDeductionDate plan + hours1 ->
  lastDeductionDate plan < expected ->
  hours1 <= expected -> expected - hours1 <= timestamp w ->
  dailyAmount plan <= balanceOf (usdc w) (owner plan) ->
  dailyAmount plan <= allowance (usdc w) (owner plan) (this w) ->
  erc20_transferFrom (this w) (owner plan) (this w) (dailyAmount plan)
    (usdc w) = Ok tok ->
  successfulDeductions plan * days1 <= MAX_UINT256 ->
  expected <= MAX_UINT256 ->
  lastDeductionDate plan + hours1 <= MAX_UINT256 ->
  accumulatedBalance plan + dailyAmount plan <= MAX_UINT256 ->
  principalDeposited plan + dailyAmount plan <= MAX_UINT256 ->
  successfulDeductions plan + 1 <= MAX_UINT256 ->
  totalPrincipal (store w) + dailyAmount plan <= MAX_UINT256 ->
  executeDeduction id w = Revert DeductionAlreadyExecuted
  /\ exists w',
       executeDeductionsBatch [id] w = Ok w'
       /\ successfulDeductions (plan_at (store w') id)
          = successfulDeductions plan + 1
       /\ principalDeposited (plan_at (store w') id)
          = principalDeposited plan + dailyAmount plan
       /\ lastDeductionDate (plan_at (store w') id) = timestamp w
       /\ usdc w' = tok.
Proof.
  intros Hz Hp H1 H2 plan expected. subst plan expected.
  intros Hact Hdone Hearly Hlast Hrecent Hdue Hwin Hopen Hbal Hall Htok
    Hk Hexp Hl Hacc Hpd Hn Htp.
  unfold days1, hours1 in *. split.
  - unfold executeDeduction, validPlanId, whenNotPaused, require,
      expectedDeductionDate, add, sub, mul.
    unfold days1, hours1. rewrite Hp, Hact, Hdone. settle_tests. reflexivity.
  - unfold executeDeductionsBatch, batchLoop, batchItem, whenNotPaused,
      require, expectedDeductionDate, add, sub, mul.
    unfold days1, hours1. rewrite Hp, Hact, Hdone. settle_tests.
    rewrite Htok. settle_tests. rewrite ?Hz. cbn.
    eexists. split; [reflexivity|]. unfold plan_at. cbn.
    rewrite lookup_insert_eq. cbn. split_and!; reflexivity.
Qed.

Lemma batchItem_reverts id w e :
  batchItem id w = Revert e -> e ∈ batch_reverts.
Proof.
  unfold batchItem, expectedDeductionDate, erc20_transferFrom, erc20_transfer,
    erc20_approve, add, sub, mul.
  intros H0. crunch H0; injection H0 as <-; unfold batch_reverts;
    set_solver.
Qed.

Lemma batchLoop_reverts ids : forall w e,
  batchLoop ids w = Revert e -> e ∈ batch_reverts.
Proof.
  induction ids as [|id ids IH]; cbn; intros w e H0; [discriminate|].
  destruct (batchItem id w) as [w1|e1] eqn:Hitem; cbn in H0.
  - eapply IH, H0.
  - injection H0 as <-. eapply batchItem_reverts, Hitem.
Qed.

Lemma batchLoop_skips ids : forall w,
  Forall (batch_skips (store w)) ids -> batchLoop ids w = Ok w.
Proof.
  induction ids as [|id ids IH]; cbn; intros w Hall; [reflexivity|].
  apply Forall_cons in Hall as [Hskip Hall].
  assert (Hitem : batchItem id w = Ok w).
  { unfold batchItem.
    destruct Hskip as [-> | [Hlt | [Hin | Hdone]]].
    - reflexivity.
    - apply N.ltb_lt in Hlt. rewrite Hlt, orb_true_r. reflexivity.
    - rewrite Hin. cbn. destruct (_ || _); reflexivity.
    - rewrite Hdone, orb_true_r. destruct (_ || _); reflexivity. }
  rewrite Hitem. cbn. apply IH, Hall.
Qed.

(** X14.  executeDeductionsBatch does not reject plans: it never reverts
    with InvalidPlanId, PlanNotActive, DeductionAlreadyExecuted or
    InvalidParameter, its only reverts being the pause, arithmetic panics,
    failed external calls and token errors.  A batch made only of ids that
    are out of range or of plans that are not running (the empty batch among
    them) succeeds and, with no yield protocol configured, changes
    nothing. *)
Theorem X14_batch_skips_instead_of_rejecting ids w :
  (forall e, executeDeductionsBatch ids w = Revert e -> e ∈ batch_reverts)
  /\ (paused (store w) = false -> yieldProtocol (store w) = 0 ->
      Forall (batch_skips (store w)) ids ->
      executeDeductionsBatch ids w = Ok w).
Proof.
  split.
  - intros e. unfold executeDeductionsBatch. intros H0.
    destruct (whenNotPaused (store w)) as [u|e0] eqn:Hp; cbn in H0.
    2:{ unfold whenNotPaused, require in Hp.
        destruct (negb (paused (store w))); [discriminate|].
        injection Hp as <-. injection H0 as <-.
        unfold batch_reverts. set_solver. }
    destruct (batchLoop ids w) as [w1|e1] eqn:Hloop; cbn in H0.
    2:{ injection H0 as <-. eapply batchLoop_reverts, Hloop. }
    unfold _depositToYield, call, extcall, erc20_approve, add, sub in H0.
    crunch H0; injection H0 as <-; unfold batch_reverts; set_solver.
  - intros Hp Hz Hall. unfold executeDeductionsBatch, whenNotPaused, require.
    rewrite Hp. cbn. rewrite (batchLoop_skips _ _ Hall). cbn.
    rewrite Hz. reflexivity.
Qed.

End Deductions.

Lemma X8_createPlan_registers_plan_witness :
  exists w',
    createPlan ALICE 10 ONE_MONTH (world_after []) = Ok (1, w')
    /\ getUserPlans ALICE w' = [1]
    /\ res_map totalTarget (getPlan 1 w') = Ok 300.
Proof.
  destruct (X8_createPlan_registers_plan ALICE 10 ONE_MONTH (world_after []))
    as (w' & Hc & _ & Hg & Hu & _); try (vm_compute; discriminate).
  - vm_compute. reflexivity.
  - assert (Hn : totalPlans (store (world_after [])) + 1 = 1)
      by (vm_compute; reflexivity).
    rewrite Hn in Hc, Hg, Hu.
    exists w'. split; [exact Hc|]. split; [exact Hu|].
    rewrite Hg. vm_compute. reflexivity.
Defined.

Lemma X9_createPlan_rejections_witness :
  createPlan ALICE 10 ONE_MONTH (world_after paused_with_balance)
  = Revert EnforcedPause
  /\ createPlan ALICE 0 ONE_MONTH (world_after []) = Revert InvalidDailyAmount.
Proof.
  split.
  - refine (proj1 (X9_createPlan_rejections ALICE 10 ONE_MONTH
                     (world_after paused_with_balance)) _).
    vm_compute. reflexivity.
  - refine (proj1 (proj2 (X9_createPlan_rejections ALICE 0 ONE_MONTH
                            (world_after []))) _ _).
    + vm_compute. reflexivity.
    + left. vm_compute. reflexivity.
Defined.

Lemma X10_deduction_collects_dailyAmount_witness :
  accumulatedBalance (plan_at (store (world_after one_deduction)) 1)
  = accumulatedBalance (plan_at (store (world_after alice_opens_plan)) 1)
    + dailyAmount (plan_at (store (world_after alice_opens_plan)) 1).
Proof.
  refine (proj1 (X10_deduction_collects_dailyAmount 1
                   (world_after alice_opens_plan) (world_after one_deduction)
                   _ _ _ _)).
  - vm_compute. reflexivity.
  - vm_compute. reflexivity.
  - vm_compute. discriminate.
  - vm_compute. discriminate.
Defined.

Lemma X11_completed_plan_is_closed_witness :
  withdraw (owner (plan_at (store (world_after matured_plan)) 1)) 1 5
    (world_after matured_plan)
  = Revert PlanNotActive.
Proof.
  assert (Hr : reachable (world_after matured_plan)).
  { apply world_after_reachable. vm_compute. eexists; reflexivity. }
  refine (proj1 (proj2 (X11_completed_plan_is_closed 1 5
                          (world_after matured_plan) Hr _ _ _))).
  - vm_compute. discriminate.
  - vm_compute. discriminate.
  - vm_compute. reflexivity.
Defined.

Lemma X12_batch_of_one_agrees_witness :
  executeDeductionsBatch [1] (world_after alice_opens_plan)
  = Ok (world_after one_deduction).
Proof.
  refine (X12_batch_of_one_agrees 1 (world_after alice_opens_plan)
            (world_after one_deduction) _ _ _).
  - vm_compute. reflexivity.
  - vm_compute. discriminate.
  - vm_compute. reflexivity.
Defined.

Lemma X13_batch_has_no_hour_guard_witness :
  executeDeduction 1 (world_after late_first_deduction)
  = Revert DeductionAlreadyExecuted
  /\ exists w',
       executeDeductionsBatch [1] (world_after late_first_deduction) = Ok w'
       /\ successfulDeductions (plan_at (store w') 1)
          = successfulDeductions
              (plan_at (store (world_after late_first_deduction)) 1) + 1
       /\ principalDeposited (plan_at (store w') 1)
          = principalDeposited
              (plan_at (store (world_after late_first_deduction)) 1)
            + dailyAmount
                (plan_at (store (world_after late_first_deduction)) 1)
       /\ lastDeductionDate (plan_at (store w') 1)
          = timestamp (world_after late_first_deduction)
       /\ usdc w'
          = usdc (world_after
                    (late_first_deduction
                     ++ [ Tx DEPLOYER (ExecuteDeductionsBatch [1]) ])).
Proof.
  refine (X13_batch_has_no_hour_guard 1 (world_after late_first_deduction)
            (usdc (world_after
                     (late_first_deduction
                      ++ [ Tx DEPLOYER (ExecuteDeductionsBatch [1]) ])))
            _ _ _ _ _ _ _ _ _ _ _ _ _ _ _ _ _ _ _ _ _ _);
    try (vm_compute; reflexivity); vm_compute; discriminate.
Defined.

Lemma X14_batch_skips_instead_of_rejecting_witness :
  executeDeductionsBatch [0; 7] (world_after alice_opens_plan)
  = Ok (world_after alice_opens_plan).
Proof.
  refine (proj2 (X14_batch_skips_instead_of_rejecting [0; 7]
                   (world_after alice_opens_plan)) _ _ _).
  - vm_compute. reflexivity.
  - vm_compute. reflexivity.
  - constructor; [left; reflexivity|].
    constructor; [right; left; vm_compute; reflexivity|].
    constructor.
Defined.

(** * Withdrawing and claiming *)

Section Withdrawals.
Context {Y : Type} `{!IYieldProtocol Y} `{!Keccak256} `{!IYieldProtocolInfo Y}.
Implicit Types (w : World Y) (sender : address).

(** The plan that withdraw stores. *)
Lemma withdraw_plan sender id amt w paid w' :
  withdraw sender id amt w = Ok (paid, w') ->
  let plan := plan_at (store w) id in
  let available := accumulatedBalance plan + yieldEarned plan in
  let requested := if amt =? 0 then available else amt in
  let pw := if 0 <? available
            then accumulatedBalance plan * requested / available
            else requested in
  let yw := if 0 <? available
            then yieldEarned plan * requested / available
            else 0 in
  let plan1 := set_yieldEarned (yieldEarned plan - yw)
                 (set_accumulatedBalance (accumulatedBalance plan - pw) plan) in
  requested <= available
  /\ pw <= accumulatedBalance plan /\ yw <= yieldEarned plan
  /\ plan_at (store w') id
     = (if (accumulatedBalance plan - pw =? 0) && (yieldEarned plan - yw =? 0)
        then set_flags false true plan1 else plan1).
Proof.
  intros H0. cbn zeta. unfold withdraw in H0.
  crunch H0; injection H0 as <- <-; arith_facts; check_facts;
    cbn; yield_frames; unfold plan_at; cbn; rewrite lookup_insert_eq; cbn;
    fold (plan_at (store w) id);
    set (requested := if amt =? 0 then _ else _) in *; clearbody requested;
    settle_tests;
    (split_and!; [assumption | first [assumption | lia]
                 | first [assumption | lia] | reflexivity]).
Qed.

Lemma split_rounding a b n r :
  0 < n -> a * r + b * r = n * r ->
  a * r / n + b * r / n <= r /\ r <= a * r / n + b * r / n + 1.
Proof.
  intros Hn Hsum.
  pose proof (N.div_mod (a * r) n ltac:(lia)) as Ha.
  pose proof (N.div_mod (b * r) n ltac:(lia)) as Hb.
  pose proof (N.mod_lt (a * r) n ltac:(lia)) as Hra.
  pose proof (N.mod_lt (b * r) n ltac:(lia)) as Hrb.
  set (qa := a * r / n) in *. set (qb := b * r / n) in *.
  set (ra := (a * r) mod n) in *. set (rb := (b * r) mod n) in *.
  assert (Hq : n * (qa + qb) + (ra + rb) = n * r) by lia.
  split.
  - destruct (N.le_gt_cases (qa + qb) r) as [|Hgt]; [assumption|].
    assert (n * (r + 1) <= n * (qa + qb)) by (apply N.mul_le_mono_l; lia).
    lia.
  - destruct (N.le_gt_cases r (qa + qb + 1)) as [|Hgt]; [assumption|].
    assert (n * (qa + qb + 2) <= n * r) by (apply N.mul_le_mono_l; lia).
    lia.
Qed.

(** X15.  A full withdrawal, withdraw(id, 0) or withdraw of exactly the
    available balance, leaves the plan with no accumulatedBalance and no
    yieldEarned and closes it (isActive = false, isCompleted = true); this
    holds as well for a plan that holds nothing.  A withdrawal that leaves
    something in the plan does not touch the flags. *)
Theorem X15_full_withdrawal_closes_plan sender id amt w paid w' :
  withdraw sender id amt w = Ok (paid, w') ->
  let plan := plan_at (store w) id in
  let plan' := plan_at (store w') id in
  (amt = 0 \/ amt = accumulatedBalance plan + yieldEarned plan ->
   accumulatedBalance plan' = 0 /\ yieldEarned plan' = 0
   /\ isActive plan' = false /\ isCompleted plan' = true)
  /\ (accumulatedBalance plan' <> 0 \/ yieldEarned plan' <> 0 ->
      isActive plan' = isActive plan
      /\ isCompleted plan' = isCompleted plan).
Proof.
  intros H0 plan plan'. subst plan plan'.
  apply withdraw_plan in H0 as (Hreq & Hpw & Hyw & ->).
  set (plan := plan_at (store w) id) in *.
  set (available := accumulatedBalance plan + yieldEarned plan) in *.
  split.
  - intros Hfull.
    assert (Hr : (if amt =? 0 then available else amt) = available).
    { destruct Hfull as [-> | ->]; [reflexivity|].
      fold available. destruct (available =? 0); reflexivity. }
    rewrite Hr in *.
    assert (Hz : accumulatedBalance plan
                 - (if 0 <? available
                    then accumulatedBalance plan * available / available
                    else available) = 0
                 /\ yieldEarned plan
                    - (if 0 <? available
                       then yieldEarned plan * available / available
                       else 0) = 0).
    { destruct (N.ltb_spec 0 available) as [Hpos | Hzero].
      - rewrite !N.div_mul by lia. lia.
      - unfold available in *. lia. }
    destruct Hz as [-> ->]. cbn. auto.
  - destruct ((_ =? 0) && (_ =? 0)) eqn:Hboth; cbn.
    + apply andb_true_iff in Hboth as [H1 H2].
      apply N.eqb_eq in H1, H2. intros [Hne | Hne]; contradiction.
    + auto.
Qed.

(** X16.  A withdrawal from a plan that holds something splits the
    requested amount between principal and yield in proportion, each part
    rounded down: accumulatedBalance falls by
    accumulatedBalance * requested / available and yieldEarned by
    yieldEarned * requested / available.  The two parts add up to the
    requested amount or to one unit less, while the payout and the penalty
    are computed from the requested amount itself. *)
Theorem X16_withdrawal_split_rounds_down sender id amt w paid w' :
  withdraw sender id amt w = Ok (paid, w') ->
  let plan := plan_at (store w) id in
  let plan' := plan_at (store w') id in
  let available := accumulatedBalance plan + yieldEarned plan in
  let requested := if amt =? 0 then available else amt in
  0 < available ->
  let principalPart := accumulatedBalance plan * requested / available in
  let yieldPart := yieldEarned plan * requested / available in
  accumulatedBalance plan' = accumulatedBalance plan - principalPart
  /\ yieldEarned plan' = yieldEarned plan - yieldPart
  /\ principalPart <= accumulatedBalance plan
  /\ yieldPart <= yieldEarned plan
  /\ principalPart + yieldPart <= requested
  /\ requested <= principalPart + yieldPart + 1
  /\ principalDeposited plan' = principalDeposited plan.
Proof.
  intros H0 plan plan' available requested Hpos principalPart yieldPart.
  subst plan'.
  apply withdraw_plan in H0 as (Hreq & Hpw & Hyw & ->).
  fold plan in Hreq, Hpw, Hyw |- *. fold available in Hreq, Hpw, Hyw |- *.
  fold requested in Hreq, Hpw, Hyw |- *.
  rewrite (proj2 (N.ltb_lt 0 available) Hpos) in *.
  fold principalPart in Hpw |- *. fold yieldPart in Hyw |- *.
  assert (Hsplit : principalPart + yieldPart <= requested
                   /\ requested <= principalPart + yieldPart + 1).
  { apply split_rounding; [exact Hpos|]. unfold available. lia. }
  destruct Hsplit as [Hs1 Hs2].
  destruct ((_ =? 0) && (_ =? 0)); cbn; split_and!; auto.
Qed.

(** X17.  In a reachable state the early-withdrawal penalty never takes
    more than half: a successful withdraw pays out at least half of the
    requested amount, and never more than the requested amount. *)
Theorem X17_withdraw_pays_at_least_half sender id amt w paid w' :
  reachable w ->
  withdraw sender id amt w = Ok (paid, w') ->
  let plan := plan_at (store w) id in
  let available := accumulatedBalance plan + yieldEarned plan in
  let requested := if amt =? 0 then available else amt in
  paid <= requested /\ requested <= 2 * paid.
Proof.
  intros Hr H0 plan available requested.
  destruct (reachable_store_ok w Hr) as (Hpen & _).
  apply withdraw_effects in H0 as (Hpaid & _ & Hle & _).
  fold plan in Hpaid, Hle. fold available in Hpaid, Hle.
  fold requested in Hpaid, Hle. subst paid.
  split; [apply N.le_sub_l|].
  destruct (timestamp w <? endDate plan); [|lia].
  assert (Hhalf : 2 * (requested * earlyWithdrawalPenalty (store w) / 10000)
                  <= requested).
  { unfold MAX_EARLY_WITHDRAWAL_PENALTY in Hpen.
    assert (Hm : requested * earlyWithdrawalPenalty (store w)
                 <= requested * 5000) by (apply N.mul_le_mono_l; exact Hpen).
    pose proof (N.Div0.div_le_mono _ _ 10000 Hm) as Hd.
    assert (H5 : requested * 5000 / 10000 = requested / 2).
    { replace 10000 with (5000 * 2) by reflexivity.
      rewrite <- N.Div0.div_div. rewrite N.div_mul by lia. reflexivity. }
    rewrite H5 in Hd.
    pose proof (N.Div0.mul_div_le requested 2). lia. }
  lia.
Qed.

Lemma distribute_effects id w y w1 :
  _calculateAndDistributeYield id w = Ok (y, w1) ->
  let plan := plan_at (store w) id in
  (y = 0 /\ w1 = w)
  \/ w1 = on_store
            (fun s => set_totalUserYield (totalUserYield (store w) + y)
                        (write_plan id
                           (set_yieldEarned (yieldEarned plan + y) plan) s))
            w.
Proof.
  unfold _calculateAndDistributeYield. intros H0. cbn zeta.
  crunch H0; injection H0 as <- <-; arith_facts; auto.
Qed.

(** X18.  A successful claimYield of an amount y adds y to the plan's
    yieldEarned and to totalUserYield and leaves accumulatedBalance,
    principalDeposited and the flags alone.  When y is positive the same y
    is also transferred to the plan owner, so that the claimed yield is both
    paid out and still credited to the plan; the transfer starts from the
    token ledger that pulling y from the yield protocol, after the yield has
    been credited, leaves behind.  When y is zero no token moves. *)
Theorem X18_claimYield_pays_and_credits sender id w y w' :
  claimYield sender id w = Ok (y, w') ->
  let plan := plan_at (store w) id in
  let plan' := plan_at (store w') id in
  yieldEarned plan' = yieldEarned plan + y
  /\ totalUserYield (store w') = totalUserYield (store w) + y
  /\ accumulatedBalance plan' = accumulatedBalance plan
  /\ principalDeposited plan' = principalDeposited plan
  /\ isActive plan' = isActive plan
  /\ isCompleted plan' = isCompleted plan
  /\ (y = 0 -> usdc w' = usdc w /\ yp w' = yp w)
  /\ (0 < y ->
      exists tok1,
        erc20_transfer (this w) (owner plan) y tok1 = Ok (usdc w')
        /\ (y <= balanceOf (usdc w) (this w) -> tok1 = usdc w)
        /\ (owner plan <> this w ->
            balanceOf (usdc w') (owner plan)
            = balanceOf tok1 (owner plan) + y)
        /\ exists w2,
             pullFromYieldIfNeeded y
               (on_store
                  (fun s => set_totalUserYield (totalUserYield (store w'))
                              (write_plan id plan' s)) w) = Ok w2
             /\ tok1 = usdc w2).
Proof.
  intros H0 plan plan'. subst plan'. unfold claimYield in H0.
  unbind H0 as u1 Hid. unbind H0 as u2 Hown. unbind H0 as u3 Hact.
  unbind H0 as yw Hcalc. destruct yw as [y0 w1]. cbn in H0.
  fold plan in H0.
  assert (Hplan : forall s tys ye,
            plan_at (set_totalYieldShares tys
                       (set_totalUserYield ye
                          (write_plan id
                             (set_yieldEarned (yieldEarned plan + y0) plan)
                             s))) id
            = set_yieldEarned (yieldEarned plan + y0) plan).
  { intros. unfold plan_at. cbn. rewrite lookup_insert_eq. reflexivity. }
  assert (Hplan0 : forall s ye,
            plan_at (set_totalUserYield ye
                       (write_plan id
                          (set_yieldEarned (yieldEarned plan + y0) plan) s))
              id
            = set_yieldEarned (yieldEarned plan + y0) plan).
  { intros. unfold plan_at. cbn. rewrite lookup_insert_eq. reflexivity. }
  destruct (y0 =? 0) eqn:Hy.
  - injection H0 as <- <-. apply N.eqb_eq in Hy. subst y0.
    apply distribute_effects in Hcalc as [[_ ->] | ->]; fold plan.
    + rewrite !N.add_0_r. split_and!; try reflexivity; [auto | lia].
    + cbn. rewrite Hplan0. cbn.
      split_and!; try reflexivity; [auto | lia].
  - unbind H0 as w2 Hpull. unbind H0 as tok Htok. injection H0 as <- <-.
    apply N.eqb_neq in Hy.
    pose proof Hpull as Hframe.
    apply pullFromYieldIfNeeded_frame in Hframe as (Hthis & _ & tys & Hst).
    apply distribute_effects in Hcalc as [[Hz _] | ->]; [contradiction|].
    fold plan in Hst, Hpull. cbn in Hst, Hthis. cbn. rewrite Hst.
    rewrite Hplan. cbn. rewrite Hthis in Htok.
    split_and!; try reflexivity; [lia|]. intros _.
    exists (usdc w2). split; [exact Htok|]. split.
    + intros Hle. rewrite pullFromYieldIfNeeded_skipped in Hpull by (right; exact Hle).
      injection Hpull as <-. reflexivity.
    + split.
      * intros Hne.
        apply erc20_transfer_balances in Htok as (_ & _ & _ & Hmove & _).
        apply Hmove. exact Hne.
      * exists w2. split; [exact Hpull | reflexivity].
Qed.

End Withdrawals.

Lemma X15_full_withdrawal_closes_plan_witness :
  accumulatedBalance (plan_at (store (world_after alice_opens_plan)) 1) = 0
  /\ isCompleted
       (plan_at (store (world_after
                          (alice_opens_plan ++ [ Tx ALICE (Withdraw 1 0) ])))
          1) = true.
Proof.
  split; [vm_compute; reflexivity|].
  assert (Hw : withdraw ALICE 1 0 (world_after alice_opens_plan)
               = Ok (0, world_after
                          (alice_opens_plan ++ [ Tx ALICE (Withdraw 1 0) ])))
    by (vm_compute; reflexivity).
  refine (proj2 (proj2 (proj2 (proj1 (X15_full_withdrawal_closes_plan
                                        _ _ _ _ _ _ Hw) _)))).
  left. reflexivity.
Defined.

Lemma X16_withdrawal_split_rounds_down_witness :
  accumulatedBalance
    (plan_at (store (world_after (yield_claimed ++ [ Tx ALICE (Withdraw 1 7) ])))
       1) = 994
  /\ yieldEarned
       (plan_at (store (world_after
                          (yield_claimed ++ [ Tx ALICE (Withdraw 1 7) ]))) 1)
     = 20.
Proof.
  assert (Hw : withdraw ALICE 1 7 (world_after yield_claimed)
               = Ok (7, world_after
                          (yield_claimed ++ [ Tx ALICE (Withdraw 1 7) ])))
    by (vm_compute; reflexivity).
  assert (Hpos : 0 < accumulatedBalance (plan_at (store (world_after yield_claimed)) 1)
                     + yieldEarned (plan_at (store (world_after yield_claimed)) 1))
    by (vm_compute; reflexivity).
  destruct (X16_withdrawal_split_rounds_down _ _ _ _ _ _ Hw Hpos)
    as (Ha & Hy & _).
  split.
  - rewrite Ha. vm_compute. reflexivity.
  - rewrite Hy. vm_compute. reflexivity.
Defined.

Lemma X17_withdraw_pays_at_least_half_witness :
  withdraw ALICE 1 0 (world_after one_deduction)
  = Ok (9, world_after (one_deduction ++ [ Tx ALICE (Withdraw 1 0) ]))
  /\ 9 <= 10 /\ 10 <= 2 * 9.
Proof.
  assert (Hr : reachable (world_after one_deduction)).
  { apply world_after_reachable. vm_compute. eexists; reflexivity. }
  assert (Hw : withdraw ALICE 1 0 (world_after one_deduction)
               = Ok (9, world_after
                          (one_deduction ++ [ Tx ALICE (Withdraw 1 0) ])))
    by (vm_compute; reflexivity).
  split; [exact Hw|].
  assert (Hq : accumulatedBalance (plan_at (store (world_after one_deduction)) 1)
               + yieldEarned (plan_at (store (world_after one_deduction)) 1)
               = 10) by (vm_compute; reflexivity).
  pose proof (X17_withdraw_pays_at_least_half _ _ _ _ _ _ Hr Hw) as Hhalf.
  cbv zeta in Hhalf. rewrite Hq in Hhalf. exact Hhalf.
Defined.

Lemma X18_claimYield_pays_and_credits_witness :
  yieldEarned (plan_at (store (world_after yield_claimed)) 1)
  = yieldEarned (plan_at (store (world_after yield_funded)) 1) + 20
  /\ balanceOf (usdc (world_after yield_claimed)) ALICE
     = balanceOf (usdc (world_after yield_funded)) ALICE + 20.
Proof.
  assert (Hc : claimYield ALICE 1 (world_after yield_funded)
               = Ok (20, world_after yield_claimed))
    by (vm_compute; reflexivity).
  split.
  - exact (proj1 (X18_claimYield_pays_and_credits _ _ _ _ _ Hc)).
  - vm_compute. reflexivity.
Defined.

(** * Yield bookkeeping and the views *)

Section YieldBooks.
Context {Y : Type} `{!IYieldProtocol Y} `{!Keccak256} `{!IYieldProtocolInfo Y}.
Implicit Types (w : World Y) (sender : address).

(** X19.  A successful harvestYield either changes nothing (no protocol is
    configured, the harvest interval has not passed, or the protocol's
    balance does not exceed totalPrincipal), or it books the whole surplus
    yieldBalance - totalPrincipal: totalUserYield grows by
    surplus * userYieldShareBps / 10000, totalProtocolYield by the rest of
    the surplus (protocolFeeBps plays no part), lastYieldHarvest becomes the
    block time, and totalPrincipal and all plans stay as they were. *)
Theorem X19_harvest_books_the_surplus sender w w' :
  harvestYield sender w = Ok w' ->
  let s := store w in
  (w' = w
   /\ (yieldProtocol s = 0
       \/ timestamp w < lastYieldHarvest s + yieldHarvestInterval s
       \/ exists yieldBalance,
            call (yieldProtocol s) (yp w)
              (yp_getBalance (yieldProtocol s) (yp w, usdc w))
            = Ok yieldBalance
            /\ yieldBalance <= totalPrincipal s))
  \/ exists yieldBalance,
       call (yieldProtocol s) (yp w)
         (yp_getBalance (yieldProtocol s) (yp w, usdc w))
       = Ok yieldBalance
       /\ totalPrincipal s < yieldBalance
       /\ lastYieldHarvest s + yieldHarvestInterval s <= timestamp w
       /\ let surplus := yieldBalance - totalPrincipal s in
          let userYield := surplus * userYieldShareBps s / 10000 in
          userYield <= surplus
          /\ totalUserYield (store w') = totalUserYield s + userYield
          /\ totalProtocolYield (store w')
             = totalProtocolYield s + (surplus - userYield)
          /\ lastYieldHarvest (store w') = timestamp w
          /\ totalPrincipal (store w') = totalPrincipal s
          /\ plans (store w') = plans s.
Proof.
  intros H0. cbn zeta. unfold harvestYield in H0.
  unbind H0 as u Hrole.
  destruct (yieldProtocol (store w) =? 0) eqn:Hz.
  { injection H0 as <-. left. apply N.eqb_eq in Hz. auto. }
  unbind H0 as healthy Hh. unbind H0 as u2 Hreq. unbind H0 as due Hdue.
  apply add_Ok in Hdue as [-> Hdue].
  destruct (N.ltb_spec (timestamp w)
              (lastYieldHarvest (store w) + yieldHarvestInterval (store w)))
    as [Hearly | Hlate].
  { injection H0 as <-. left. auto. }
  unbind H0 as yieldBalance Hbal.
  destruct (N.leb_spec yieldBalance (totalPrincipal (store w))) as [Hno | Hyes].
  { injection H0 as <-. left. split; [reflexivity|]. right. right. eauto. }
  right. exists yieldBalance.
  unbind H0 as surplus Hs. apply sub_Ok in Hs as [-> _].
  unbind H0 as m Hm. apply mul_Ok in Hm as [-> _].
  unbind H0 as protocolYield Hp. apply sub_Ok in Hp as [-> Hle].
  unbind H0 as w1 Hw1.
  assert (Hst : exists tys, store w1 = set_totalYieldShares tys (store w)).
  { destruct (0 <? yieldBalance - totalPrincipal (store w)).
    - apply _withdrawFromYield_frame in Hw1 as (_ & _ & Hst). exact Hst.
    - injection Hw1 as <-. exists (totalYieldShares (store w)).
      destruct (store w); reflexivity. }
  destruct Hst as [tys Hst].
  unbind H0 as tuy Htuy. apply add_Ok in Htuy as [-> _].
  unbind H0 as tpy Htpy. apply add_Ok in Htpy as [-> _].
  injection H0 as <-. cbn. rewrite Hst. cbn.
  split_and!; auto.
Qed.

(** X20.  A deposit that the yield protocol rejects does not fail the
    caller: when the protocol's deposit reverts, _depositToYield succeeds,
    revokes the approval it had just given and leaves the storage, the
    protocol, the token balances and the event log as they were. *)
Theorem X20_rejected_deposit_is_absorbed amt w tok1 :
  let a := yieldProtocol (store w) in
  a <> 0 -> yp_hasCode a (yp w) = true -> amt <> 0 ->
  erc20_approve (this w) a amt (usdc w) = Ok tok1 ->
  yp_deposit a (this w) amt (yp w, tok1) = None ->
  exists w',
    _depositToYield amt w = Ok w'
    /\ store w' = store w /\ yp w' = yp w /\ events w' = events w
    /\ balances (usdc w') = balances (usdc w)
    /\ allowance (usdc w') (this w) a = 0.
Proof.
  intros a Ha Hcode Hamt Happ Hdep. subst a.
  unfold _depositToYield, extcall.
  rewrite (proj2 (N.eqb_neq _ _) Ha), (proj2 (N.eqb_neq _ _) Hamt).
  rewrite Happ. cbn. rewrite Hcode, Hdep. cbn.
  pose proof Happ as Hb. apply erc20_approve_balances in Hb as (Hb & _).
  unfold erc20_approve in *.
  destruct (this w =? 0); [discriminate|].
  destruct (yieldProtocol (store w) =? 0); [discriminate|].
  cbn. eexists. split; [reflexivity|]. cbn.
  split_and!; try reflexivity.
  - exact Hb.
  - unfold allowance. cbn. rewrite lookup_insert_eq. reflexivity.
Qed.

End YieldBooks.

Section ViewFunctions.
Context {Y : Type} `{!IYieldProtocol Y} `{!Keccak256} `{!IYieldProtocolInfo Y}.
Implicit Types (w : World Y) (sender : address).

(** X21.  getNextDeductionDate reports, for a running plan up to its end
    date, the day after the date executeDeduction schedules by: whenever it
    returns a date for such a plan, that date is
    startDate + (successfulDeductions + 1) days, one day later than the
    expected deduction date startDate + successfulDeductions days.  For a
    plan that is not running, or after the end date, it returns 0. *)
Theorem X21_next_date_is_a_day_ahead id w n :
  getNextDeductionDate id w = Ok n ->
  let plan := plan_at (store w) id in
  (isActive plan = true -> isCompleted plan = false ->
   timestamp w <= endDate plan ->
   exists expected,
     expectedDeductionDate plan = Ok expected /\ n = expected + days1)
  /\ (isActive plan = false \/ isCompleted plan = true
      \/ endDate plan < timestamp w -> n = 0).
Proof.
  intros H0 plan. unfold getNextDeductionDate in H0. fold plan in H0.
  unbind H0 as u Hid. split.
  - intros Hact Hdone Hle. rewrite Hact, Hdone in H0. cbn in H0.
    rewrite (proj2 (N.ltb_ge _ _) Hle) in H0.
    unbind H0 as k Hk. apply add_Ok in Hk as [-> Hk].
    unbind H0 as m Hm. apply mul_Ok in Hm as [-> Hm].
    apply add_Ok in H0 as [-> Hn].
    exists (startDate plan + successfulDeductions plan * days1).
    split; [|lia]. apply expectedDeductionDate_Ok.
    unfold days1 in *. split_and!; [reflexivity | lia | lia].
  - intros Hoff.
    destruct (negb (isActive plan) || isCompleted plan) eqn:Hrun.
    + injection H0 as <-. reflexivity.
    + apply orb_false_iff in Hrun as [Ha Hc].
      apply negb_false_iff in Ha.
      destruct Hoff as [Hx | [Hx | Hx]]; try congruence.
      rewrite (proj2 (N.ltb_lt _ _) Hx) in H0. injection H0 as <-.
      reflexivity.
Qed.

(** X22.  getProjectedBalance cannot be read after a plan's end date: for
    an existing plan whose endDate lies before the block time it reverts
    with an arithmetic panic (the subtraction endDate - block.timestamp
    underflows).  Up to the end date, with no yield protocol configured, it
    returns accumulatedBalance + dailyAmount * remaining whole days. *)
Theorem X22_projection_stops_at_maturity id w :
  1 <= id -> id <= totalPlans (store w) ->
  let plan := plan_at (store w) id in
  (endDate plan < timestamp w ->
   getProjectedBalance id w = Revert PanicArithmetic)
  /\ (timestamp w <= endDate plan -> yieldProtocol (store w) = 0 ->
      let daysRemaining := (endDate plan - timestamp w) / days1 in
      accumulatedBalance plan + dailyAmount plan * daysRemaining
      <= MAX_UINT256 ->
      getProjectedBalance id w
      = Ok (accumulatedBalance plan + dailyAmount plan * daysRemaining)).
Proof.
  intros H1 H2 plan. subst plan. split.
  - intros Hlate. unfold getProjectedBalance, validPlanId, require, sub.
    settle_tests. reflexivity.
  - intros Hle Hz daysRemaining Hfit. subst daysRemaining.
    unfold getProjectedBalance, validPlanId, require, sub, add, mul.
    rewrite Hz. settle_tests.
    destruct (N.ltb_spec 0 ((endDate (plan_at (store w) id) - timestamp w)
                            / days1)) as [Hpos | Hzero]; cbn.
    + destruct (N.ltb_spec (timestamp w) (endDate (plan_at (store w) id)))
        as [Hlt | Hge]; cbn.
      * settle_tests. reflexivity.
      * assert (Heq : endDate (plan_at (store w) id) - timestamp w = 0)
          by lia.
        rewrite Heq, N.Div0.div_0_l in Hpos. lia.
    + apply N.le_0_r in Hzero.
      rewrite Hzero, N.mul_0_r, N.add_0_r. reflexivity.
Qed.

(** X23.  calculateEarlyWithdrawalPenalty, asked about the amount a
    withdrawal is for, returns exactly the penalty that withdraw keeps
    (requested - paid), and a plan that isPlanMature reports as mature is
    paid in full.  Asked about the amount 0 it returns 0, although
    withdraw(id, 0) is charged on the whole balance. *)
Theorem X23_penalty_view_matches_withdraw sender id amt w paid w' :
  withdraw sender id amt w = Ok (paid, w') ->
  let plan := plan_at (store w) id in
  let available := accumulatedBalance plan + yieldEarned plan in
  let requested := if amt =? 0 then available else amt in
  calculateEarlyWithdrawalPenalty id requested w = Ok (requested - paid)
  /\ isPlanMature id w = Ok (negb (timestamp w <? endDate plan))
  /\ (isPlanMature id w = Ok true -> paid = requested)
  /\ calculateEarlyWithdrawalPenalty id 0 w = Ok 0.
Proof.
  intros H0. cbv zeta.
  pose proof H0 as Hw. apply withdraw_effects in Hw as (Hpaid & _ & Hle & _).
  cbv zeta in Hpaid, Hle.
  unfold withdraw in H0. unbind H0 as u1 Hid. unbind H0 as u2 Hown.
  unbind H0 as u3 Hact. unbind H0 as avail Hav. unbind H0 as u4 Hreq.
  apply add_Ok in Hav as [-> _].
  unfold calculateEarlyWithdrawalPenalty, isPlanMature. rewrite Hid. cbn.
  unfold uint256 in *.
  set (plan := plan_at (store w) id) in *.
  set (requested := if amt =? 0 then _ else amt) in *.
  assert (Hm : (endDate plan <=? timestamp w)
               = negb (timestamp w <? endDate plan)).
  { destruct (N.leb_spec (endDate plan) (timestamp w)),
             (N.ltb_spec (timestamp w) (endDate plan)); try reflexivity; lia. }
  rewrite Hm. split_and!.
  - destruct (timestamp w <? endDate plan) eqn:Hearly; cbn [negb].
    + unbind H0 as pw Hpw. unbind Hpw as m Hmul. rewrite Hmul. cbn [mbind res_bind bind].
      apply mul_Ok in Hmul as [-> _]. f_equal.
      set (q := _ / 10000) in *. clearbody q. subst paid. lia.
    + f_equal. subst paid. lia.
  - reflexivity.
  - intros Hmat. injection Hmat as Hmat. apply negb_true_iff in Hmat.
    rewrite Hmat in Hpaid. lia.
  - destruct (timestamp w <? endDate plan); cbn; reflexivity.
Qed.

(** X24.  The balance and protocol views do not fail with the protocol.
    When the configured protocol has code but its calls revert,
    getTotalContractBalance returns the contract's own token balance and
    getYieldProtocolInfo returns the protocol address with the name
    "Unknown", APY 0, unhealthy and balance 0; with no protocol configured
    the former still returns the token balance and the latter all
    zeros. *)
Theorem X24_views_survive_failing_protocol w :
  let a := yieldProtocol (store w) in
  balanceOf (usdc w) (this w) <= MAX_UINT256 ->
  (a = 0 ->
   getTotalContractBalance w = Ok (balanceOf (usdc w) (this w))
   /\ getYieldProtocolInfo w = Ok (0, ""%string, 0, false, 0))
  /\ (a <> 0 -> yp_hasCode a (yp w) = true ->
      yp_getBalance a (yp w, usdc w) = None ->
      getTotalContractBalance w = Ok (balanceOf (usdc w) (this w)))
  /\ (a <> 0 -> yp_hasCode a (yp w) = true ->
      yp_getBalance a (yp w, usdc w) = None ->
      yp_getAPY a (yp w, usdc w) = None ->
      yp_getProtocolName a (yp w, usdc w) = None ->
      yp_isHealthy a (yp w, usdc w) = None ->
      getYieldProtocolInfo w = Ok (a, "Unknown"%string, 0, false, 0)).
Proof.
  intros a Hfit. subst a.
  unfold getTotalContractBalance, getYieldProtocolInfo, yieldBalanceOrZero,
    extcall, add.
  split_and!.
  - intros Hz. rewrite Hz. cbn. rewrite N.add_0_r.
    rewrite (proj2 (N.leb_le _ _) Hfit). auto.
  - intros Hne Hcode Hbal.
    rewrite (proj2 (N.eqb_neq _ _) Hne), Hcode, Hbal. cbn.
    rewrite N.add_0_r, (proj2 (N.leb_le _ _) Hfit). reflexivity.
  - intros Hne Hcode Hbal Hapy Hname Hh.
    rewrite (proj2 (N.eqb_neq _ _) Hne), Hcode, Hbal, Hapy, Hname, Hh.
    reflexivity.
Qed.

(** X25.  _verifyAccounting accepts only when the booked total
    totalPrincipal + totalUserYield + totalProtocolYield is at least 1 USDC
    (10^6) and the funds held, on chain plus in the protocol, lie within
    1 USDC of it.  While the booked total is below 1 USDC the check never
    reports AccountingMismatch for a shortfall: it panics on the
    subtraction instead. *)
Theorem X25_accounting_check_needs_one_usdc w :
  let s := store w in
  let booked := totalPrincipal s + totalUserYield s + totalProtocolYield s in
  (_verifyAccounting w = Ok tt ->
   exists yieldBalance,
     yieldBalanceOrZero w = Ok yieldBalance
     /\ 10 ^ 6 <= booked
     /\ booked - 10 ^ 6 <= balanceOf (usdc w) (this w) + yieldBalance
     /\ balanceOf (usdc w) (this w) + yieldBalance <= booked + 10 ^ 6)
  /\ (booked < 10 ^ 6 -> booked <= MAX_UINT256 ->
      forall yieldBalance,
        yieldBalanceOrZero w = Ok yieldBalance ->
        balanceOf (usdc w) (this w) + yieldBalance <= MAX_UINT256 ->
        _verifyAccounting w = Revert PanicArithmetic).
Proof.
  intros s booked. subst s booked. split.
  - intros H0. unfold _verifyAccounting in H0.
    unbind H0 as yieldBalance Hy. exists yieldBalance.
    split; [exact Hy|].
    unbind H0 as totalFunds Ht. apply add_Ok in Ht as [-> _].
    unbind H0 as e1 He1. apply add_Ok in He1 as [-> _].
    unbind H0 as e He. apply add_Ok in He as [-> _].
    unbind H0 as low Hlow. apply sub_Ok in Hlow as [-> Hlow].
    destruct (N.ltb_spec (balanceOf (usdc w) (this w) + yieldBalance)
                (totalPrincipal (store w) + totalUserYield (store w)
                 + totalProtocolYield (store w) - 10 ^ 6)); [discriminate|].
    unbind H0 as high Hhigh. apply add_Ok in Hhigh as [-> _].
    destruct (N.ltb_spec (totalPrincipal (store w) + totalUserYield (store w)
                          + totalProtocolYield (store w) + 10 ^ 6)
                (balanceOf (usdc w) (this w) + yieldBalance));
      [discriminate|].
    split_and!; assumption.
  - intros Hsmall Hfit yieldBalance Hy Hfunds.
    unfold _verifyAccounting. rewrite Hy. cbn.
    unfold add, sub.
    rewrite (proj2 (N.leb_le _ _) Hfunds). cbn.
    assert (H1 : totalPrincipal (store w) + totalUserYield (store w)
                 <= MAX_UINT256) by lia.
    rewrite (proj2 (N.leb_le _ _) H1). cbn.
    rewrite (proj2 (N.leb_le _ _) Hfit). cbn.
    rewrite (proj2 (N.leb_gt _ _) Hsmall). reflexivity.
Qed.

End ViewFunctions.

Lemma X19_harvest_books_the_surplus_witness :
  totalUserYield
    (store (world_after (yield_accruing ++ [ Tx DEPLOYER HarvestYield ])))
  = 40
  /\ totalProtocolYield
       (store (world_after (yield_accruing ++ [ Tx DEPLOYER HarvestYield ])))
     = 10.
Proof.
  assert (Hh : harvestYield DEPLOYER (world_after yield_accruing)
               = Ok (world_after
                       (yield_accruing ++ [ Tx DEPLOYER HarvestYield ])))
    by (vm_compute; reflexivity).
  destruct (X19_harvest_books_the_surplus _ _ _ Hh)
    as [[Hsame _] | (yb & Hcall & _ & _ & _ & Hu & Hp & _)].
  - apply (f_equal (fun w => lastYieldHarvest (store w))) in Hsame.
    vm_compute in Hsame. discriminate Hsame.
  - assert (Hyb : yb = 1050).
    { vm_compute in Hcall. injection Hcall as <-. reflexivity. }
    subst yb. split.
    + rewrite Hu. vm_compute. reflexivity.
    + rewrite Hp. vm_compute. reflexivity.
Defined.

Lemma X20_rejected_deposit_is_absorbed_witness :
  exists w',
    _depositToYield 5 (world_after protocol_configured) = Ok w'
    /\ store w' = store (world_after protocol_configured)
    /\ allowance (usdc w') SAVINGS MOCK = 0.
Proof.
  edestruct (X20_rejected_deposit_is_absorbed 5
               (world_after protocol_configured))
    as (w' & Hd & Hs & _ & _ & _ & Ha).
  - vm_compute. discriminate.
  - vm_compute. reflexivity.
  - discriminate.
  - vm_compute. reflexivity.
  - vm_compute. reflexivity.
  - exists w'. split; [exact Hd|]. split; [exact Hs|].
    exact Ha.
Defined.

Lemma X21_next_date_is_a_day_ahead_witness :
  exists expected,
    expectedDeductionDate (plan_at (store (world_after alice_opens_plan)) 1)
    = Ok expected
    /\ T0 + days1 = expected + days1.
Proof.
  refine (proj1 (X21_next_date_is_a_day_ahead 1 (world_after alice_opens_plan)
                   (T0 + days1) _) _ _ _).
  - vm_compute. reflexivity.
  - vm_compute. reflexivity.
  - vm_compute. reflexivity.
  - vm_compute. discriminate.
Defined.

Lemma X22_projection_stops_at_maturity_witness :
  getProjectedBalance 1 (world_after past_maturity) = Revert PanicArithmetic.
Proof.
  refine (proj1 (X22_projection_stops_at_maturity 1
                   (world_after past_maturity) _ _) _).
  - vm_compute. discriminate.
  - vm_compute. discriminate.
  - vm_compute. reflexivity.
Defined.

Lemma X23_penalty_view_matches_withdraw_witness :
  calculateEarlyWithdrawalPenalty 1 10 (world_after one_deduction) = Ok 1
  /\ calculateEarlyWithdrawalPenalty 1 0 (world_after one_deduction) = Ok 0.
Proof.
  assert (Hw : withdraw ALICE 1 0 (world_after one_deduction)
               = Ok (9, world_after
                          (one_deduction ++ [ Tx ALICE (Withdraw 1 0) ])))
    by (vm_compute; reflexivity).
  assert (Hq : accumulatedBalance (plan_at (store (world_after one_deduction)) 1)
               + yieldEarned (plan_at (store (world_after one_deduction)) 1)
               = 10) by (vm_compute; reflexivity).
  destruct (X23_penalty_view_matches_withdraw _ _ _ _ _ _ Hw)
    as (Hp & _ & _ & Hz).
  cbv zeta in Hp. rewrite Hq in Hp. cbn in Hp.
  split; [exact Hp | exact Hz].
Defined.

Lemma X24_views_survive_failing_protocol_witness :
  @getTotalContractBalance unit reverting_protocol behind_reverting_protocol
  = Ok 25
  /\ @getYieldProtocolInfo unit reverting_protocol reverting_protocol_info
       behind_reverting_protocol
     = Ok (7, "Unknown"%string, 0, false, 0).
Proof.
  pose proof (@X24_views_survive_failing_protocol unit reverting_protocol
                reverting_protocol_info behind_reverting_protocol)
    as Hv.
  cbv zeta in Hv.
  assert (Hfit : balanceOf (usdc behind_reverting_protocol)
                   (this behind_reverting_protocol) <= MAX_UINT256)
    by (vm_compute; discriminate).
  destruct (Hv Hfit) as (_ & Hb & Hi).
  split.
  - refine (eq_trans (Hb _ _ _) _); try reflexivity.
    vm_compute. discriminate.
  - refine (eq_trans (Hi _ _ _ _ _ _) _); try reflexivity.
    vm_compute. discriminate.
Defined.

Lemma X25_accounting_check_needs_one_usdc_witness :
  _verifyAccounting (world_after yield_accruing) = Revert PanicArithmetic.
Proof.
  refine (proj2 (X25_accounting_check_needs_one_usdc
                   (world_after yield_accruing)) _ _ 1050 _ _).
  - vm_compute. reflexivity.
  - vm_compute. discriminate.
  - vm_compute. reflexivity.
  - vm_compute. discriminate.
Defined.

(** * Access control, a dead parameter and the mock protocol *)

Section AccessControl.
Context {Y : Type} `{!IYieldProtocol Y} `{!Keccak256} `{!IYieldProtocolInfo Y}.
Implicit Types (w : World Y) (sender : address).

Lemma batchLoop_config ids : forall w w',
  batchLoop ids w = Ok w' ->
  config (store w') = config (store w) /\ roles (store w') = roles (store w).
Proof.
  induction ids as [|id ids IH]; cbn; intros w w' H0.
  - injection H0 as <-. auto.
  - unbind H0 as w1 Hitem. apply IH in H0 as [-> ->].
    unfold batchItem in Hitem.
    crunch Hitem; injection Hitem as <-; cbn; auto.
Qed.

(** After the control flow of a call is split in [H]: either a check that
    the caller fails has passed, or the call left the configuration, the
    roles and the requests alone. *)
Ltac unprivileged H :=
  crunch H; injection H as <-; check_facts;
  try congruence;
  cbn; yield_frames;
  (split_and!; [ reflexivity | set_solver
               | intros ?; first [reflexivity | congruence] ]).

(** X26.  A caller that holds no DEFAULT_ADMIN_ROLE and is neither the
    owner nor the pending owner cannot change the configuration: whatever
    call of the contract it makes, the yield protocol, the penalty, the
    daily limits, the fee and yield-share settings, the deposit threshold,
    the emergency delay, the pause flag, the owner and the pending owner
    stay as they were and no account gains a role; without EMERGENCY_ROLE it
    cannot touch the emergency withdrawal requests either. *)
Theorem X26_unprivileged_calls_keep_configuration sender c w w' :
  exec sender c w = Ok w' ->
  hasRole (store w) DEFAULT_ADMIN_ROLE sender = false ->
  _owner (store w) <> sender -> _pendingOwner (store w) <> sender ->
  config (store w') = config (store w)
  /\ roles (store w') ⊆ roles (store w)
  /\ (hasRole (store w) EMERGENCY_ROLE sender = false ->
      emergencyWithdrawals (store w') = emergencyWithdrawals (store w)).
Proof.
  intros H0 Hadm Hown Hpend. destruct c; cbn in H0.
  - unfold createPlan in H0. unprivileged H0.
  - unfold executeDeduction in H0. unprivileged H0.
  - unfold executeDeductionsBatch in H0.
    unbind H0 as u Hp. unbind H0 as w1 Hloop.
    pose proof (batchLoop_config _ _ _ Hloop) as [Hc Hr].
    apply batchLoop_registry in Hloop as [_ He].
    rewrite <- Hc, <- Hr, <- He.
    crunch H0; injection H0 as <-; cbn; yield_frames;
      (split_and!; [reflexivity | set_solver | intros _; reflexivity]).
  - unfold withdraw in H0. unprivileged H0.
  - unfold claimYield, _calculateAndDistributeYield in H0. unprivileged H0.
  - unfold setYieldProtocol in H0. unprivileged H0.
  - unfold setEarlyWithdrawalPenalty in H0. unprivileged H0.
  - unfold setDailyDeductionLimits in H0. unprivileged H0.
  - unfold setYieldDistribution in H0. unprivileged H0.
  - unfold setMinYieldDepositThreshold in H0. unprivileged H0.
  - unfold harvestYield in H0. unprivileged H0.
  - unfold emergencyExitYield in H0. unprivileged H0.
  - unfold scheduleEmergencyWithdrawal in H0. unprivileged H0.
  - unfold executeEmergencyWithdrawal, emergencyAmount in H0. unprivileged H0.
  - unfold cancelEmergencyWithdrawal in H0. unprivileged H0.
  - unfold withdrawProtocolFees in H0. unprivileged H0.
  - unfold pause in H0. unprivileged H0.
  - unfold unpause in H0. unprivileged H0.
  - unfold setEmergencyWithdrawalDelay in H0. unprivileged H0.
  - unfold grantRole in H0. unprivileged H0.
  - unfold revokeRole in H0. unprivileged H0.
  - unfold renounceRole in H0.
    unbind H0 as u Hc.
    destruct (hasRole (store w) r sender); injection H0 as <-; cbn;
      (split_and!; [reflexivity | | intros ?; reflexivity]).
    + intros x Hx. apply elem_of_difference in Hx as [Hx _]. exact Hx.
    + reflexivity.
  - unfold transferOwnership in H0. unprivileged H0.
  - unfold acceptOwnership in H0. unprivileged H0.
  - unfold renounceOwnership in H0. unprivileged H0.
Qed.

End AccessControl.

(** X28.  MockYieldProtocol at an APY of zero gives back what was put in.
    When its shares are backed one to one (totalShares = totalDeposited, as
    after its constructor), a deposit of amt returns amt shares, and
    withdrawing those shares right away returns exactly amt and restores the
    depositor's and the mock's token balances, the depositor's shares and
    both totals. *)
Theorem X28_mock_round_trip sender amt y t n y1 t1 :
  apy y = 0 -> totalShares y = totalDeposited y ->
  0 < amt -> sender <> mock_address y ->
  amt * (totalDeposited y + amt) <= MAX_UINT256 ->
  mock_deposit sender amt (y, t) = Ok (n, (y1, t1)) ->
  n = amt
  /\ exists y2 t2,
       mock_withdraw sender n (y1, t1) = Ok (amt, (y2, t2))
       /\ balanceOf t2 sender = balanceOf t sender
       /\ balanceOf t2 (mock_address y) = balanceOf t (mock_address y)
       /\ totalDeposited y2 = totalDeposited y
       /\ totalShares y2 = totalShares y
       /\ mock_sharesOf y2 sender = mock_sharesOf y sender.
Proof.
  intros Hapy Hback Hpos Hne Hfit H0.
  unfold mock_deposit in H0. cbn in H0.
  unbind H0 as tok Htok. unbind H0 as mine Hmine. unbind H0 as td Htd.
  unbind H0 as ts Hts. injection H0 as <- <- <-.
  apply add_Ok in Hmine as [-> Hmine]. apply add_Ok in Htd as [-> Htd].
  apply add_Ok in Hts as [-> Hts].
  split; [reflexivity|].
  pose proof Htok as Hin.
  apply erc20_transferFrom_effects in Hin as (Hbal & Hoth & Hmove & _).
  destruct (Hmove (not_eq_sym Hne)) as [Hto Hfrom].
  assert (Hsender : sender <> 0).
  { unfold erc20_transferFrom, erc20_transfer in Htok.
    intros ->. cbn in Htok.
    destruct (if allowance t 0 (mock_address y) <? MAX_UINT256
              then _ else _); cbn in Htok; discriminate. }
  assert (Hmock : mock_address y <> 0).
  { unfold erc20_transferFrom, erc20_transfer in Htok.
    intros Hz. rewrite Hz in Htok.
    destruct (if allowance t sender 0 <? MAX_UINT256 then _ else _);
      cbn in Htok; [|discriminate].
    destruct (sender =? 0); cbn in Htok; discriminate. }
  assert (Hamt : amt <= MAX_UINT256) by nia.
  assert (Hq : amt * (totalDeposited y + amt) / (totalDeposited y + amt)
               = amt) by (apply N.div_mul; lia).
  unfold mock_withdraw, mock_sharesOf, require, mul, div, add, sub,
    erc20_transfer. cbn.
  rewrite lookup_insert_eq. cbn. rewrite Hapy, Hback.
  unfold mock_sharesOf in *.
  settle_tests. rewrite Hq, !N.mul_0_r. cbn. rewrite N.add_0_r.
  settle_tests.
  eexists _, _. split; [reflexivity|]. cbn.
  unfold balanceOf in *. cbn.
  rewrite lookup_insert_eq. cbn.
  rewrite (lookup_insert_ne _ (mock_address y) sender) by congruence.
  rewrite (lookup_insert_ne _ sender (mock_address y)) by congruence.
  rewrite !lookup_insert_eq. cbn.
  unfold uint256, address in *.
  split_and!; lia.
Qed.

(** Run both sides of an equation between two runs along the same control
    flow. *)
Ltac same_run :=
  repeat (unfold plan_at, withdrawal_at, whenNotPaused, whenPaused,
            onlyRole, validPlanId, onlyPlanOwner, onlyOwner;
          cbn;
          repeat match goal with
                 | |- context [hasRole (set_protocolFeeBps ?v ?s) ?r ?a] =>
                     change (hasRole (set_protocolFeeBps v s) r a)
                       with (hasRole s r a)
                 end;
          try reflexivity;
    match goal with
    | |- ?lhs = _ =>
        let x := scrutinee lhs in
        lazymatch x with
        | Ok _ => fail
        | Revert _ => fail
        | _ => destruct x eqn:?
        end
    end).

Section DeadParameter.
Context {Y : Type} `{!IYieldProtocol Y} `{!Keccak256} `{!IYieldProtocolInfo Y}.
Implicit Types (w : World Y) (sender : address).

Lemma batchItem_fee v id w :
  batchItem id (on_store (set_protocolFeeBps v) w)
  = res_map (on_store (set_protocolFeeBps v)) (batchItem id w).
Proof. unfold batchItem. same_run. Qed.

Lemma batchLoop_fee v ids : forall w,
  batchLoop ids (on_store (set_protocolFeeBps v) w)
  = res_map (on_store (set_protocolFeeBps v)) (batchLoop ids w).
Proof.
  induction ids as [|id ids IH]; intros w; [reflexivity|].
  cbn [batchLoop]. rewrite batchItem_fee.
  destruct (batchItem id w) as [w1|e]; cbn; [apply IH | reflexivity].
Qed.

(** X27.  protocolFeeBps is never read.  Apart from setYieldDistribution,
    which overwrites it (and reports its old value in an event), every call
    runs the same way whatever protocolFeeBps holds: it succeeds or reverts
    alike, and the state it reaches differs in nothing but the value of
    protocolFeeBps carried along. *)
Theorem X27_protocolFeeBps_is_never_read sender c v w :
  (forall u f, c <> SetYieldDistribution u f) ->
  exec sender c (on_store (set_protocolFeeBps v) w)
  = res_map (on_store (set_protocolFeeBps v)) (exec sender c w).
Proof.
  intros Hc. destruct c; cbn [exec].
  - unfold createPlan. same_run.
  - unfold executeDeduction, _depositToYield. same_run.
  - unfold executeDeductionsBatch, whenNotPaused. cbn.
    destruct (require (negb (paused (store w))) EnforcedPause) as [u|e];
      cbn; [|reflexivity].
    rewrite batchLoop_fee.
    destruct (batchLoop ids w) as [w1|e]; cbn; [|reflexivity].
    unfold _depositToYield. same_run.
  - unfold withdraw, pullFromYieldIfNeeded, _withdrawFromYield. same_run.
  - unfold claimYield, _calculateAndDistributeYield, pullFromYieldIfNeeded,
      _withdrawFromYield.
    same_run.
  - unfold setYieldProtocol. same_run.
  - unfold setEarlyWithdrawalPenalty. same_run.
  - unfold setDailyDeductionLimits. same_run.
  - exfalso. eapply Hc. reflexivity.
  - unfold setMinYieldDepositThreshold. same_run.
  - unfold harvestYield, _withdrawFromYield. same_run.
  - unfold emergencyExitYield. same_run.
  - unfold scheduleEmergencyWithdrawal. same_run.
  - unfold executeEmergencyWithdrawal, emergencyAmount, pullFromYieldIfNeeded,
      _withdrawFromYield.
    same_run.
  - unfold cancelEmergencyWithdrawal. same_run.
  - unfold withdrawProtocolFees. same_run.
  - unfold pause. same_run.
  - unfold unpause. same_run.
  - unfold setEmergencyWithdrawalDelay. same_run.
  - unfold grantRole. same_run.
  - unfold revokeRole. same_run.
  - unfold renounceRole. same_run.
  - unfold transferOwnership. same_run.
  - unfold acceptOwnership. same_run.
  - unfold renounceOwnership. same_run.
Qed.

End DeadParameter.

Lemma X26_unprivileged_calls_keep_configuration_witness :
  config (store (world_after [ Tx ALICE (CreatePlan 10 ONE_MONTH) ]))
  = config (store (world_after [])).
Proof.
  refine (proj1 (X26_unprivileged_calls_keep_configuration ALICE
                   (CreatePlan 10 ONE_MONTH) (world_after [])
                   (world_after [ Tx ALICE (CreatePlan 10 ONE_MONTH) ])
                   _ _ _ _)).
  - vm_compute. reflexivity.
  - vm_compute. reflexivity.
  - vm_compute. discriminate.
  - vm_compute. discriminate.
Defined.

Lemma X27_protocolFeeBps_is_never_read_witness :
  exec DEPLOYER HarvestYield
    (on_store (set_protocolFeeBps 9999) (world_after yield_accruing))
  = res_map (on_store (set_protocolFeeBps 9999))
      (exec DEPLOYER HarvestYield (world_after yield_accruing)).
Proof.
  refine (X27_protocolFeeBps_is_never_read DEPLOYER HarvestYield 9999
            (world_after yield_accruing) _).
  intros u f. discriminate.
Defined.

Lemma X28_mock_round_trip_witness :
  match mock_deposit ALICE 100
          (mock_setAPY 0 mock0,
           usdc (world_after [ Mint ALICE 1000; Approve ALICE MOCK 1000 ]))
  with
  | Ok (n, yt1) => n = 100 /\ res_map fst (mock_withdraw ALICE n yt1) = Ok 100
  | Revert _ => False
  end.
Proof.
  destruct (mock_deposit ALICE 100
              (mock_setAPY 0 mock0,
               usdc (world_after [ Mint ALICE 1000; Approve ALICE MOCK 1000 ])))
    as [[n [y1 t1]]|e] eqn:Hd; [|vm_compute in Hd; discriminate Hd].
  destruct (X28_mock_round_trip ALICE 100 (mock_setAPY 0 mock0)
              (usdc (world_after [ Mint ALICE 1000; Approve ALICE MOCK 1000 ]))
              n y1 t1) as (Hn & y2 & t2 & Hw & _).
  - reflexivity.
  - reflexivity.
  - reflexivity.
  - intros Heq. vm_compute in Heq. discriminate Heq.
  - intros Hgt. vm_compute in Hgt. discriminate Hgt.
  - exact Hd.
  - split; [exact Hn|]. rewrite Hw. reflexivity.
Defined.
